(** * videoxt: the preparation layer ([videoxt/preppers.py])

    A shallow embedding of the functions that turn a request into an
    extraction range, dimensions, a destination path and an expected image
    count, together with the properties the specification states about them.

    Python values are modelled as follows.
    - [int] is [Z] (unbounded).
    - [float] is an IEEE 754 binary64 value, [spec_float] of the standard
      library with [prec = 53] and [emax = 1024]; arithmetic, comparisons and
      rounding are the library's executable definitions.
    - [str] is [string].
    - [Optional[T]] is [option T]; [None] is [None].
    - an exception is the [Raise] branch of [result]. *)

From Stdlib Require Import ZArith NArith QArith Qround List Bool Lia.
From Stdlib Require Import Strings.String Strings.Ascii.
From Stdlib Require Import Floats.SpecFloat.
From Stdlib Require Import Numbers.DecimalString Numbers.DecimalN.
From Stdlib Require Import FinFun.
Import ListNotations.

Local Open Scope Z_scope.

(** ** Exceptions and results *)

(** The exceptions that can leave the modelled functions.  The first one is
    [videoxt.exceptions.PreparationError]; the next three are the error kinds
    the specification gives to the validators and the converters; the others
    are Python built-ins, except the last, which no Python code raises: it
    marks the probe bound of the modelled path enumeration and is shown
    below never to occur. *)
Inductive exn : Type :=
| PreparationError
| RangeError
| FormatError
| DomainError
| ValueError
| OverflowError
| TypeError
| AttributeError
| ZeroDivisionError
| OutOfFuel.

Inductive result (A : Type) : Type :=
| Ok (a : A)
| Raise (e : exn).

Arguments Ok {A} a.
Arguments Raise {A} e.

Definition bind {A B : Type} (r : result A) (k : A -> result B) : result B :=
  match r with
  | Ok a => k a
  | Raise e => Raise e
  end.

Notation "x <- r ;; k" := (bind r (fun x => k))
  (at level 61, r at next level, right associativity).
Notation "' p <- r ;; k" := (bind r (fun x => match x with p => k end))
  (at level 61, p pattern, r at next level, right associativity).

Definition exn_eqb (a b : exn) : bool :=
  match a, b with
  | PreparationError, PreparationError
  | RangeError, RangeError
  | FormatError, FormatError
  | DomainError, DomainError
  | ValueError, ValueError
  | OverflowError, OverflowError
  | TypeError, TypeError
  | AttributeError, AttributeError
  | ZeroDivisionError, ZeroDivisionError
  | OutOfFuel, OutOfFuel => true
  | _, _ => false
  end.

(** ** Python floats *)

Module PyFloat.

Definition float : Type := spec_float.

Definition prec : Z := 53.
Definition emax : Z := 1024.

Definition zero : float := S754_zero false.

(** [float(n)] for an [int]: the nearest binary64 value, ties to even;
    [OverflowError] when [n] is too large. *)
Definition of_int (n : Z) : result float :=
  match binary_normalize prec emax n 0 false with
  | S754_infinity _ => Raise OverflowError
  | f => Ok f
  end.

(** The literal of a small integer, for constants such as [1.0]. *)
Definition lit (n : Z) : float := binary_normalize prec emax n 0 false.

Definition mul (x y : float) : float := SFmul prec emax x y.

(** [x < y], [x <= y], [x == y]; every comparison with NaN is [False]. *)
Definition ltb (x y : float) : bool := SFltb x y.
Definition leb (x y : float) : bool := SFleb x y.
Definition eqb (x y : float) : bool := SFeqb x y.
Definition gtb (x y : float) : bool := SFltb y x.
Definition geb (x y : float) : bool := SFleb y x.
(** [x != y] is the negation of [==], so it is [True] on NaN. *)
Definition neqb (x y : float) : bool := negb (SFeqb x y).

Definition is_finite (x : float) : bool :=
  match x with
  | S754_zero _ | S754_finite _ _ _ => true
  | _ => false
  end.

(** [math.floor(x)]: [Z.shiftl] by a negative amount is the floor division
    by the power of two. *)
Definition floor (x : float) : result Z :=
  match x with
  | S754_nan => Raise ValueError
  | S754_infinity _ => Raise OverflowError
  | S754_zero _ => Ok 0
  | S754_finite s m e => Ok (Z.shiftl (cond_Zopp s (Zpos m)) e)
  end.

(** [math.ceil(x)]. *)
Definition ceil (x : float) : result Z :=
  match x with
  | S754_nan => Raise ValueError
  | S754_infinity _ => Raise OverflowError
  | S754_zero _ => Ok 0
  | S754_finite s m e => Ok (- Z.shiftl (cond_Zopp (negb s) (Zpos m)) e)
  end.

(** [int(x)]: truncation toward zero. *)
Definition trunc (x : float) : result Z :=
  match x with
  | S754_nan => Raise ValueError
  | S754_infinity _ => Raise OverflowError
  | S754_zero _ => Ok 0
  | S754_finite s m e => Ok (cond_Zopp s (Z.shiftl (Zpos m) e))
  end.

(** An [int] as an exact significand with exponent 0, of any width. *)
Definition wide (n : Z) : float :=
  match n with
  | Z0 => S754_zero false
  | Zpos m => S754_finite false m 0
  | Zneg m => S754_finite true m 0
  end.

(** [a / b] on two [int]s: [ZeroDivisionError] when [b = 0], otherwise the
    quotient of the two integers rounded once to the nearest binary64 value
    (ties to even), [OverflowError] when it is too large.  [0 / b] takes
    the sign of [b]. *)
Definition int_truediv (a b : Z) : result float :=
  if b =? 0 then Raise ZeroDivisionError
  else
    match a with
    | Z0 => Ok (S754_zero (b <? 0))
    | _ =>
        match SFdiv prec emax (wide a) (wide b) with
        | S754_infinity _ => Raise OverflowError
        | f => Ok f
        end
    end.

End PyFloat.

Definition float : Type := PyFloat.float.

(** ** Times: [float | int | str] *)

Inductive number : Type :=
| Int (n : Z)
| Float (x : float).

Inductive time_t : Type :=
| Num (n : number)
| Str (s : string).

(** [float(x)] for [x] a [float] or an [int]. *)
Definition float_of_number (n : number) : result float :=
  match n with
  | Int z => PyFloat.of_int z
  | Float x => Ok x
  end.

(** ** The [ExtractionRange] dataclass *)

(** An attribute declared with [field(init=False)] does not exist until a
    method assigns it; reading it earlier raises [AttributeError]. *)
Inductive slot (A : Type) : Type :=
| Unset
| Assigned (v : A).

Arguments Unset {A}.
Arguments Assigned {A} v.

Definition read {A : Type} (s : slot A) : result A :=
  match s with
  | Unset => Raise AttributeError
  | Assigned v => Ok v
  end.

(** [stop_second] is the one attribute the class tests against [None], so its
    slot holds an [Optional[float]]. *)
Record ExtractionRange : Type := mkExtractionRange {
  duration_seconds : float;
  frame_count : Z;
  start_time : time_t;
  stop_time : time_t;
  fps : float;
  start_second : slot float;
  stop_second : slot (option float);
  start_timestamp : slot string;
  stop_timestamp : slot string;
  start_frame : slot Z;
  stop_frame : slot Z
}.

Definition set_start_second (self : ExtractionRange) (v : float) :=
  mkExtractionRange (duration_seconds self) (frame_count self) (start_time self)
    (stop_time self) (fps self) (Assigned v) (stop_second self)
    (start_timestamp self) (stop_timestamp self) (start_frame self)
    (stop_frame self).

Definition set_stop_second (self : ExtractionRange) (v : option float) :=
  mkExtractionRange (duration_seconds self) (frame_count self) (start_time self)
    (stop_time self) (fps self) (start_second self) (Assigned v)
    (start_timestamp self) (stop_timestamp self) (start_frame self)
    (stop_frame self).

Definition set_start_timestamp (self : ExtractionRange) (v : string) :=
  mkExtractionRange (duration_seconds self) (frame_count self) (start_time self)
    (stop_time self) (fps self) (start_second self) (stop_second self)
    (Assigned v) (stop_timestamp self) (start_frame self) (stop_frame self).

Definition set_stop_timestamp (self : ExtractionRange) (v : string) :=
  mkExtractionRange (duration_seconds self) (frame_count self) (start_time self)
    (stop_time self) (fps self) (start_second self) (stop_second self)
    (start_timestamp self) (Assigned v) (start_frame self) (stop_frame self).

Definition set_start_frame (self : ExtractionRange) (v : Z) :=
  mkExtractionRange (duration_seconds self) (frame_count self) (start_time self)
    (stop_time self) (fps self) (start_second self) (stop_second self)
    (start_timestamp self) (stop_timestamp self) (Assigned v) (stop_frame self).

Definition set_stop_frame (self : ExtractionRange) (v : Z) :=
  mkExtractionRange (duration_seconds self) (frame_count self) (start_time self)
    (stop_time self) (fps self) (start_second self) (stop_second self)
    (start_timestamp self) (stop_timestamp self) (start_frame self) (Assigned v).

(** The object the dataclass-generated [__init__] builds before it calls
    [__post_init__]. *)
Definition new_ExtractionRange (duration : float) (frames : Z)
    (start stop : time_t) (rate : float) : ExtractionRange :=
  mkExtractionRange duration frames start stop rate
    Unset Unset Unset Unset Unset Unset.

(** The dictionary [to_dict] returns, one field per key. *)
Record range_dict : Type := mkRangeDict {
  d_start_second : float;
  d_stop_second : option float;
  d_start_timestamp : string;
  d_stop_timestamp : string;
  d_start_frame : Z;
  d_stop_frame : Z
}.

(** A method of the class: it returns a value and the updated object, or
    raises. *)
Definition method (A : Type) : Type := ExtractionRange -> result (A * ExtractionRange).

(** Running a method for its effect on [self] only. *)
Definition exec {A : Type} (m : method A) (self : ExtractionRange)
  : result ExtractionRange :=
  '(_, self') <- m self ;; Ok self'.

(** ** [ExtractionRange] methods and [prepare_extraction_range]

    [videoxt/utils.py] and [videoxt/validators.py] are not part of the
    sources at hand, so the three functions the class calls from them are
    parameters here.  Their models after the specification follow the
    section and instantiate it. *)

Section Range.

(** [U.timestamp_to_seconds]. *)
Variable timestamp_to_seconds : string -> result float.
(** [U.seconds_to_timestamp]; the class passes it the requested time, an
    [int] or a [float]. *)
Variable seconds_to_timestamp : number -> result string.
(** [V.valid_extraction_range start stop duration]. *)
Variable valid_extraction_range :
  float -> float -> float -> result (float * float * float).

Definition _prepare_start_second : method float := fun self =>
  s <- match start_time self with
       | Num n => float_of_number n
       | Str t => timestamp_to_seconds t
       end ;;
  Ok (s, set_start_second self s).

Definition _prepare_stop_second : method float := fun self =>
  s <- match stop_time self with
       | Num n => float_of_number n
       | Str t => timestamp_to_seconds t
       end ;;
  Ok (s, set_stop_second self (Some s)).

(** The validator's result is returned and [self] is left as it is.  A
    [None] in [stop_second] would meet the validator's comparisons with a
    float, a TypeError. *)
Definition _validate_range : method (float * float * float) := fun self =>
  start <- read (start_second self) ;;
  ostop <- read (stop_second self) ;;
  match ostop with
  | None => Raise TypeError
  | Some stop =>
      r <- valid_extraction_range start stop (duration_seconds self) ;;
      Ok (r, self)
  end.

Definition _prepare_start_timestamp : method string := fun self =>
  t <- match start_time self with
       | Str s => Ok s
       | Num n => seconds_to_timestamp n
       end ;;
  Ok (t, set_start_timestamp self t).

Definition _prepare_stop_timestamp : method string := fun self =>
  t <- match stop_time self with
       | Str s => Ok s
       | Num n => seconds_to_timestamp n
       end ;;
  Ok (t, set_stop_timestamp self t).

Definition _prepare_start_frame : method Z := fun self =>
  s <- read (start_second self) ;;
  n <- PyFloat.floor (PyFloat.mul s (fps self)) ;;
  Ok (n, set_start_frame self n).

Definition _prepare_stop_frame : method Z := fun self =>
  ostop <- read (stop_second self) ;;
  n <- match ostop with
       | None => Ok (frame_count self)
       | Some s => PyFloat.floor (PyFloat.mul s (fps self))
       end ;;
  Ok (n, set_stop_frame self n).

Definition __post_init__ (self : ExtractionRange) : result ExtractionRange :=
  self <- exec _prepare_start_second self ;;
  self <- exec _prepare_stop_second self ;;
  self <- exec _validate_range self ;;
  self <- exec _prepare_start_timestamp self ;;
  self <- exec _prepare_stop_timestamp self ;;
  self <- exec _prepare_start_frame self ;;
  exec _prepare_stop_frame self.

Definition to_dict (self : ExtractionRange) : result range_dict :=
  a <- read (start_second self) ;;
  b <- read (stop_second self) ;;
  c <- read (start_timestamp self) ;;
  d <- read (stop_timestamp self) ;;
  e <- read (start_frame self) ;;
  f <- read (stop_frame self) ;;
  Ok (mkRangeDict a b c d e f).

Definition prepare_extraction_range (duration : float) (frames : Z)
    (prepared_start_time prepared_stop_time : option time_t)
    (prepared_fps : option float) : result range_dict :=
  match prepared_start_time, prepared_stop_time, prepared_fps with
  | Some start, Some stop, Some rate =>
      self <- __post_init__ (new_ExtractionRange duration frames start stop rate) ;;
      to_dict self
  | _, _, _ => Raise PreparationError
  end.

(** The state of the object when [_prepare_stop_frame] is entered: the
    first six steps of [__post_init__]. *)
Definition before_stop_frame (self : ExtractionRange) : result ExtractionRange :=
  self <- exec _prepare_start_second self ;;
  self <- exec _prepare_stop_second self ;;
  self <- exec _validate_range self ;;
  self <- exec _prepare_start_timestamp self ;;
  self <- exec _prepare_stop_timestamp self ;;
  exec _prepare_start_frame self.

End Range.

(** ** Parameter defaulting *)

Definition prepare_start_time (request_start_time : option time_t) : time_t :=
  match request_start_time with
  | Some t => t
  | None => Num (Int 0)
  end.

Definition prepare_stop_time (video_duration_seconds : float)
    (request_stop_time : option time_t) : time_t :=
  match request_stop_time with
  | Some t => t
  | None => Num (Float video_duration_seconds)
  end.

Definition prepare_fps (video_fps : float) (request_fps : option float) : float :=
  match request_fps with
  | Some r => r
  | None => video_fps
  end.

(** ** Dimensions *)

(** [n * x] for an [int] and a [float]: the [int] is converted first. *)
Definition int_mul_float (n : Z) (x : float) : result float :=
  f <- PyFloat.of_int n ;; Ok (PyFloat.mul f x).

(** A two-element tuple is truthy, so [request_dimensions or
    video_dimensions] is the request whenever it is not [None]. *)
Definition prepare_dimensions (video_dimensions : Z * Z) (resize : float)
    (request_dimensions : option (Z * Z)) : result (Z * Z) :=
  let dims := match request_dimensions with
              | Some d => d
              | None => video_dimensions
              end in
  if PyFloat.neqb resize (PyFloat.lit 1) then
    x <- int_mul_float (fst dims) resize ;;
    w <- PyFloat.trunc x ;;
    y <- int_mul_float (snd dims) resize ;;
    h <- PyFloat.trunc y ;;
    Ok (w, h)
  else Ok dims.

(** ** Expected number of images *)

(** [try: body except exc: handler]. *)
Definition try_except {A : Type} (body : result A) (exc : exn)
    (handler : result A) : result A :=
  match body with
  | Ok a => Ok a
  | Raise e => if exn_eqb e exc then handler else Raise e
  end.

Definition prepare_images_expected (start_frame stop_frame capture_rate : option Z)
  : result Z :=
  match start_frame, stop_frame, capture_rate with
  | Some start, Some stop, Some rate =>
      try_except
        (q <- PyFloat.int_truediv (stop - start) rate ;; PyFloat.ceil q)
        ZeroDivisionError
        (Raise PreparationError)
  | _, _, _ => Raise PreparationError
  end.

(** ** Strings *)

(** [s.split(c)] for a one-character separator: never empty, one more piece
    than there are separators. *)
Fixpoint split_char (c : ascii) (s : string) : list string :=
  match s with
  | EmptyString => [EmptyString]
  | String a s' =>
      if Ascii.eqb a c then EmptyString :: split_char c s'
      else match split_char c s' with
           | [] => [String a EmptyString]
           | w :: ws => String a w :: ws
           end
  end.

(** [str(n)] for a natural number. *)
Definition str_of_N (n : N) : string := NilEmpty.string_of_uint (N.to_uint n).

(** ** Paths

    [pathlib.Path] on a POSIX system, as far as the preparation layer uses
    it: a path is the list of its parts, root first, so that
    [Path("/v/clip.mp4")] is ["/"; "v"; "clip.mp4"] and [Path(".")] is the
    empty list.  Two paths are equal when their parts are. *)

Module Pathlib.

Definition Path : Type := list string.

Definition slash : ascii := "/"%char.
Definition dot : ascii := "."%char.

Definition Path_eqb (p q : Path) : bool :=
  (Nat.eqb (List.length p) (List.length q)) &&
  forallb (fun '(a, b) => String.eqb a b) (combine p q).

(** [s.split("/")]. *)
Definition split_slash (s : string) : list string := split_char slash s.

Definition is_component (w : string) : bool :=
  negb (String.eqb w "") && negb (String.eqb w ".").

(** The root of a path given as text: exactly two leading slashes are kept,
    any other number of them is one. *)
Definition root_of (s : string) : list string :=
  match s with
  | String a (String b (String c _)) =>
      if Ascii.eqb a slash then
        if Ascii.eqb b slash && negb (Ascii.eqb c slash) then ["//"%string]
        else ["/"%string]
      else []
  | String a (String b EmptyString) =>
      if Ascii.eqb a slash then
        if Ascii.eqb b slash then ["//"%string] else ["/"%string]
      else []
  | String a EmptyString => if Ascii.eqb a slash then ["/"%string] else []
  | EmptyString => []
  end.

(** [Path(s)]. *)
Definition of_string (s : string) : Path :=
  root_of s ++ filter is_component (split_slash s).

Definition is_absolute (s : string) : bool :=
  match s with
  | String a _ => Ascii.eqb a slash
  | EmptyString => false
  end.

(** [p / s]: an absolute [s] replaces [p]. *)
Definition joinpath (p : Path) (s : string) : Path :=
  if is_absolute s then of_string s else p ++ of_string s.

Definition is_root (w : string) : bool :=
  String.eqb w "/" || String.eqb w "//".

(** [p.parent]; the parent of a root, and of [Path(".")], is itself. *)
Definition parent (p : Path) : Path :=
  match p with
  | [] => []
  | [w] => if is_root w then [w] else []
  | _ => removelast p
  end.

(** [p.name]: the last part, unless it is the root. *)
Definition name (p : Path) : string :=
  match p with
  | [] => ""%string
  | [w] => if is_root w then ""%string else w
  | _ => last p ""%string
  end.

(** [s.rfind(".")]. *)
Fixpoint rfind_dot (s : string) : option nat :=
  match s with
  | EmptyString => None
  | String c s' =>
      match rfind_dot s' with
      | Some i => Some (S i)
      | None => if Ascii.eqb c dot then Some O else None
      end
  end.

(** The index at which the suffix of a file name starts: the last dot,
    when it is neither the first nor the last character. *)
Definition suffix_index (n : string) : option nat :=
  match rfind_dot n with
  | Some i =>
      if (Nat.ltb 0 i) && (Nat.ltb i (String.length n - 1))%nat then Some i
      else None
  | None => None
  end.

Definition name_suffix (n : string) : string :=
  match suffix_index n with
  | Some i => substring i (String.length n - i) n
  | None => ""%string
  end.

Definition name_stem (n : string) : string :=
  match suffix_index n with
  | Some i => substring 0 i n
  | None => n
  end.

(** [p.suffix] and [p.stem]. *)
Definition suffix (p : Path) : string := name_suffix (name p).
Definition stem (p : Path) : string := name_stem (name p).

(** The file system, as far as [Path.exists] sees it: the paths that
    exist. *)
Definition filesystem : Type := list Path.

Definition exists_ (fs : filesystem) (p : Path) : bool :=
  existsb (Path_eqb p) fs.

End Pathlib.

Import Pathlib.

(** [s.startswith(".")]. *)
Definition startswith_dot (s : string) : bool :=
  match s with
  | String c _ => Ascii.eqb c dot
  | EmptyString => false
  end.

(** ** Destination paths

    [U.enumerate_filepath] and [U.enumerate_dir] are in [videoxt/utils.py],
    which is not among the sources; they are parameters of the two
    functions below. *)

Section Destination.

Variable enumerate_filepath : Path -> string -> result Path.
Variable enumerate_dir : Path -> string -> result Path.

(** [request_destdir or video_filepath.parent]: a [Path] is truthy.
    [if request_filename:] is false for [None] and for the empty string. *)
Definition prepare_destpath (video_filepath : Path)
    (request_filename : option string) (request_destdir : option Path)
    (prepared_suffix : option string) (prepared_overwrite : option bool)
  : result Path :=
  match prepared_suffix with
  | None => Raise PreparationError
  | Some prepared_suffix =>
      let prepared_overwrite :=
        match prepared_overwrite with
        | None => false
        | Some b => b
        end in
      let base_dir :=
        match request_destdir with
        | Some d => d
        | None => parent video_filepath
        end in
      let suffix :=
        if startswith_dot prepared_suffix then prepared_suffix
        else ("." ++ prepared_suffix)%string in
      let filename :=
        match request_filename with
        | Some (String c f) => (String c f ++ suffix)%string
        | _ => (stem video_filepath ++ suffix)%string
        end in
      let dest_path := joinpath base_dir filename in
      if prepared_overwrite && negb (Path_eqb dest_path video_filepath)
      then Ok dest_path
      else enumerate_filepath dest_path "_vxt"
  end.

Definition prepare_destpath_frames (video_filepath : Path)
    (request_destdir : option Path) (prepared_overwrite : option bool)
  : result Path :=
  let prepared_overwrite :=
    match prepared_overwrite with
    | None => false
    | Some b => b
    end in
  match request_destdir with
  | None =>
      let default_destdir :=
        joinpath (parent video_filepath) (name video_filepath) in
      if prepared_overwrite then Ok (joinpath default_destdir "_frames")
      else enumerate_dir default_destdir "_frames"
  | Some d => Ok d
  end.

End Destination.

(** ** The functions of [videoxt/validators.py] and [videoxt/utils.py]

    Neither file is among the sources.  Each function the preparation layer
    calls is modelled here from what the specification says about it. *)

Module Validators.

(** Modelled from the spec: [valid_extraction_range], absent from the
    sources.  "Validate: fails with RangeError if start_second < 0, if
    stop_second > duration_seconds, or if start_second >= stop_second";
    otherwise the three values are returned. *)
Definition valid_extraction_range (start stop duration : float)
  : result (float * float * float) :=
  if PyFloat.ltb start PyFloat.zero then Raise RangeError
  else if PyFloat.gtb stop duration then Raise RangeError
  else if PyFloat.geb start stop then Raise RangeError
  else Ok (start, stop, duration).

End Validators.

Module Utils.

Definition colon : ascii := ":"%char.

(** Modelled from the spec: a "numeric segment" of a timestamp, read as a
    non-empty run of decimal digits; part of [timestamp_to_seconds]. *)
Definition parse_segment (w : string) : result N :=
  match w with
  | EmptyString => Raise FormatError
  | _ =>
      match NilEmpty.uint_of_string w with
      | Some d => Ok (N.of_uint d)
      | None => Raise FormatError
      end
  end.

(** Modelled from the spec: the segments after the most significant one,
    "bounded to [0,59]", folded into the running total; part of
    [timestamp_to_seconds]. *)
Fixpoint fold_segments (acc : N) (ws : list string) : result N :=
  match ws with
  | [] => Ok acc
  | w :: ws' =>
      n <- parse_segment w ;;
      if (59 <? n)%N then Raise FormatError
      else fold_segments (acc * 60 + n)%N ws'
  end.

(** Modelled from the spec: [timestamp_to_seconds], absent from the
    sources.  "parses colon-separated numeric segments from
    least-significant (seconds) to most-significant (hours, and beyond if
    more segments given); each non-final segment is bounded to [0,59];
    fails with FormatError if any segment is non-numeric, negative, or a
    non-final segment exceeds 59, or the string is empty."  The segment
    read last, the most significant one, is the unbounded one. *)
Definition timestamp_to_seconds (timestamp : string) : result float :=
  match split_char colon timestamp with
  | [] => Raise FormatError
  | w :: ws =>
      h <- parse_segment w ;;
      total <- fold_segments h ws ;;
      PyFloat.of_int (Z.of_N total)
  end.

(** Modelled from the spec: "minutes/seconds zero-padded to width 2"; part
    of [seconds_to_timestamp]. *)
Definition pad2 (n : N) : string :=
  if (n <? 10)%N then ("0" ++ str_of_N n)%string else str_of_N n.

(** Modelled from the spec: "H:MM:SS (hours unpadded ...)" for a whole
    number of seconds; part of [seconds_to_timestamp]. *)
Definition format_hms (whole : Z) : string :=
  let n := Z.to_N whole in
  (str_of_N (n / 3600) ++ ":" ++ pad2 ((n mod 3600) / 60) ++ ":"
     ++ pad2 (n mod 60))%string.

(** Modelled from the spec: [seconds_to_timestamp], absent from the
    sources.  "produces H:MM:SS (hours unpadded, minutes/seconds
    zero-padded to width 2); fails with DomainError if seconds is
    negative"; "timestamps carry whole-second resolution only - fractional
    seconds are dropped". *)
Definition seconds_to_timestamp (seconds : number) : result string :=
  match seconds with
  | Int n =>
      if n <? 0 then Raise DomainError else Ok (format_hms n)
  | Float x =>
      if PyFloat.ltb x PyFloat.zero then Raise DomainError
      else whole <- PyFloat.trunc x ;; Ok (format_hms whole)
  end.

(** Modelled from the spec: "returning the first path that does not already
    exist", the probing loop of the two enumerations.  The first candidate,
    from index [n] on, that does not exist; [fuel] bounds the number of
    probes. *)
Fixpoint first_free (fs : filesystem) (candidate : N -> Path)
    (fuel : nat) (n : N) : option Path :=
  match fuel with
  | O => None
  | S fuel' =>
      if exists_ fs (candidate n) then first_free fs candidate fuel' (N.succ n)
      else Some (candidate n)
  end.

(** Modelled from the spec: the same place with another name, for the
    variants of the two enumerations. *)
Definition with_name (p : Path) (n : string) : Path := removelast p ++ [n].

(** Modelled from the spec: the candidate "stem + label + N + suffix" of
    [enumerate_filepath]. *)
Definition file_variant (p : Path) (label : string) (n : N) : Path :=
  with_name p (stem p ++ label ++ str_of_N n ++ suffix p)%string.

(** Modelled from the spec: the probing loop started at 1.  A file system
    of [k] paths holds at most [k] of the [k + 1] first variants, so [k + 1]
    probes are enough. *)
Definition search (fs : filesystem) (candidate : N -> Path) : result Path :=
  match first_free fs candidate (S (List.length fs)) 1%N with
  | Some q => Ok q
  | None => Raise OutOfFuel
  end.

(** Modelled from the spec: [enumerate_filepath], absent from the sources.
    "probe stem + "_vxt" + N + suffix for increasing integers N starting
    from an unsuffixed check of the bare candidate, returning the first
    path that does not already exist."  The numbering starts at 1. *)
Definition enumerate_filepath (fs : filesystem) (p : Path) (label : string)
  : result Path :=
  if exists_ fs p then search fs (file_variant p label) else Ok p.

(** Modelled from the spec: the numbered candidate of [enumerate_dir], the
    directory name followed by the label and the number. *)
Definition dir_variant (p : Path) (label : string) (n : N) : Path :=
  with_name p (name p ++ label ++ str_of_N n)%string.

(** Modelled from the spec: [enumerate_dir], absent from the sources.  "A
    sibling resolver for directory-style outputs ... applies the same
    overwrite/enumerate policy to a directory path instead of a file path,
    with a fixed conventional suffix label instead of a media suffix."
    The bare candidate is the directory name followed by the label. *)
Definition enumerate_dir (fs : filesystem) (p : Path) (label : string)
  : result Path :=
  let bare := with_name p (name p ++ label)%string in
  if exists_ fs bare then search fs (dir_variant p label) else Ok bare.

End Utils.

(** ** [videoxt/video.py]

    OpenCV, the file system and the built-in [round] are outside the
    repository: a capture is the four readings the code asks of it,
    [cv2.VideoCapture] is a function that may fail to open a path, and
    [round(x, 2)] is a function on floats.  [V.valid_video_filepath] and
    [U.seconds_to_timestamp] are parameters as before. *)

(** [x / y] on two floats: [ZeroDivisionError] when [y == 0.0]. *)
Definition float_truediv (x y : float) : result float :=
  if PyFloat.eqb y PyFloat.zero then Raise ZeroDivisionError
  else Ok (SFdiv PyFloat.prec PyFloat.emax x y).

(** [s[1:]]. *)
Definition drop_first (s : string) : string :=
  match s with
  | EmptyString => EmptyString
  | String _ s' => s'
  end.

(** What [get_video_properties] can raise: [FileNotFoundError], or one of
    the exceptions of the preparation layer. *)
Inductive video_exn : Type :=
| FileNotFoundError
| Python (e : exn).

Inductive outcome (A : Type) : Type :=
| Returned (a : A)
| Raised (e : video_exn).

Arguments Returned {A} a.
Arguments Raised {A} e.

Definition lift {A : Type} (r : result A) : outcome A :=
  match r with
  | Ok a => Returned a
  | Raise e => Raised (Python e)
  end.

(** What [opencap.get] answers for the four properties that are read. *)
Record capture : Type := mkCapture {
  CAP_PROP_FPS : float;
  CAP_PROP_FRAME_COUNT : float;
  CAP_PROP_FRAME_WIDTH : float;
  CAP_PROP_FRAME_HEIGHT : float
}.

(** The calls made on OpenCV captures: a successful open and a release. *)
Inductive event : Type :=
| Opened (p : Path)
| Released (p : Path).

Record VideoProperties : Type := mkVideoProperties {
  vp_dimensions : Z * Z;
  vp_fps : float;
  vp_frame_count : Z;
  vp_duration_seconds : float;
  vp_duration_timestamp : string;
  vp_suffix : string
}.

Section Video.

Variable fs : filesystem.
(** [V.valid_video_filepath]. *)
Variable valid_video_filepath : Path -> result Path.
(** [cv2.VideoCapture(str(path))]: [None] when [isOpened()] is false. *)
Variable VideoCapture : Path -> option capture.
(** [round(x, 2)]. *)
Variable round2 : float -> float.
(** [U.seconds_to_timestamp]. *)
Variable seconds_to_timestamp : number -> result string.

(** The context manager around a body: the events are appended to the log as
    they happen, and the [finally] clause releases the capture whether the
    body returns or raises. *)
Definition open_video_capture {A : Type} (video_filepath : Path)
    (body : capture -> result A) (log : list event)
  : list event * outcome A :=
  if negb (exists_ fs video_filepath) then (log, Raised FileNotFoundError)
  else
    match valid_video_filepath video_filepath with
    | Raise e => (log, Raised (Python e))
    | Ok video_filepath =>
        match VideoCapture video_filepath with
        | None => (log, Raised (Python TypeError))
        | Some video_capture =>
            let log := log ++ [Opened video_filepath] in
            let r := body video_capture in
            (log ++ [Released video_filepath], lift r)
        end
    end.

Definition get_video_properties (video_filepath : Path) (log : list event)
  : list event * outcome VideoProperties :=
  let '(log, r) :=
    open_video_capture video_filepath
      (fun opencap =>
         let fps := round2 (CAP_PROP_FPS opencap) in
         frame_count <- PyFloat.trunc (CAP_PROP_FRAME_COUNT opencap) ;;
         w <- PyFloat.trunc (CAP_PROP_FRAME_WIDTH opencap) ;;
         h <- PyFloat.trunc (CAP_PROP_FRAME_HEIGHT opencap) ;;
         Ok (fps, frame_count, (w, h)))
      log in
  match r with
  | Raised e => (log, Raised e)
  | Returned (fps, frame_count, dimensions) =>
      (log,
       lift (n <- PyFloat.of_int frame_count ;;
             q <- float_truediv n fps ;;
             let duration_seconds := round2 q in
             duration_timestamp <-
               seconds_to_timestamp (Float duration_seconds) ;;
             let suffix := drop_first (suffix video_filepath) in
             Ok (mkVideoProperties dimensions fps frame_count
                   duration_seconds duration_timestamp suffix)))
  end.

End Video.

(** ** The preparation layer over the modelled helpers *)

Module Videoxt.

Definition prepare_extraction_range :=
  prepare_extraction_range Utils.timestamp_to_seconds
    Utils.seconds_to_timestamp Validators.valid_extraction_range.

Definition prepare_destpath (fs : filesystem) :=
  prepare_destpath (Utils.enumerate_filepath fs).

Definition prepare_destpath_frames (fs : filesystem) :=
  prepare_destpath_frames (Utils.enumerate_dir fs).

End Videoxt.

(** Some binary64 constants.  [0.5] is exact. *)
Definition f0_5 : float := S754_finite false 4503599627370496 (-53).
Definition f10 : float := PyFloat.lit 10.
Definition f20 : float := PyFloat.lit 20.
Definition f30 : float := PyFloat.lit 30.

(** ** Vocabulary of the statements *)

(** Step 1 of the resolver, "normalize to seconds": what
    [_prepare_start_second] and [_prepare_stop_second] compute from a
    requested time. *)
Definition to_seconds (timestamp_to_seconds : string -> result float)
    (t : time_t) : result float :=
  match t with
  | Num n => float_of_number n
  | Str s => timestamp_to_seconds s
  end.

(** Step 3, "derive timestamps". *)
Definition to_timestamp (seconds_to_timestamp : number -> result string)
    (t : time_t) : result string :=
  match t with
  | Str s => Ok s
  | Num n => seconds_to_timestamp n
  end.

(** The three tests of the specification, as one boolean. *)
Definition bad_range (start stop duration : float) : bool :=
  PyFloat.ltb start PyFloat.zero || PyFloat.gtb stop duration
  || PyFloat.geb start stop.

(** [0 <= start < stop <= duration]. *)
Definition good_range (start stop duration : float) : bool :=
  PyFloat.leb PyFloat.zero start && PyFloat.ltb start stop
  && PyFloat.leb stop duration.

(** [errors_in l r]: if [r] is an exception, it is one of [l]. *)
Definition errors_in {A : Type} (l : list exn) (r : result A) : Prop :=
  match r with
  | Ok _ => True
  | Raise e => In e l
  end.

(** The candidates probed from [n] on, [k] of them. *)
Fixpoint probes (candidate : N -> Path) (k : nat) (n : N) : list Path :=
  match k with
  | O => []
  | S k' => candidate n :: probes candidate k' (N.succ n)
  end.

(** The suffix with its leading dot, as [prepare_destpath] builds it. *)
Definition normalized_suffix (s : string) : string :=
  if startswith_dot s then s else ("." ++ s)%string.

(** The file name [prepare_destpath] builds: the requested name when there is
    a non-empty one, the stem of the video otherwise, then the suffix. *)
Definition destination_filename (video : Path) (request_filename : option string)
    (prepared_suffix : string) : string :=
  ((match request_filename with
    | Some (String c f) => String c f
    | _ => stem video
    end) ++ normalized_suffix prepared_suffix)%string.

(** "candidate = directory / (stem + normalized_suffix)". *)
Definition destination_candidate (video : Path) (request_filename : option string)
    (request_destdir : option Path) (prepared_suffix : string) : Path :=
  joinpath (match request_destdir with
            | Some d => d
            | None => parent video
            end)
    (destination_filename video request_filename prepared_suffix).

(** [overwrite] after its default. *)
Definition overwrite_allowed (prepared_overwrite : option bool) : bool :=
  match prepared_overwrite with
  | Some b => b
  | None => false
  end.

(** A string with no ["/"] in it. *)
Fixpoint no_slash (s : string) : bool :=
  match s with
  | EmptyString => true
  | String c s' => negb (Ascii.eqb c slash) && no_slash s'
  end.

(** The default directory of [prepare_destpath_frames]: the parent of the
    video joined with the video's name. *)
Definition default_destdir (video : Path) : Path :=
  joinpath (parent video) (name video).

(** The rational a finite float stands for, [m * 2^e] with its sign. *)
Definition value (x : float) : Q :=
  match x with
  | S754_finite s m e =>
      match e with
      | Z0 => cond_Zopp s (Zpos m) # 1
      | Zpos p => (cond_Zopp s (Zpos m) * 2 ^ Zpos p) # 1
      | Zneg p => cond_Zopp s (Zpos m) # (2 ^ p)
      end
  | _ => 0%Q
  end.

(** The integer part of a rational, toward zero. *)
Definition Qtrunc (q : Q) : Z := Z.quot (Qnum q) (Zpos (Qden q)).

(** Round-half-even of [(q*c + r) / c] to an integer, given the quotient and
    the remainder. *)
Definition rne (q r c : Z) : Z :=
  if r =? 0 then q
  else match 2 * r ?= c with
       | Lt => q
       | Eq => if Z.even q then q else q + 1
       | Gt => q + 1
       end.

(** The quotient [a / c] scaled by [P] and rounded half-even to an integer. *)
Definition rounded (a c P : Z) : Z :=
  rne ((a * P) / c) ((a * P) mod c) c.

(** The float built from a significand [2^52 <= m <= 2^53] and an exponent. *)
Definition pack (s : bool) (m : Z) (e : Z) : float :=
  if m <? 2 ^ 53 then S754_finite s (Z.to_pos m) e
  else S754_finite s (Z.to_pos (2 ^ 52)) (e + 1).

(** The exact ceiling of a quotient of integers. *)
Definition ceil_div (a b : Z) : Z := - ((- a) / b).

(** A float whose significand has all 53 digits. *)
Definition is_normal (x : float) : bool :=
  match x with
  | S754_finite _ m _ => Zpos (digits2_pos m) =? 53
  | _ => false
  end.

(** A path whose last part is [n], a plain file name. *)
Definition plain_name (n : string) : bool := no_slash n && is_component n.

(** ** Results: the result monad *)

Lemma bind_Ok {A B : Type} (r : result A) (k : A -> result B) (b : B) :
  bind r k = Ok b <-> exists a, r = Ok a /\ k a = Ok b.
Proof.
  split.
  - destruct r as [a|e]; simpl; intros H; [exists a; auto | discriminate].
  - intros (a & -> & H). exact H.
Qed.

(** [bind_ok H x Hx]: from [H : (x <- r ;; k) = Ok b], the value [x] of [r],
    [Hx : r = Ok x], and [H : k x = Ok b]. *)
Ltac bind_ok H x Hx :=
  apply bind_Ok in H; destruct H as (x & Hx & H).

Lemma bind_Raise {A B : Type} (r : result A) (k : A -> result B) (e : exn) :
  bind r k = Raise e <->
  r = Raise e \/ exists a, r = Ok a /\ k a = Raise e.
Proof.
  split.
  - destruct r as [a|e']; simpl; intros H.
    + right. exists a. auto.
    + left. congruence.
  - intros [-> | (a & -> & H)]; auto.
Qed.

(** ** Results: the extraction range *)

Section RangeFacts.

Variable timestamp_to_seconds : string -> result float.
Variable seconds_to_timestamp : number -> result string.
Variable valid_extraction_range :
  float -> float -> float -> result (float * float * float).

(** [__post_init__] as one chain: the two conversions, the validation, the
    two timestamps, the two frames.  Every attribute is read after the
    step that assigns it, so no [AttributeError] is left, and
    [stop_second] holds a float when the stop frame is derived. *)
Lemma post_init_chain (self : ExtractionRange) :
  __post_init__ timestamp_to_seconds seconds_to_timestamp
    valid_extraction_range self =
  (s <- to_seconds timestamp_to_seconds (start_time self) ;;
   e <- to_seconds timestamp_to_seconds (stop_time self) ;;
   _ <- valid_extraction_range s e (duration_seconds self) ;;
   ts <- to_timestamp seconds_to_timestamp (start_time self) ;;
   te <- to_timestamp seconds_to_timestamp (stop_time self) ;;
   fs <- PyFloat.floor (PyFloat.mul s (fps self)) ;;
   fe <- PyFloat.floor (PyFloat.mul e (fps self)) ;;
   Ok (mkExtractionRange (duration_seconds self) (frame_count self)
         (start_time self) (stop_time self) (fps self)
         (Assigned s) (Assigned (Some e)) (Assigned ts) (Assigned te)
         (Assigned fs) (Assigned fe))).
Proof.
  unfold __post_init__, exec, _prepare_start_second,
    _prepare_stop_second, _validate_range, _prepare_start_timestamp,
    _prepare_stop_timestamp, _prepare_start_frame, _prepare_stop_frame,
    to_seconds, to_timestamp.
  destruct self as [d fc st sp r a b c0 d0 e0 f0]; simpl.
  destruct (match st with Num n => float_of_number n
                        | Str t => timestamp_to_seconds t end) as [s|]; simpl; auto.
  destruct (match sp with Num n => float_of_number n
                        | Str t => timestamp_to_seconds t end) as [e|]; simpl; auto.
  destruct (valid_extraction_range s e d) as [v|]; simpl; auto.
  destruct (match st with Str s0 => Ok s0
                        | Num n => seconds_to_timestamp n end) as [ts|]; simpl; auto.
  destruct (match sp with Str s0 => Ok s0
                        | Num n => seconds_to_timestamp n end) as [te|]; simpl; auto.
  destruct (PyFloat.floor (PyFloat.mul s r)) as [fs|]; simpl; auto.
  destruct (PyFloat.floor (PyFloat.mul e r)) as [fe|]; simpl; auto.
Qed.

(** The same for [prepare_extraction_range] once the three values are
    present. *)
Lemma prepare_chain (duration : float) (frames : Z) (start stop : time_t)
    (rate : float) :
  prepare_extraction_range timestamp_to_seconds seconds_to_timestamp
    valid_extraction_range duration frames (Some start) (Some stop)
    (Some rate) =
  (s <- to_seconds timestamp_to_seconds start ;;
   e <- to_seconds timestamp_to_seconds stop ;;
   _ <- valid_extraction_range s e duration ;;
   ts <- to_timestamp seconds_to_timestamp start ;;
   te <- to_timestamp seconds_to_timestamp stop ;;
   fs <- PyFloat.floor (PyFloat.mul s rate) ;;
   fe <- PyFloat.floor (PyFloat.mul e rate) ;;
   Ok (mkRangeDict s (Some e) ts te fs fe)).
Proof.
  unfold prepare_extraction_range.
  rewrite post_init_chain. simpl.
  destruct (to_seconds timestamp_to_seconds start) as [s|]; simpl; auto.
  destruct (to_seconds timestamp_to_seconds stop) as [e|]; simpl; auto.
  destruct (valid_extraction_range s e duration) as [v|]; simpl; auto.
  destruct (to_timestamp seconds_to_timestamp start) as [ts|]; simpl; auto.
  destruct (to_timestamp seconds_to_timestamp stop) as [te|]; simpl; auto.
  destruct (PyFloat.floor (PyFloat.mul s rate)) as [fs|]; simpl; auto.
  destruct (PyFloat.floor (PyFloat.mul e rate)) as [fe|]; simpl; auto.
Qed.

(** A missing value is reported before anything else runs. *)
Lemma prepare_absent (duration : float) (frames : Z)
    (start stop : option time_t) (rate : option float) :
  start = None \/ stop = None \/ rate = None ->
  prepare_extraction_range timestamp_to_seconds seconds_to_timestamp
    valid_extraction_range duration frames start stop rate
  = Raise PreparationError.
Proof.
  unfold prepare_extraction_range.
  intros [-> | [-> | ->]].
  - reflexivity.
  - destruct start; reflexivity.
  - destruct start; [destruct stop|]; reflexivity.
Qed.

End RangeFacts.

(** ** Results: float comparisons *)

Lemma compare_cont_Eq (p q : positive) :
  Pos.compare_cont Eq p q = (p ?= q)%positive.
Proof. reflexivity. Qed.

Lemma SFcompare_antisym (x y : spec_float) :
  SFcompare y x = option_map CompOpp (SFcompare x y).
Proof.
  destruct x as [sx|sx| |sx mx ex], y as [sy|sy| |sy my ey]; simpl;
    try destruct sx; try destruct sy; try reflexivity.
  all: rewrite (Z.compare_antisym ex ey), !compare_cont_Eq,
         (Pos.compare_antisym mx my);
    destruct (ex ?= ey); simpl; try reflexivity;
    destruct (mx ?= my)%positive; reflexivity.
Qed.

(** [x < y] excludes [x >= y], and [x <= y] excludes [x > y]. *)
Lemma ltb_not_geb (x y : float) :
  PyFloat.ltb x y = true -> PyFloat.geb x y = false.
Proof.
  unfold PyFloat.ltb, PyFloat.geb, SFltb, SFleb.
  rewrite (SFcompare_antisym x y).
  destruct (SFcompare x y) as [[]|]; simpl; congruence.
Qed.

Lemma leb_not_gtb (x y : float) :
  PyFloat.leb x y = true -> PyFloat.gtb x y = false.
Proof.
  unfold PyFloat.leb, PyFloat.gtb, SFltb, SFleb.
  rewrite (SFcompare_antisym x y).
  destruct (SFcompare x y) as [[]|]; simpl; congruence.
Qed.

Lemma ltb_leb (x y : float) : PyFloat.ltb x y = true -> PyFloat.leb x y = true.
Proof.
  unfold PyFloat.ltb, PyFloat.leb, SFltb, SFleb.
  destruct (SFcompare x y) as [[]|]; congruence.
Qed.

(** A float between two finite floats is finite. *)
Lemma finite_between (x y z : float) :
  PyFloat.leb x y = true -> PyFloat.leb y z = true ->
  PyFloat.is_finite x = true -> PyFloat.is_finite z = true ->
  PyFloat.is_finite y = true.
Proof.
  unfold PyFloat.leb, SFleb.
  destruct x as [sx|sx| |sx mx ex], y as [sy|sy| |sy my ey],
    z as [sz|sz| |sz mz ez];
    simpl; try destruct sx; try destruct sy; try destruct sz; simpl;
    congruence.
Qed.

Lemma floor_finite (x : float) :
  PyFloat.is_finite x = true -> exists n, PyFloat.floor x = Ok n.
Proof. destruct x; simpl; try discriminate; eauto. Qed.

Lemma trunc_finite (x : float) :
  PyFloat.is_finite x = true -> exists n, PyFloat.trunc x = Ok n.
Proof. destruct x; simpl; try discriminate; eauto. Qed.

Lemma ceil_finite (x : float) :
  PyFloat.is_finite x = true -> exists n, PyFloat.ceil x = Ok n.
Proof. destruct x; simpl; try discriminate; eauto. Qed.

(** ** Results: the modelled validator *)

Lemma valid_extraction_range_cases (start stop duration : float) :
  Validators.valid_extraction_range start stop duration =
  if bad_range start stop duration then Raise RangeError
  else Ok (start, stop, duration).
Proof.
  unfold Validators.valid_extraction_range, bad_range.
  destruct (PyFloat.ltb start PyFloat.zero); simpl; auto.
  destruct (PyFloat.gtb stop duration); simpl; auto.
Qed.

Lemma good_range_not_bad (start stop duration : float) :
  good_range start stop duration = true ->
  bad_range start stop duration = false.
Proof.
  unfold good_range, bad_range.
  rewrite !andb_true_iff. intros [[H0 H1] H2].
  rewrite (leb_not_gtb _ _ H0 : PyFloat.ltb start PyFloat.zero = false).
  rewrite (leb_not_gtb _ _ H2), (ltb_not_geb _ _ H1). reflexivity.
Qed.

(** In a good range below a finite duration both ends are finite. *)
Lemma good_range_finite (start stop duration : float) :
  good_range start stop duration = true ->
  PyFloat.is_finite duration = true ->
  PyFloat.is_finite start = true /\ PyFloat.is_finite stop = true.
Proof.
  unfold good_range. rewrite !andb_true_iff. intros [[H0 H1] H2] Hd.
  assert (Hs : PyFloat.is_finite stop = true).
  { apply (finite_between PyFloat.zero stop duration); auto.
    revert H0 H1. unfold PyFloat.leb, PyFloat.ltb, SFleb, SFltb, PyFloat.zero.
    destruct start as [s|s| |s m e], stop as [s'|s'| |s' m' e']; simpl;
      try destruct s; try destruct s'; simpl; congruence. }
  split; auto.
  apply (finite_between PyFloat.zero start stop); auto.
  apply ltb_leb; auto.
Qed.

(** ** Results: which exceptions a call can raise *)

Lemma errors_in_bind {A B : Type} (l : list exn) (r : result A)
    (k : A -> result B) :
  errors_in l r -> (forall a, errors_in l (k a)) -> errors_in l (bind r k).
Proof. destruct r as [a|e]; simpl; auto. Qed.

Lemma errors_in_incl {A : Type} (l l' : list exn) (r : result A) :
  incl l l' -> errors_in l r -> errors_in l' r.
Proof. destruct r; simpl; auto. Qed.

Lemma errors_in_not {A : Type} (l : list exn) (r : result A) (e : exn) :
  errors_in l r -> ~ In e l -> r <> Raise e.
Proof. intros H Hn ->. exact (Hn H). Qed.

Lemma of_int_errors (n : Z) : errors_in [OverflowError] (PyFloat.of_int n).
Proof.
  unfold PyFloat.of_int.
  destruct (binary_normalize PyFloat.prec PyFloat.emax n 0 false); simpl; auto.
Qed.

Lemma floor_errors (x : float) :
  errors_in [ValueError; OverflowError] (PyFloat.floor x).
Proof. destruct x; simpl; auto. Qed.

Lemma trunc_errors (x : float) :
  errors_in [ValueError; OverflowError] (PyFloat.trunc x).
Proof. destruct x; simpl; auto. Qed.

Lemma ceil_errors (x : float) :
  errors_in [ValueError; OverflowError] (PyFloat.ceil x).
Proof. destruct x; simpl; auto. Qed.

(** The exceptions of the modelled helpers. *)
Lemma valid_extraction_range_errors (a b c : float) :
  errors_in [RangeError] (Validators.valid_extraction_range a b c).
Proof.
  rewrite valid_extraction_range_cases.
  destruct (bad_range a b c); simpl; auto.
Qed.

Lemma parse_segment_errors (w : string) :
  errors_in [FormatError] (Utils.parse_segment w).
Proof.
  unfold Utils.parse_segment. destruct w; simpl; auto.
  match goal with |- context [match ?x with _ => _ end] => destruct x end;
    simpl; auto.
Qed.

Lemma fold_segments_errors (ws : list string) (acc : N) :
  errors_in [FormatError] (Utils.fold_segments acc ws).
Proof.
  revert acc. induction ws as [|w ws IH]; intros acc; simpl; auto.
  apply errors_in_bind; [apply parse_segment_errors|].
  intros n. destruct (59 <? n)%N; simpl; auto.
Qed.

Lemma timestamp_to_seconds_errors (t : string) :
  errors_in [FormatError; OverflowError] (Utils.timestamp_to_seconds t).
Proof.
  unfold Utils.timestamp_to_seconds.
  destruct (split_char Utils.colon t) as [|w ws]; simpl; auto.
  apply errors_in_bind.
  { eapply errors_in_incl; [|apply parse_segment_errors]. intros e [<-|[]]; simpl; auto. }
  intros h. apply errors_in_bind.
  { eapply errors_in_incl; [|apply fold_segments_errors]. intros e [<-|[]]; simpl; auto. }
  intros total.
  eapply errors_in_incl; [|apply of_int_errors]. intros e [<-|[]]; simpl; auto.
Qed.

Lemma seconds_to_timestamp_errors (n : number) :
  errors_in [DomainError; ValueError; OverflowError]
    (Utils.seconds_to_timestamp n).
Proof.
  unfold Utils.seconds_to_timestamp. destruct n as [z|x].
  - destruct (z <? 0); simpl; auto.
  - destruct (PyFloat.ltb x PyFloat.zero); simpl; auto.
    apply errors_in_bind; [|simpl; auto].
    eapply errors_in_incl; [|apply trunc_errors].
    intros e [<-|[<-|[]]]; simpl; auto.
Qed.

Section RangeErrors.

Variable timestamp_to_seconds : string -> result float.
Variable seconds_to_timestamp : number -> result string.
Variable valid_extraction_range :
  float -> float -> float -> result (float * float * float).
Variable l : list exn.

Hypothesis Htts : forall t, errors_in l (timestamp_to_seconds t).
Hypothesis Hstt : forall n, errors_in l (seconds_to_timestamp n).
Hypothesis Hv : forall a b c, errors_in l (valid_extraction_range a b c).
Hypothesis Hconv : incl [ValueError; OverflowError] l.

(** With the three values present, a call raises what a helper raises, or
    one of the two exceptions of the float conversions. *)
Lemma prepare_present_errors (duration : float) (frames : Z)
    (start stop : time_t) (rate : float) :
  errors_in l
    (prepare_extraction_range timestamp_to_seconds seconds_to_timestamp
       valid_extraction_range duration frames (Some start) (Some stop)
       (Some rate)).
Proof.
  rewrite prepare_chain.
  assert (Hsec : forall t, errors_in l (to_seconds timestamp_to_seconds t)).
  { intros [n|s]; simpl; auto.
    destruct n as [z|x]; simpl; auto.
    eapply errors_in_incl; [|apply of_int_errors].
    intros e [<-|[]]; apply Hconv; simpl; auto. }
  assert (Hts : forall t, errors_in l (to_timestamp seconds_to_timestamp t)).
  { intros [n|s]; simpl; auto. }
  assert (Hfl : forall x, errors_in l (PyFloat.floor x)).
  { intros x. eapply errors_in_incl; [exact Hconv|apply floor_errors]. }
  apply errors_in_bind; [apply Hsec|intros s].
  apply errors_in_bind; [apply Hsec|intros e].
  apply errors_in_bind; [apply Hv|intros _].
  apply errors_in_bind; [apply Hts|intros ts].
  apply errors_in_bind; [apply Hts|intros te].
  apply errors_in_bind; [apply Hfl|intros fs].
  apply errors_in_bind; [apply Hfl|intros fe].
  exact I.
Qed.

End RangeErrors.

(** The modelled layer raises no [PreparationError] once the three values
    are present. *)
Lemma modelled_present_errors (duration : float) (frames : Z)
    (start stop : time_t) (rate : float) :
  errors_in [ValueError; OverflowError; RangeError; FormatError; DomainError]
    (Videoxt.prepare_extraction_range duration frames (Some start) (Some stop)
       (Some rate)).
Proof.
  apply (prepare_present_errors Utils.timestamp_to_seconds
           Utils.seconds_to_timestamp Validators.valid_extraction_range).
  - intros t. eapply errors_in_incl; [|apply timestamp_to_seconds_errors].
    intros e [<-|[<-|[]]]; simpl; auto 8.
  - intros n. eapply errors_in_incl; [|apply seconds_to_timestamp_errors].
    intros e [<-|[<-|[<-|[]]]]; simpl; auto 8.
  - intros a b c. eapply errors_in_incl; [|apply valid_extraction_range_errors].
    intros e [<-|[]]; simpl; auto 8.
  - intros e [<-|[<-|[]]]; simpl; auto 8.
Qed.

(** ** Results: rounding keeps the sign *)

Lemma digits2_pos_size (p : positive) : digits2_pos p = Pos.size p.
Proof. induction p; simpl; congruence. Qed.

(** [2^(d-1) <= m < 2^d] for [d] the number of binary digits of [m]. *)
Lemma digits2_pos_bounds (m : positive) :
  2 ^ (Zpos (digits2_pos m) - 1) <= Zpos m < 2 ^ Zpos (digits2_pos m).
Proof.
  rewrite digits2_pos_size. split.
  - pose proof (Pos.size_le m) as H.
    apply Pos2Z.pos_le_pos in H. rewrite Pos2Z.inj_pow in H.
    change (Zpos m~0) with (2 * Zpos m) in H.
    replace (Zpos (Pos.size m)) with (Zpos (Pos.size m) - 1 + 1) in H by lia.
    rewrite Z.pow_add_r in H by lia. lia.
  - pose proof (Pos.size_gt m) as H.
    apply Pos2Z.pos_lt_pos in H. rewrite Pos2Z.inj_pow in H. exact H.
Qed.

Lemma shr_1_m (mrs : shr_record) :
  0 <= shr_m mrs -> shr_m (shr_1 mrs) = shr_m mrs / 2.
Proof.
  destruct mrs as [m r s]. simpl. intros Hm.
  destruct m as [|p|p]; [reflexivity| |lia].
  rewrite <- Z.div2_div. destruct p; reflexivity.
Qed.

Lemma iter_shr_1_m (p : positive) :
  forall mrs, 0 <= shr_m mrs ->
    shr_m (iter_pos shr_1 p mrs) = shr_m mrs / 2 ^ Zpos p.
Proof.
  induction p as [p IH|p IH|]; intros mrs Hm; simpl iter_pos.
  - assert (H1 : 0 <= shr_m (shr_1 mrs))
      by (rewrite shr_1_m by auto; apply Z.div_pos; lia).
    assert (H2 : 0 <= shr_m (iter_pos shr_1 p (shr_1 mrs)))
      by (rewrite IH by auto; apply Z.div_pos; lia).
    rewrite IH, IH, shr_1_m by auto.
    rewrite !Z.div_div by lia.
    f_equal.
    replace (Zpos p~1) with (1 + Zpos p + Zpos p) by lia.
    rewrite !Z.pow_add_r by lia. lia.
  - assert (H2 : 0 <= shr_m (iter_pos shr_1 p mrs))
      by (rewrite IH by auto; apply Z.div_pos; lia).
    rewrite IH, IH by auto.
    rewrite !Z.div_div by lia.
    f_equal.
    replace (Zpos p~0) with (Zpos p + Zpos p) by lia.
    rewrite !Z.pow_add_r by lia. lia.
  - apply shr_1_m; auto.
Qed.

Lemma shr_record_of_loc_m (m : Z) (l : location) : shr_m (shr_record_of_loc m l) = m.
Proof. destruct l as [|[]]; reflexivity. Qed.

(** Shifting a positive significand to its format keeps it positive, as long
    as the exponent is not below the smallest one; the exponent does not
    decrease. *)
Lemma shr_fexp_pos (m : positive) (e : Z) (l : location) :
  -1074 <= e ->
  0 < shr_m (fst (shr_fexp PyFloat.prec PyFloat.emax (Zpos m) e l))
  /\ e <= snd (shr_fexp PyFloat.prec PyFloat.emax (Zpos m) e l).
Proof.
  intros He. unfold shr_fexp, shr, fexp, emin, PyFloat.prec, PyFloat.emax in *.
  simpl Zdigits2.
  pose proof (digits2_pos_bounds m) as [Hlo Hhi].
  set (d := Zpos (digits2_pos m)) in *.
  destruct (Z.max (d + e - 53) (3 - 1024 - 53) - e) as [|n|n] eqn:En; simpl.
  - rewrite shr_record_of_loc_m. lia.
  - rewrite iter_shr_1_m by (rewrite shr_record_of_loc_m; lia).
    rewrite shr_record_of_loc_m. split; [|lia].
    assert (Hn : Zpos n <= d - 1) by lia.
    apply Z.div_str_pos. split; [apply Z.pow_pos_nonneg; lia|].
    apply Z.le_trans with (2 ^ (d - 1)); auto.
    apply Z.pow_le_mono_r; lia.
  - rewrite shr_record_of_loc_m. lia.
Qed.

Lemma round_nearest_even_ge (m : Z) (l : location) : m <= round_nearest_even m l.
Proof. destruct l as [|[]]; simpl; try lia. destruct (Z.even m); lia. Qed.

(** Rounding a non-zero number whose exponent is at least the smallest one
    gives a non-zero number of the same sign, or overflows. *)
Lemma binary_round_aux_sign (s : bool) (m : positive) (e : Z) (l : location) :
  -1074 <= e ->
  (exists m' e', binary_round_aux PyFloat.prec PyFloat.emax s (Zpos m) e l = S754_finite s m' e')
  \/ binary_round_aux PyFloat.prec PyFloat.emax s (Zpos m) e l = S754_infinity s.
Proof.
  intros He. unfold binary_round_aux.
  pose proof (shr_fexp_pos m e l He) as [H1 H2].
  destruct (shr_fexp PyFloat.prec PyFloat.emax (Zpos m) e l) as [mrs' e'].
  simpl in H1, H2.
  pose proof (round_nearest_even_ge (shr_m mrs') (loc_of_shr_record mrs')) as H3.
  destruct (round_nearest_even (shr_m mrs') (loc_of_shr_record mrs')) as [|m1|m1] eqn:E1; try lia.
  pose proof (shr_fexp_pos m1 e' loc_Exact ltac:(lia)) as [H4 H5].
  destruct (shr_fexp PyFloat.prec PyFloat.emax (Zpos m1) e' loc_Exact) as [mrs'' e''].
  simpl in H4, H5.
  destruct (shr_m mrs'') as [|m2|m2]; try lia.
  destruct (e'' <=? PyFloat.emax - PyFloat.prec); eauto.
Qed.

Lemma shl_align_exp (m : positive) (e e' : Z) :
  snd (shl_align m e e') = Z.min e e'.
Proof.
  unfold shl_align. destruct (e' - e) eqn:E; simpl; lia.
Qed.

(** [float(n)] has the sign of [n]. *)
Lemma of_int_sign (n : Z) (x : float) :
  PyFloat.of_int n = Ok x ->
  match n with
  | Z0 => x = S754_zero false
  | Zpos _ => exists m e, x = S754_finite false m e
  | Zneg _ => exists m e, x = S754_finite true m e
  end.
Proof.
  unfold PyFloat.of_int, binary_normalize, binary_round.
  destruct n as [|p|p].
  - intros H. injection H as <-. reflexivity.
  - pose proof (shl_align_exp p 0 (fexp PyFloat.prec PyFloat.emax (Zpos (digits2_pos p) + 0))) as Hs.
    destruct (shl_align p 0 _) as [mz ez]. simpl in Hs.
    destruct (binary_round_aux_sign false mz ez loc_Exact) as [(m' & e' & ->)| ->].
    + subst ez. unfold fexp, emin, PyFloat.prec, PyFloat.emax. lia.
    + intros H. injection H as <-. eauto.
    + discriminate.
  - pose proof (shl_align_exp p 0 (fexp PyFloat.prec PyFloat.emax (Zpos (digits2_pos p) + 0))) as Hs.
    destruct (shl_align p 0 _) as [mz ez]. simpl in Hs.
    destruct (binary_round_aux_sign true mz ez loc_Exact) as [(m' & e' & ->)| ->].
    + subst ez. unfold fexp, emin, PyFloat.prec, PyFloat.emax. lia.
    + intros H. injection H as <-. eauto.
    + discriminate.
Qed.

Lemma of_int_nonneg (n : Z) (x : float) :
  PyFloat.of_int n = Ok x -> PyFloat.leb PyFloat.zero x = true -> 0 <= n.
Proof.
  intros H Hle. apply of_int_sign in H. destruct n as [|p|p]; try lia.
  destruct H as (m & e & ->). discriminate.
Qed.

Lemma stop_after_start_nonneg (s e : float) :
  PyFloat.leb PyFloat.zero s = true -> PyFloat.ltb s e = true ->
  PyFloat.leb PyFloat.zero e = true.
Proof.
  unfold PyFloat.leb, PyFloat.ltb, SFleb, SFltb, PyFloat.zero.
  destruct s as [a|a| |a m x], e as [b|b| |b m' x']; simpl;
    try destruct a; try destruct b; simpl; congruence.
Qed.

Lemma mul_finite_l (x y : float) :
  PyFloat.is_finite (PyFloat.mul x y) = true -> PyFloat.is_finite x = true.
Proof.
  destruct x as [a|a| |a m e], y as [b|b| |b m' e']; simpl; congruence.
Qed.

(** The modelled [seconds_to_timestamp] succeeds on a number whose float is
    finite and not below zero. *)
Lemma seconds_to_timestamp_defined (n : number) (x : float) :
  float_of_number n = Ok x ->
  PyFloat.leb PyFloat.zero x = true -> PyFloat.is_finite x = true ->
  exists t, Utils.seconds_to_timestamp n = Ok t.
Proof.
  intros Hx Hle Hfin. destruct n as [z|y]; simpl in *.
  - pose proof (of_int_nonneg z x Hx Hle) as Hz.
    destruct (z <? 0) eqn:E; [apply Z.ltb_lt in E; lia|eauto].
  - injection Hx as ->.
    rewrite (leb_not_gtb _ _ Hle : PyFloat.ltb x PyFloat.zero = false).
    destruct (trunc_finite x Hfin) as (w & ->). simpl. eauto.
Qed.

Lemma to_timestamp_defined (t : time_t) (x : float) :
  to_seconds Utils.timestamp_to_seconds t = Ok x ->
  PyFloat.leb PyFloat.zero x = true -> PyFloat.is_finite x = true ->
  exists ts, to_timestamp Utils.seconds_to_timestamp t = Ok ts.
Proof.
  destruct t as [n|s]; simpl; [apply seconds_to_timestamp_defined|eauto].
Qed.

(** ** Results: paths and the modelled enumeration *)

Lemma Path_eqb_eq (p q : Path) : Path_eqb p q = true <-> p = q.
Proof.
  unfold Path_eqb. revert q. induction p as [|a p IH]; intros [|b q]; simpl;
    try (split; [discriminate|congruence]).
  - split; auto.
  - rewrite andb_true_iff in *. specialize (IH q). rewrite andb_true_iff in IH.
    rewrite andb_true_iff, String.eqb_eq. split.
    + intros [Hl [Hab Hf]]. f_equal; [auto|]. apply IH. auto.
    + intros E. injection E as -> ->.
      destruct (proj2 IH eq_refl) as [H1 H2]. auto.
Qed.

Lemma Path_eqb_refl (p : Path) : Path_eqb p p = true.
Proof. apply Path_eqb_eq. reflexivity. Qed.

Lemma exists_In (fs : filesystem) (p : Path) : exists_ fs p = true <-> In p fs.
Proof.
  unfold exists_. rewrite existsb_exists. split.
  - intros (x & Hx & E). apply Path_eqb_eq in E. subst. exact Hx.
  - intros H. exists p. split; auto. apply Path_eqb_refl.
Qed.

Lemma append_inj_l (a x y : string) : (a ++ x = a ++ y)%string -> x = y.
Proof. induction a; simpl; intros H; [auto|injection H; auto]. Qed.

Lemma append_length (x y : string) :
  String.length (x ++ y) = (String.length x + String.length y)%nat.
Proof. induction x; simpl; auto. Qed.

Lemma append_inj_r (b x y : string) : (x ++ b = y ++ b)%string -> x = y.
Proof.
  revert y. induction x as [|c x IH]; intros [|d y] H; simpl in *.
  - reflexivity.
  - apply (f_equal String.length) in H. simpl in H. rewrite append_length in H. lia.
  - apply (f_equal String.length) in H. simpl in H. rewrite append_length in H. lia.
  - injection H as -> H. f_equal. auto.
Qed.

Lemma str_of_N_inj (n m : N) : str_of_N n = str_of_N m -> n = m.
Proof.
  unfold str_of_N. intros H.
  apply (f_equal NilEmpty.uint_of_string) in H.
  rewrite !NilEmpty.usu in H. injection H as H.
  apply (f_equal N.of_uint) in H. rewrite !Unsigned.of_to in H. exact H.
Qed.

Lemma with_name_inj (p : Path) (n m : string) :
  Utils.with_name p n = Utils.with_name p m -> n = m.
Proof.
  unfold Utils.with_name. intros H. apply app_inv_head in H. congruence.
Qed.

Lemma file_variant_inj (p : Path) (label : string) :
  Injective (Utils.file_variant p label).
Proof.
  intros n m H. unfold Utils.file_variant in H.
  apply with_name_inj, append_inj_l, append_inj_l, append_inj_r in H.
  apply str_of_N_inj. exact H.
Qed.

Lemma dir_variant_inj (p : Path) (label : string) :
  Injective (Utils.dir_variant p label).
Proof.
  intros n m H. unfold Utils.dir_variant in H.
  apply with_name_inj, append_inj_l, append_inj_l in H.
  apply str_of_N_inj. exact H.
Qed.

Lemma first_free_fresh fs candidate fuel : forall n q,
  Utils.first_free fs candidate fuel n = Some q -> exists_ fs q = false.
Proof.
  induction fuel as [|fuel IH]; intros n q; simpl; [discriminate|].
  destruct (exists_ fs (candidate n)) eqn:E; [apply IH|].
  intros H. injection H as <-. exact E.
Qed.

Lemma first_free_None fs candidate fuel : forall n,
  Utils.first_free fs candidate fuel n = None ->
  incl (probes candidate fuel n) fs.
Proof.
  induction fuel as [|fuel IH]; intros n; simpl; [intros _ x []|].
  destruct (exists_ fs (candidate n)) eqn:E; [|discriminate].
  intros H x [<-|Hx]; [apply exists_In; exact E|].
  exact (IH _ H x Hx).
Qed.

Lemma probes_In candidate k : forall n x,
  In x (probes candidate k n) ->
  exists i, (n <= i)%N /\ x = candidate i.
Proof.
  induction k as [|k IH]; intros n x; simpl; [intros []|].
  intros [<-|H]; [exists n; split; [lia|auto]|].
  destruct (IH _ _ H) as (i & Hi & ->). exists i. split; [lia|auto].
Qed.

Lemma probes_NoDup candidate k : Injective candidate ->
  forall n, NoDup (probes candidate k n).
Proof.
  intros Hinj. induction k as [|k IH]; intros n; simpl; constructor; auto.
  intros H. apply probes_In in H. destruct H as (i & Hi & E).
  apply Hinj in E. lia.
Qed.

Lemma probes_length candidate k n : List.length (probes candidate k n) = k.
Proof. revert n. induction k; intros n; simpl; auto. Qed.

(** With pairwise distinct candidates the search always ends on a path that
    does not exist. *)
Lemma search_total fs candidate : Injective candidate ->
  exists q, Utils.search fs candidate = Ok q /\ exists_ fs q = false.
Proof.
  intros Hinj. unfold Utils.search.
  destruct (Utils.first_free fs candidate (S (List.length fs)) 1) as [q|] eqn:E.
  - exists q. split; auto. eapply first_free_fresh; eauto.
  - exfalso. apply first_free_None in E.
    pose proof (NoDup_incl_length (probes_NoDup candidate (S (List.length fs)) Hinj 1%N) E) as H.
    rewrite probes_length in H. lia.
Qed.

Lemma enumerate_filepath_total fs p label :
  exists q, Utils.enumerate_filepath fs p label = Ok q /\ exists_ fs q = false.
Proof.
  unfold Utils.enumerate_filepath. destruct (exists_ fs p) eqn:E; eauto.
  apply search_total, file_variant_inj.
Qed.

Lemma enumerate_dir_total fs p label :
  exists q, Utils.enumerate_dir fs p label = Ok q /\ exists_ fs q = false.
Proof.
  unfold Utils.enumerate_dir.
  destruct (exists_ fs (Utils.with_name p (name p ++ label))) eqn:E; eauto.
  apply search_total, dir_variant_inj.
Qed.

Lemma prepare_destpath_cases (enumerate_filepath : Path -> string -> result Path)
    (video : Path) (request_filename : option string)
    (request_destdir : option Path) (prepared_suffix : string)
    (prepared_overwrite : option bool) :
  prepare_destpath enumerate_filepath video request_filename request_destdir
    (Some prepared_suffix) prepared_overwrite =
  let candidate :=
    destination_candidate video request_filename request_destdir
      prepared_suffix in
  if overwrite_allowed prepared_overwrite && negb (Path_eqb candidate video)
  then Ok candidate
  else enumerate_filepath candidate "_vxt"%string.
Proof.
  unfold prepare_destpath, destination_candidate, destination_filename,
    normalized_suffix, overwrite_allowed.
  destruct request_filename as [[|c f]|]; reflexivity.
Qed.

(** On the modelled file system the same call always returns, and its path
    is not the video's. *)
Lemma modelled_destpath_overwrite (fs : filesystem) (video : Path)
    (request_filename : option string) (request_destdir : option Path)
    (prepared_suffix : string) :
  exists_ fs video = true ->
  exists q,
    Videoxt.prepare_destpath fs video request_filename request_destdir
      (Some prepared_suffix) (Some true) = Ok q
    /\ q <> video.
Proof.
  intros Hvideo. unfold Videoxt.prepare_destpath.
  rewrite prepare_destpath_cases. cbv zeta. simpl.
  destruct (Path_eqb (destination_candidate video request_filename
                        request_destdir prepared_suffix) video) eqn:E; simpl.
  - destruct (enumerate_filepath_total fs
                (destination_candidate video request_filename request_destdir
                   prepared_suffix) "_vxt"%string) as (q & Hq & Hf).
    exists q. split; auto. intros ->. congruence.
  - eexists. split; [reflexivity|]. intros E'.
    rewrite E', Path_eqb_refl in E. discriminate.
Qed.

Lemma split_slash_no_slash (s : string) :
  no_slash s = true -> split_char slash s = [s].
Proof.
  induction s as [|a s IH]; simpl; [reflexivity|].
  rewrite andb_true_iff. intros [Ha Hs].
  apply negb_true_iff in Ha. rewrite Ha, (IH Hs). reflexivity.
Qed.

Lemma of_string_component (f : string) :
  no_slash f = true -> is_component f = true -> of_string f = [f].
Proof.
  intros Hns Hc. unfold of_string, split_slash.
  rewrite (split_slash_no_slash f Hns). simpl. rewrite Hc.
  destruct f as [|a [|b [|c f]]]; simpl in *; try reflexivity;
    apply andb_true_iff in Hns; destruct Hns as [Ha _];
    apply negb_true_iff in Ha; rewrite Ha; reflexivity.
Qed.

Lemma no_slash_not_root (f : string) : no_slash f = true -> is_root f = false.
Proof.
  destruct f as [|a [|b [|c f]]]; simpl; try reflexivity.
  - rewrite andb_true_r. unfold is_root. simpl. intros Ha.
    destruct (Ascii.eqb a "/") eqn:E; [|reflexivity].
    apply negb_true_iff in Ha. unfold slash in Ha. congruence.
  - rewrite andb_true_r. unfold is_root. simpl. intros H.
    apply andb_true_iff in H. destruct H as [Ha Hb].
    apply negb_true_iff in Ha. unfold slash in Ha. rewrite Ha. reflexivity.
  - unfold is_root. simpl. intros H.
    apply andb_true_iff in H. destruct H as [Ha H].
    apply negb_true_iff in Ha. unfold slash in Ha. rewrite Ha. reflexivity.
Qed.

(** Joining a directory with a plain file name gives a path of that name. *)
Lemma name_joinpath (base : Path) (f : string) :
  no_slash f = true -> is_component f = true -> name (joinpath base f) = f.
Proof.
  intros Hns Hc. unfold joinpath.
  assert (Habs : is_absolute f = false).
  { destruct f as [|a f]; simpl in *; [reflexivity|].
    apply andb_true_iff in Hns. destruct Hns as [Ha _].
    apply negb_true_iff in Ha. exact Ha. }
  rewrite Habs, (of_string_component f Hns Hc).
  destruct base as [|a [|b base]]; simpl.
  - rewrite (no_slash_not_root f Hns). reflexivity.
  - reflexivity.
  - destruct (base ++ [f]) eqn:E.
    + destruct base; discriminate.
    + rewrite <- E. apply last_last.
Qed.

Lemma normalized_suffix_dot (s : string) :
  startswith_dot (normalized_suffix s) = true
  /\ (normalized_suffix s = s \/ normalized_suffix s = ("." ++ s)%string).
Proof.
  unfold normalized_suffix. destruct (startswith_dot s) eqn:E; auto.
Qed.

(** ** Results: the value of a float and its integer parts *)

Lemma floor_value (x : float) : PyFloat.is_finite x = true -> PyFloat.floor x = Ok (Qfloor (value x)).
Proof.
  destruct x as [s|s| |s m e]; simpl; try discriminate; intros _; try reflexivity.
  f_equal. destruct e as [|p|p]; unfold Qfloor; simpl Qnum; simpl Qden.
  - rewrite Z.div_1_r. reflexivity.
  - rewrite Z.div_1_r. rewrite Z.shiftl_mul_pow2 by lia. reflexivity.
  - change (Z.shiftl ?a (Zneg p)) with (Z.shiftr a (Zpos p)).
    rewrite Z.shiftr_div_pow2 by lia. rewrite Pos2Z.inj_pow. reflexivity.
Qed.

Lemma ceil_value (x : float) : PyFloat.is_finite x = true -> PyFloat.ceil x = Ok (Qceiling (value x)).
Proof.
  destruct x as [s|s| |s m e]; simpl; try discriminate; intros _; try reflexivity.
  f_equal. unfold Qceiling, Qfloor, Qopp.
  assert (E : cond_Zopp (negb s) (Zpos m) = - cond_Zopp s (Zpos m)) by (destruct s; reflexivity).
  rewrite E.
  destruct e as [|p|p]; simpl Qnum; simpl Qden.
  - rewrite Z.div_1_r. reflexivity.
  - rewrite Z.div_1_r. rewrite Z.shiftl_mul_pow2 by lia. f_equal. lia.
  - change (Z.shiftl ?a (Zneg p)) with (Z.shiftr a (Zpos p)).
    rewrite Z.shiftr_div_pow2 by lia. rewrite Pos2Z.inj_pow. reflexivity.
Qed.

Lemma trunc_value (x : float) : PyFloat.is_finite x = true -> PyFloat.trunc x = Ok (Qtrunc (value x)).
Proof.
  destruct x as [s|s| |s m e]; simpl; try discriminate; intros _; try reflexivity.
  f_equal. unfold Qtrunc.
  destruct e as [|p|p]; simpl Qnum; simpl Qden.
  - rewrite Z.quot_1_r. reflexivity.
  - rewrite Z.quot_1_r. rewrite Z.shiftl_mul_pow2 by lia.
    change (Z.pow_pos 2 p) with (2 ^ Zpos p).
    destruct s; cbn [cond_Zopp]; [symmetry; apply Z.mul_opp_l|reflexivity].
  - change (Z.shiftl ?a (Zneg p)) with (Z.shiftr a (Zpos p)).
    rewrite Z.shiftr_div_pow2 by lia. rewrite Pos2Z.inj_pow.
    rewrite <- Z.quot_div_nonneg by lia.
    destruct s; simpl cond_Zopp; [|reflexivity].
    rewrite <- Z.quot_opp_l by lia. reflexivity.
Qed.

(** ** Results: the quotient of two integers *)

Lemma div_eucl_div_mod (x y : Z) : Z.div_eucl x y = (x / y, x mod y).
Proof. unfold Z.div, Z.modulo. destruct (Z.div_eucl x y); reflexivity. Qed.

Lemma new_location_spec (c r : Z) :
  0 < c -> 0 <= r < c ->
  new_location c r = if r =? 0 then loc_Exact else loc_Inexact (2 * r ?= c).
Proof.
  intros Hc Hr. unfold new_location, new_location_even, new_location_odd.
  destruct (Z.even c) eqn:Ev; [reflexivity|].
  destruct (r =? 0); [reflexivity|]. f_equal.
  assert (Ho : Z.odd c = true) by (rewrite <- Z.negb_even, Ev; reflexivity).
  apply Z.odd_spec in Ho. destruct Ho as (k & Hk).
  destruct (Z.compare_spec (2 * r + 1) c), (Z.compare_spec (2 * r) c); try reflexivity; lia.
Qed.

Lemma round_new_location (q c r : Z) :
  0 < c -> 0 <= r < c ->
  round_nearest_even q (new_location c r) = rne q r c.
Proof.
  intros Hc Hr. rewrite new_location_spec by auto. unfold rne.
  destruct (r =? 0); [reflexivity|]. simpl.
  destruct (2 * r ?= c); reflexivity.
Qed.

Lemma div_core (a c : positive) :
  Zpos a < 2 ^ 53 -> Zpos c < 2 ^ 53 ->
  let s := 53 + Zpos (digits2_pos c) - Zpos (digits2_pos a) in
  SFdiv_core_binary PyFloat.prec PyFloat.emax (Zpos a) 0 (Zpos c) 0
  = ((Zpos a * 2 ^ s) / Zpos c, - s,
     new_location (Zpos c) ((Zpos a * 2 ^ s) mod Zpos c))
  /\ 0 < s.
Proof.
  intros Ha Hc s.
  pose proof (digits2_pos_bounds a) as [Hla Hha].
  pose proof (digits2_pos_bounds c) as [Hlc Hhc].
  assert (Hd1 : Zpos (digits2_pos a) <= 53).
  { destruct (Z_le_gt_dec (Zpos (digits2_pos a)) 53); auto.
    assert (2 ^ 53 <= 2 ^ (Zpos (digits2_pos a) - 1)) by (apply Z.pow_le_mono_r; lia). lia. }
  assert (Hd2 : Zpos (digits2_pos c) <= 53).
  { destruct (Z_le_gt_dec (Zpos (digits2_pos c)) 53); auto.
    assert (2 ^ 53 <= 2 ^ (Zpos (digits2_pos c) - 1)) by (apply Z.pow_le_mono_r; lia). lia. }
  assert (Hs : 0 < s) by (unfold s; lia).
  split; [|exact Hs].
  unfold SFdiv_core_binary, fexp, emin, PyFloat.prec, PyFloat.emax.
  cbn [Zdigits2].
  set (d1 := Zpos (digits2_pos a)) in *. set (d2 := Zpos (digits2_pos c)) in *.
  replace (Z.min (Z.max (d1 + 0 - (d2 + 0) - 53) (3 - 1024 - 53)) (0 - 0)) with (- s)
    by (unfold s; lia).
  replace (0 - 0 - - s) with s by lia.
  destruct s as [|p|p] eqn:Es; try lia.
  rewrite Z.shiftl_mul_pow2 by lia.
  rewrite div_eucl_div_mod. reflexivity.
Qed.

Lemma digits_of_bounds (p : positive) (n : Z) :
  2 ^ (n - 1) <= Zpos p < 2 ^ n -> 0 < n -> Zpos (digits2_pos p) = n.
Proof.
  intros [Hlo Hhi] Hn.
  pose proof (digits2_pos_bounds p) as [Hl Hh].
  set (d := Zpos (digits2_pos p)) in *.
  assert (Hd : 0 < d) by (unfold d; lia).
  destruct (Z.lt_trichotomy d n) as [H|[H|H]]; auto.
  - assert (2 ^ d <= 2 ^ (n - 1)) by (apply Z.pow_le_mono_r; lia). lia.
  - assert (2 ^ n <= 2 ^ (d - 1)) by (apply Z.pow_le_mono_r; lia). lia.
Qed.

Lemma quotient_bounds (a c : positive) :
  let s := 53 + Zpos (digits2_pos c) - Zpos (digits2_pos a) in
  Zpos a < 2 ^ 53 ->
  2 ^ 52 <= (Zpos a * 2 ^ s) / Zpos c < 2 ^ 54.
Proof.
  intros s Ha.
  pose proof (digits2_pos_bounds a) as [Hla Hha].
  pose proof (digits2_pos_bounds c) as [Hlc Hhc].
  set (d1 := Zpos (digits2_pos a)) in *. set (d2 := Zpos (digits2_pos c)) in *.
  assert (Hd1 : 0 < d1) by (unfold d1; lia).
  assert (Hd2 : 0 < d2) by (unfold d2; lia).
  assert (Hd1' : d1 <= 53).
  { destruct (Z_le_gt_dec d1 53); auto.
    assert (2 ^ 53 <= 2 ^ (d1 - 1)) by (apply Z.pow_le_mono_r; lia). lia. }
  assert (Hs : 0 < s) by (unfold s; lia).
  assert (P1 : 2 ^ (d1 - 1) * 2 ^ s = 2 ^ 52 * 2 ^ d2).
  { rewrite <- !Z.pow_add_r by lia. f_equal. unfold s. lia. }
  assert (P2 : 2 ^ d1 * 2 ^ s = 2 ^ 54 * 2 ^ (d2 - 1)).
  { rewrite <- !Z.pow_add_r by lia. f_equal. unfold s. lia. }
  assert (Hp : 0 < 2 ^ s) by (apply Z.pow_pos_nonneg; lia).
  split.
  - apply Z.div_le_lower_bound; [lia|].
    apply Z.le_trans with (2 ^ 52 * 2 ^ d2); [nia|].
    rewrite <- P1. nia.
  - apply Z.div_lt_upper_bound; [lia|].
    apply Z.lt_le_trans with (2 ^ d1 * 2 ^ s); [nia|].
    rewrite P2. nia.
Qed.

Lemma shr_fexp_shift0 (m : positive) (e : Z) (l : location) :
  Zpos (digits2_pos m) = 53 -> -1074 <= e ->
  shr_fexp PyFloat.prec PyFloat.emax (Zpos m) e l
  = (shr_record_of_loc (Zpos m) l, e).
Proof.
  intros Hd He. unfold shr_fexp, fexp, emin, PyFloat.prec, PyFloat.emax.
  cbn [Zdigits2]. rewrite Hd.
  replace (Z.max (53 + e - 53) (3 - 1024 - 53) - e) with 0 by lia.
  reflexivity.
Qed.

Lemma shr_fexp_shift1 (m : positive) (e : Z) (l : location) :
  Zpos (digits2_pos m) = 54 -> -1075 <= e ->
  shr_fexp PyFloat.prec PyFloat.emax (Zpos m) e l
  = (shr_1 (shr_record_of_loc (Zpos m) l), e + 1).
Proof.
  intros Hd He. unfold shr_fexp, fexp, emin, PyFloat.prec, PyFloat.emax.
  cbn [Zdigits2]. rewrite Hd.
  replace (Z.max (54 + e - 53) (3 - 1024 - 53) - e) with 1 by lia.
  reflexivity.
Qed.

Lemma loc_of_record_of_loc (m : Z) (l : location) :
  loc_of_shr_record (shr_record_of_loc m l) = l.
Proof. destruct l as [|[]]; reflexivity. Qed.

(** The second half of [binary_round_aux]: a rounded significand of 53
    digits is kept, [2^53] is renormalised. *)
Lemma round_aux_finish (s : bool) (m1 e : Z) :
  2 ^ 52 <= m1 <= 2 ^ 53 -> -1074 <= e <= 900 ->
  (let '(mrs, e') := shr_fexp PyFloat.prec PyFloat.emax m1 e loc_Exact in
   match shr_m mrs with
   | Z0 => S754_zero s
   | Zpos m => if e' <=? PyFloat.emax - PyFloat.prec then S754_finite s m e'
               else S754_infinity s
   | Zneg _ => S754_nan
   end) = pack s m1 e.
Proof.
  intros Hm He. unfold pack.
  destruct m1 as [|p|p]; try lia.
  destruct (Z.ltb_spec (Zpos p) (2 ^ 53)) as [Hlt|Hge].
  - rewrite shr_fexp_shift0; [|apply digits_of_bounds; lia|lia].
    cbn [shr_record_of_loc shr_m].
    destruct (Z.leb_spec e (PyFloat.emax - PyFloat.prec)) as [H|H];
      [|unfold PyFloat.emax, PyFloat.prec in H; lia].
    reflexivity.
  - assert (E : Zpos p = 2 ^ 53) by lia. injection E as ->.
    rewrite shr_fexp_shift1; [|reflexivity|lia].
    cbn [shr_record_of_loc shr_1 shr_m].
    destruct (Z.leb_spec (e + 1) (PyFloat.emax - PyFloat.prec)) as [H|H];
      [|unfold PyFloat.emax, PyFloat.prec in H; lia].
    reflexivity.
Qed.

Lemma double_div_mod (c n : Z) :
  0 < c -> 0 <= n ->
  ((2 * n) / c = 2 * (n / c) /\ (2 * n) mod c = 2 * (n mod c)
   /\ 2 * (n mod c) < c)
  \/ ((2 * n) / c = 2 * (n / c) + 1 /\ (2 * n) mod c = 2 * (n mod c) - c
      /\ c <= 2 * (n mod c)).
Proof.
  intros Hc Hn.
  pose proof (Z.div_mod n c ltac:(lia)) as E.
  pose proof (Z.mod_pos_bound n c Hc) as B.
  destruct (Z_lt_le_dec (2 * (n mod c)) c) as [H|H]; [left|right].
  - assert (U : 2 * n = c * (2 * (n / c)) + 2 * (n mod c)) by lia.
    destruct (Z.div_mod_unique c ((2 * n) / c) (2 * (n / c)) ((2 * n) mod c)
                (2 * (n mod c))) as [U1 U2].
    + left. apply Z.mod_pos_bound; lia.
    + left. lia.
    + rewrite <- Z.div_mod by lia. exact U.
    + auto.
  - assert (U : 2 * n = c * (2 * (n / c) + 1) + (2 * (n mod c) - c)) by lia.
    destruct (Z.div_mod_unique c ((2 * n) / c) (2 * (n / c) + 1) ((2 * n) mod c)
                (2 * (n mod c) - c)) as [U1 U2].
    + left. apply Z.mod_pos_bound; lia.
    + left. lia.
    + rewrite <- Z.div_mod by lia. exact U.
    + auto.
Qed.

Lemma round_shift1 (q : positive) (c n : Z) :
  0 < c -> 0 <= n -> Zpos q = (2 * n) / c ->
  let mrs := shr_1 (shr_record_of_loc (Zpos q)
                      (new_location c ((2 * n) mod c))) in
  round_nearest_even (shr_m mrs) (loc_of_shr_record mrs)
  = rne (n / c) (n mod c) c.
Proof.
  intros Hc Hn Hq.
  pose proof (Z.mod_pos_bound (2 * n) c Hc) as B.
  pose proof (Z.mod_pos_bound n c Hc) as B'.
  rewrite new_location_spec by auto.
  pose proof (double_div_mod c n Hc Hn) as D.
  set (Q' := n / c) in *. set (R' := n mod c) in *.
  set (R := (2 * n) mod c) in *.
  unfold rne.
  destruct (Z.eqb_spec R 0) as [ER|ER], (Z.eqb_spec R' 0) as [ER'|ER'];
    destruct (Z.compare_spec (2 * R') c) as [C|C|C];
    destruct q as [p|p|];
    try (exfalso; lia);
    try (destruct (2 * R ?= c));
    cbn [shr_record_of_loc shr_1 shr_m loc_of_shr_record round_nearest_even orb];
    try (replace Q' with (Zpos p) by lia; reflexivity);
    try (replace Q' with 0 by lia; reflexivity);
    try (exfalso; lia).
Qed.

Lemma rne_bounds (q r c : Z) : q <= rne q r c <= q + 1.
Proof.
  unfold rne. destruct (r =? 0); [lia|].
  destruct (2 * r ?= c); try lia. destruct (Z.even q); lia.
Qed.

(** The quotient of two integers below [2^53], as [SFdiv] rounds it: for
    some scaling [2^t] with [c < 2^(t+1)], the significand is the quotient
    [a * 2^t / c] rounded half-even to an integer. *)
Lemma SFdiv_ints (sa sc : bool) (a c : positive) :
  Zpos a < 2 ^ 53 -> Zpos c < 2 ^ 53 ->
  exists t m1,
    0 <= t <= 105 /\ Zpos c < 2 ^ (t + 1)
    /\ m1 = rne ((Zpos a * 2 ^ t) / Zpos c) ((Zpos a * 2 ^ t) mod Zpos c) (Zpos c)
    /\ 2 ^ 52 <= m1 <= 2 ^ 53
    /\ SFdiv PyFloat.prec PyFloat.emax (S754_finite sa a 0) (S754_finite sc c 0)
       = pack (xorb sa sc) m1 (- t).
Proof.
  intros Ha Hc.
  pose proof (div_core a c Ha Hc) as [Hcore Hs].
  pose proof (quotient_bounds a c Ha) as HQ.
  cbv zeta in Hcore, HQ, Hs.
  pose proof (digits2_pos_bounds a) as [Hla Hha].
  pose proof (digits2_pos_bounds c) as [Hlc Hhc].
  set (d1 := Zpos (digits2_pos a)) in *. set (d2 := Zpos (digits2_pos c)) in *.
  set (s := 53 + d2 - d1) in *.
  assert (Hd1 : 0 < d1 <= 53).
  { split; [unfold d1; lia|]. destruct (Z_le_gt_dec d1 53); auto.
    assert (2 ^ 53 <= 2 ^ (d1 - 1)) by (apply Z.pow_le_mono_r; lia). lia. }
  assert (Hd2 : 0 < d2 <= 53).
  { split; [unfold d2; lia|]. destruct (Z_le_gt_dec d2 53); auto.
    assert (2 ^ 53 <= 2 ^ (d2 - 1)) by (apply Z.pow_le_mono_r; lia). lia. }
  unfold SFdiv. rewrite Hcore. unfold binary_round_aux.
  pose proof (Z.mod_pos_bound (Zpos a * 2 ^ s) (Zpos c) ltac:(lia)) as HR.
  set (Q := (Zpos a * 2 ^ s) / Zpos c) in *.
  set (R := (Zpos a * 2 ^ s) mod Zpos c) in *.
  destruct Q as [|q|q] eqn:EQ; try lia.
  destruct (Z_lt_le_dec (Zpos q) (2 ^ 53)) as [Hlt|Hge].
  - exists s, (rne (Zpos q) R (Zpos c)).
    split; [lia|]. split.
    { apply Z.lt_le_trans with (2 ^ d2); [lia|]. apply Z.pow_le_mono_r; lia. }
    split; [fold Q; rewrite EQ; reflexivity|].
    pose proof (rne_bounds (Zpos q) R (Zpos c)) as Hb.
    split; [lia|].
    rewrite shr_fexp_shift0; [|apply digits_of_bounds; lia|lia].
    rewrite shr_record_of_loc_m, loc_of_record_of_loc, round_new_location by lia.
    apply round_aux_finish; lia.
  - exists (s - 1), (rne ((Zpos a * 2 ^ (s - 1)) / Zpos c) ((Zpos a * 2 ^ (s - 1)) mod Zpos c) (Zpos c)).
    assert (E2 : Zpos a * 2 ^ s = 2 * (Zpos a * 2 ^ (s - 1))).
    { replace s with (1 + (s - 1)) at 1 by lia.
      rewrite Z.pow_add_r by lia. lia. }
    assert (Hn : 0 <= Zpos a * 2 ^ (s - 1)).
    { apply Z.mul_nonneg_nonneg; [lia|]. apply Z.pow_nonneg. lia. }
    pose proof (double_div_mod (Zpos c) (Zpos a * 2 ^ (s - 1)) ltac:(lia) Hn) as D.
    rewrite <- E2 in D. fold Q R in D. rewrite EQ in D.
    pose proof (rne_bounds ((Zpos a * 2 ^ (s - 1)) / Zpos c)
                  ((Zpos a * 2 ^ (s - 1)) mod Zpos c) (Zpos c)) as Hb.
    split; [lia|]. split.
    { replace (s - 1 + 1) with s by lia.
      apply Z.lt_le_trans with (2 ^ d2); [lia|]. apply Z.pow_le_mono_r; lia. }
    split; [reflexivity|]. split; [lia|].
    rewrite shr_fexp_shift1; [|apply digits_of_bounds; lia|lia].
    unfold R. rewrite E2.
    rewrite (round_shift1 q (Zpos c) (Zpos a * 2 ^ (s - 1))); [|lia|exact Hn|].
    + replace (- s + 1) with (- (s - 1)) by lia. apply round_aux_finish; lia.
    + rewrite <- E2. fold Q. congruence.
Qed.

Section RoundedQuotient.

Variables a c P : Z.
Hypothesis Ha : 0 < a.
Hypothesis Hc : 0 < c.
Hypothesis HP : 0 < P.
Hypothesis HcP : c < 2 * P.

Lemma rne_cases :
  (a * P) mod c = 0 /\ rounded a c P = (a * P) / c
  \/ 0 < (a * P) mod c /\ 2 * ((a * P) mod c) <= c
     /\ rounded a c P = (a * P) / c
  \/ c <= 2 * ((a * P) mod c) /\ rounded a c P = (a * P) / c + 1.
Proof.
  unfold rounded, rne.
  pose proof (Z.mod_pos_bound (a * P) c Hc) as B.
  destruct (Z.eqb_spec ((a * P) mod c) 0) as [E|E]; [left; auto|right].
  destruct (Z.compare_spec (2 * ((a * P) mod c)) c) as [C|C|C].
  - destruct (Z.even ((a * P) / c)); [left|right]; lia.
  - left; lia.
  - right; lia.
Qed.

(** Rounding the scaled quotient keeps the floor of [a / c]. *)
Lemma rounded_floor : rounded a c P / P = a / c.
Proof.
  pose proof (Z.div_mod a c ltac:(lia)) as Ea.
  pose proof (Z.mod_pos_bound a c Hc) as Ba.
  pose proof (Z.div_mod (a * P) c ltac:(lia)) as EN.
  pose proof (Z.mod_pos_bound (a * P) c Hc) as BN.
  set (k := a / c) in *. set (ra := a mod c) in *.
  set (Q' := (a * P) / c) in *. set (R' := (a * P) mod c) in *.
  assert (EP : a * P = c * (k * P) + ra * P) by (rewrite Ea at 1; ring).
  assert (Hra : ra * P <= (c - 1) * P) by (apply Z.mul_le_mono_nonneg_r; lia).
  assert (Hra0 : 0 <= ra * P) by (apply Z.mul_nonneg_nonneg; lia).
  assert (Hlo : k * P <= Q').
  { destruct (Z_le_gt_dec (k * P) Q') as [H|H]; auto. exfalso.
    assert (c * Q' <= c * (k * P - 1)) by (apply Z.mul_le_mono_nonneg_l; lia).
    lia. }
  assert (Hhi : Q' <= (k + 1) * P - 1).
  { destruct (Z_le_gt_dec Q' ((k + 1) * P - 1)) as [H|H]; auto. exfalso.
    assert (c * ((k + 1) * P) <= c * Q') by (apply Z.mul_le_mono_nonneg_l; lia).
    lia. }
  set (m1 := rounded a c P) in *.
  assert (Hm : k * P <= m1 < (k + 1) * P).
  { pose proof rne_cases as RC. fold Q' R' m1 in RC.
    destruct RC as [[_ ->]|[(_ & _ & ->)|[H2 ->]]]; try lia.
    split; [lia|].
    destruct (Z_lt_le_dec (Q' + 1) ((k + 1) * P)) as [H|H]; auto. exfalso.
    assert (Q' = (k + 1) * P - 1) by lia.
    assert (c * Q' = c * ((k + 1) * P) - c) by (subst Q'; lia).
    lia. }
  symmetry. apply (Z.div_unique m1 P k (m1 - k * P)); lia.
Qed.

(** It keeps the ceiling as well. *)
Lemma rounded_ceiling : (- rounded a c P) / P = (- a) / c.
Proof.
  pose proof (Z.div_mod (- a) c ltac:(lia)) as Ea.
  pose proof (Z.mod_pos_bound (- a) c Hc) as Ba.
  pose proof (Z.div_mod (a * P) c ltac:(lia)) as EN.
  pose proof (Z.mod_pos_bound (a * P) c Hc) as BN.
  set (j := (- a) / c) in *. set (rj := (- a) mod c) in *.
  set (Q' := (a * P) / c) in *. set (R' := (a * P) mod c) in *.
  assert (EP : a * P = c * (- j * P) - rj * P).
  { replace a with (- (c * j + rj)) at 1 by lia. ring. }
  assert (Hrj : rj * P <= (c - 1) * P) by (apply Z.mul_le_mono_nonneg_r; lia).
  assert (Hrj0 : 0 <= rj * P) by (apply Z.mul_nonneg_nonneg; lia).
  assert (Hhi : Q' <= - j * P).
  { destruct (Z_le_gt_dec Q' (- j * P)) as [H|H]; auto. exfalso.
    assert (c * (- j * P + 1) <= c * Q') by (apply Z.mul_le_mono_nonneg_l; lia).
    lia. }
  assert (Hlo : (- j - 1) * P <= Q').
  { destruct (Z_le_gt_dec ((- j - 1) * P) Q') as [H|H]; auto. exfalso.
    assert (c * Q' <= c * ((- j - 1) * P - 1)) by (apply Z.mul_le_mono_nonneg_l; lia).
    lia. }
  set (m1 := rounded a c P) in *.
  assert (Hm : (- j - 1) * P < m1 <= - j * P).
  { pose proof rne_cases as RC. fold Q' R' m1 in RC.
    destruct RC as [[H0 ->]|[(H1 & H2 & ->)|[H2 ->]]].
    - split; [|lia].
      destruct (Z_lt_le_dec ((- j - 1) * P) Q') as [H|H]; auto. exfalso.
      assert (EQ' : Q' = (- j - 1) * P) by lia.
      assert (c * Q' = c * (- j * P) - c * P) by (rewrite EQ'; ring). 
      assert (rj * P = c * P) by lia.
      assert (rj * P < c * P) by (apply Z.mul_lt_mono_pos_r; lia).
      lia.
    - split.
      + destruct (Z_lt_le_dec ((- j - 1) * P) Q') as [H|H]; auto. exfalso.
        assert (EQ' : Q' = (- j - 1) * P) by lia.
        assert (c * Q' = c * (- j * P) - c * P) by (rewrite EQ'; ring).
        assert (R' = c * P - rj * P) by lia.
        assert (P <= R').
        { replace (c * P - rj * P) with ((c - rj) * P) in * by ring.
          assert (1 * P <= (c - rj) * P) by (apply Z.mul_le_mono_nonneg_r; lia).
          lia. }
        lia.
      + destruct (Z_le_gt_dec Q' (- j * P - 1)) as [H|H]; [lia|]. exfalso.
        assert (EQ' : Q' = - j * P) by lia.
        assert (c * Q' = c * (- j * P)) by (rewrite EQ'; ring).
        lia.
    - split; [lia|].
      destruct (Z_le_gt_dec (Q' + 1) (- j * P)) as [H|H]; auto. exfalso.
      assert (EQ' : Q' = - j * P) by lia.
      assert (c * Q' = c * (- j * P)) by (rewrite EQ'; ring).
      lia. }
  symmetry. apply (Z.div_unique (- m1) P j (- m1 - j * P)); lia.
Qed.

End RoundedQuotient.

Lemma shiftl_double (x e : Z) : Z.shiftl (2 * x) e = Z.shiftl x (e + 1).
Proof.
  replace (2 * x) with (Z.shiftl x 1) by (rewrite Z.shiftl_mul_pow2; lia).
  rewrite Z.shiftl_shiftl by lia. f_equal. lia.
Qed.

Lemma ceil_pack (s : bool) (m1 t : Z) :
  2 ^ 52 <= m1 <= 2 ^ 53 -> 0 <= t ->
  PyFloat.ceil (pack s m1 (- t))
  = Ok (- (cond_Zopp (negb s) m1 / 2 ^ t)).
Proof.
  intros Hm Ht. unfold pack.
  assert (Hsh : forall x, Z.shiftl x (- t) = x / 2 ^ t).
  { intros x. rewrite Z.shiftl_div_pow2 by lia. f_equal. f_equal. lia. }
  destruct (Z.ltb_spec m1 (2 ^ 53)) as [Hlt|Hge]; cbn [PyFloat.ceil].
  - rewrite Z2Pos.id by lia. rewrite Hsh. reflexivity.
  - assert (E : m1 = 2 * 2 ^ 52) by lia.
    rewrite Z2Pos.id by lia.
    rewrite <- shiftl_double, Hsh. f_equal. f_equal. f_equal.
    rewrite E. destruct s; reflexivity.
Qed.

Lemma pack_not_infinity (s : bool) (m e : Z) :
  match pack s m e with
  | S754_infinity _ => Raise OverflowError
  | f => Ok f
  end = Ok (pack s m e).
Proof. unfold pack. destruct (m <? 2 ^ 53); reflexivity. Qed.

Lemma ceil_SFdiv_ints (sa sc : bool) (a c : positive) :
  Zpos a < 2 ^ 53 -> Zpos c < 2 ^ 53 ->
  (q <- match SFdiv PyFloat.prec PyFloat.emax (S754_finite sa a 0)
                (S754_finite sc c 0) with
        | S754_infinity _ => Raise OverflowError
        | f => Ok f
        end ;;
   PyFloat.ceil q)
  = Ok (if xorb sa sc then - (Zpos a / Zpos c) else - ((- Zpos a) / Zpos c)).
Proof.
  intros Ha Hc.
  destruct (SFdiv_ints sa sc a c Ha Hc) as (t & m1 & Ht & Hct & Hm & Hb & ->).
  rewrite pack_not_infinity. cbn [bind].
  rewrite ceil_pack by lia. f_equal.
  assert (HP : 0 < 2 ^ t) by (apply Z.pow_pos_nonneg; lia).
  assert (HcP : Zpos c < 2 * 2 ^ t).
  { replace (2 * 2 ^ t) with (2 ^ (t + 1)); [exact Hct|].
    rewrite Z.pow_add_r by lia. lia. }
  destruct (xorb sa sc); cbn [negb cond_Zopp]; f_equal; subst m1.
  - apply (rounded_floor (Zpos a) (Zpos c) (2 ^ t)); lia.
  - apply (rounded_ceiling (Zpos a) (Zpos c) (2 ^ t)); lia.
Qed.

(** On integers below [2^53] in absolute value, [math.ceil(a / b)] is the
    exact ceiling of the quotient. *)
Lemma ceil_int_truediv (a b : Z) :
  b <> 0 -> Z.abs a < 2 ^ 53 -> Z.abs b < 2 ^ 53 ->
  (q <- PyFloat.int_truediv a b ;; PyFloat.ceil q) = Ok (ceil_div a b).
Proof.
  intros Hb Ha Hb'. unfold PyFloat.int_truediv, ceil_div.
  destruct (Z.eqb_spec b 0) as [|_]; [contradiction|].
  destruct a as [|a|a].
  - cbn [bind PyFloat.ceil]. change (- 0) with 0. rewrite Zdiv_0_l. reflexivity.
  - destruct b as [|c|c]; [contradiction| |]; cbn [PyFloat.wide];
      rewrite ceil_SFdiv_ints by lia; cbn [xorb]; f_equal.
    change (Zneg c) with (- Zpos c). rewrite Z.div_opp_opp by lia. reflexivity.
  - destruct b as [|c|c]; [contradiction| |]; cbn [PyFloat.wide];
      rewrite ceil_SFdiv_ints by lia; cbn [xorb]; f_equal.
    change (- Zneg a) with (Zpos a).
    change (Zpos a) with (- - Zpos a) at 2. change (Zneg c) with (- Zpos c).
    rewrite Z.div_opp_opp by lia. reflexivity.
Qed.

Lemma Qceiling_div (a b : Z) :
  b <> 0 -> Qceiling (inject_Z a / inject_Z b) = ceil_div a b.
Proof.
  intros Hb. unfold ceil_div, Qceiling, Qfloor, Qdiv, Qinv, Qmult, Qopp, inject_Z.
  destruct b as [|c|c]; [contradiction| |]; simpl Qnum; simpl Qden.
  - rewrite Z.mul_1_r. reflexivity.
  - f_equal. change (Zneg c) with (- Zpos c).
    replace (- (a * -1)) with a by lia.
    symmetry. apply Z.div_opp_opp. lia.
Qed.

Lemma int_truediv_errors (a b : Z) :
  b <> 0 -> errors_in [OverflowError] (PyFloat.int_truediv a b).
Proof.
  intros Hb. unfold PyFloat.int_truediv.
  destruct (Z.eqb_spec b 0) as [|_]; [contradiction|].
  destruct a; simpl; auto;
    match goal with |- context [match ?x with _ => _ end] => destruct x end;
    simpl; auto.
Qed.

(** ** Results: integers as floats *)

Lemma iter_xO_spec (p k : positive) :
  Zpos (Pos.iter xO p k) = Zpos p * 2 ^ Zpos k.
Proof.
  change (Pos.iter xO p k) with (shift_pos k p).
  rewrite shift_pos_correct, Z.pow_pos_fold. lia.
Qed.

Lemma fexp_normal (x : Z) :
  -1021 <= x -> fexp PyFloat.prec PyFloat.emax x = x - 53.
Proof. unfold fexp, emin, PyFloat.prec, PyFloat.emax. lia. Qed.

(** Rounding an integer below [2^53]: the significand is scaled to 53
    digits and nothing is lost. *)
Lemma binary_round_exact (b : bool) (p : positive) :
  Zpos p < 2 ^ 53 ->
  exists mz k,
    0 <= k /\ Zpos mz = Zpos p * 2 ^ k
    /\ binary_round PyFloat.prec PyFloat.emax b p 0 = S754_finite b mz (- k).
Proof.
  intros Hp.
  pose proof (digits2_pos_bounds p) as [Hlo Hhi].
  set (d := Zpos (digits2_pos p)) in *.
  assert (Hd : 0 < d <= 53).
  { split; [unfold d; lia|]. destruct (Z_le_gt_dec d 53); auto.
    assert (2 ^ 53 <= 2 ^ (d - 1)) by (apply Z.pow_le_mono_r; lia). lia. }
  assert (Hfin : forall mz k, 0 <= k <= 53 -> Zpos mz = Zpos p * 2 ^ k ->
            k = 53 - d ->
            binary_round_aux PyFloat.prec PyFloat.emax b (Zpos mz) (- k)
              loc_Exact
            = S754_finite b mz (- k)).
  { intros mz k Hk Hmz Ek.
    assert (Hb : 2 ^ 52 <= Zpos mz < 2 ^ 53).
    { rewrite Hmz. split.
      - apply Z.le_trans with (2 ^ (d - 1) * 2 ^ k).
        + rewrite <- Z.pow_add_r by lia. apply Z.pow_le_mono_r; lia.
        + apply Z.mul_le_mono_nonneg_r; [apply Z.pow_nonneg; lia|lia].
      - apply Z.lt_le_trans with (2 ^ d * 2 ^ k).
        + apply Z.mul_lt_mono_pos_r; [apply Z.pow_pos_nonneg; lia|lia].
        + rewrite <- Z.pow_add_r by lia. apply Z.pow_le_mono_r; lia. }
    unfold binary_round_aux.
    rewrite shr_fexp_shift0; [|apply digits_of_bounds; lia|lia].
    cbn [shr_record_of_loc shr_m loc_of_shr_record round_nearest_even].
    rewrite (round_aux_finish b (Zpos mz) (- k)) by lia.
    unfold pack. destruct (Z.ltb_spec (Zpos mz) (2 ^ 53)); [reflexivity|lia]. }
  unfold binary_round, shl_align. fold d.
  rewrite fexp_normal by lia.
  replace (d + 0 - 53 - 0) with (d - 53) by lia.
  destruct (d - 53) as [|q|q] eqn:E; try lia.
  - exists p, 0. split; [lia|]. split; [lia|]. apply (Hfin p 0); lia.
  - exists (Pos.iter xO p q), (Zpos q).
    split; [lia|]. split; [apply iter_xO_spec|].
    replace (d + 0 - 53) with (- Zpos q) by lia.
    apply Hfin; [lia|apply iter_xO_spec|lia].
Qed.

(** [float(n)] is exact below [2^53]. *)
Lemma of_int_exact (n : Z) :
  Z.abs n < 2 ^ 53 ->
  PyFloat.of_int n = Ok (PyFloat.lit n)
  /\ PyFloat.is_finite (PyFloat.lit n) = true
  /\ (value (PyFloat.lit n) == inject_Z n)%Q.
Proof.
  intros Hn. unfold PyFloat.of_int, PyFloat.lit, binary_normalize.
  destruct n as [|p|p].
  - repeat split.
  - destruct (binary_round_exact false p ltac:(lia)) as (mz & k & Hk & Hmz & ->).
    repeat split. unfold value, Qeq. 
    destruct k as [|k|k]; try lia; simpl Z.opp; cbn [cond_Zopp Qnum Qden inject_Z].
    + lia.
    + rewrite Pos2Z.inj_pow. lia.
  - destruct (binary_round_exact true p ltac:(lia)) as (mz & k & Hk & Hmz & ->).
    repeat split. unfold value, Qeq.
    destruct k as [|k|k]; try lia; simpl Z.opp; cbn [cond_Zopp Qnum Qden inject_Z].
    + lia.
    + rewrite Pos2Z.inj_pow. lia.
Qed.

Lemma floor_Ok_value (x : float) (n : Z) :
  PyFloat.floor x = Ok n -> n = Qfloor (value x).
Proof.
  intros H. assert (F : PyFloat.is_finite x = true)
    by (destruct x; simpl in *; congruence).
  rewrite (floor_value x F) in H. congruence.
Qed.

(** ** The claims *)

(** C1 (as stated, refuted).  With [prepared_stop_time = 0] the call never
    yields the range [10, 20] with frames [300, 600]: whatever the three
    helper functions do, [stop_second] is [float(0)], so no result has
    [stop_second = 20]. *)
Lemma C1_stop_zero_is_not_the_end :
  ~ (exists timestamp_to_seconds seconds_to_timestamp valid_extraction_range d,
       prepare_extraction_range timestamp_to_seconds seconds_to_timestamp
         valid_extraction_range f20 600 (Some (Num (Int 10)))
         (Some (Num (Int 0))) (Some f30) = Ok d
       /\ d_start_second d = f10 /\ d_stop_second d = Some f20
       /\ d_start_frame d = 300 /\ d_stop_frame d = 600).
Proof.
  intros (tts & stt & v & d & H & _ & Hstop & _).
  rewrite prepare_chain in H.
  bind_ok H s Hs.
  bind_ok H e He.
  bind_ok H x Hx.
  bind_ok H ts Hts.
  bind_ok H te Hte.
  bind_ok H fs Hfs.
  bind_ok H fe Hfe.
  injection H as <-. simpl in Hstop.
  vm_compute in He. injection He as <-.
  vm_compute in Hstop. discriminate.
Qed.

(** C1 (amended).  On the video of 20 seconds, 600 frames and 30 frames per
    second, a stop time of 0 is an ordinary time: the range [10, 0] is
    rejected with RangeError.  The stop time that means "to the end" is the
    duration, which [prepare_stop_time] substitutes for an absent request;
    with it, or with 20 given directly, the range resolves to seconds 10 and
    20 and frames 300 and 600. *)
Theorem C1_range_to_the_end :
  Videoxt.prepare_extraction_range f20 600 (Some (Num (Int 10)))
    (Some (Num (Int 0))) (Some f30) = Raise RangeError
  /\ prepare_stop_time f20 None = Num (Float f20)
  /\ Videoxt.prepare_extraction_range f20 600 (Some (Num (Int 10)))
       (Some (prepare_stop_time f20 None)) (Some f30)
     = Ok (mkRangeDict f10 (Some f20) "0:00:10" "0:00:20" 300 600)
  /\ Videoxt.prepare_extraction_range f20 600 (Some (Num (Int 10)))
       (Some (Num (Int 20))) (Some f30)
     = Ok (mkRangeDict f10 (Some f20) "0:00:10" "0:00:20" 300 600).
Proof.
  repeat split; vm_compute; reflexivity.
Qed.

(** C2.  With the three inputs present and both ends normalised to seconds
    [s] and [e]: the call raises RangeError whenever [s < 0], or
    [e > duration], or [s >= e]; and when [0 <= s < e <= duration] it does
    not raise RangeError - the validation lets the range through - and the
    call returns the range with these seconds as soon as the two products
    [s * fps] and [e * fps] taken for the frames are finite. *)
Theorem C2_range_error_cases :
  forall (duration : float) (frames : Z) (start stop : time_t)
         (rate s e : float),
    to_seconds Utils.timestamp_to_seconds start = Ok s ->
    to_seconds Utils.timestamp_to_seconds stop = Ok e ->
    (PyFloat.ltb s PyFloat.zero = true \/ PyFloat.gtb e duration = true
     \/ PyFloat.geb s e = true ->
     Videoxt.prepare_extraction_range duration frames (Some start)
       (Some stop) (Some rate) = Raise RangeError)
    /\ (PyFloat.leb PyFloat.zero s = true /\ PyFloat.ltb s e = true
        /\ PyFloat.leb e duration = true ->
        Videoxt.prepare_extraction_range duration frames (Some start)
          (Some stop) (Some rate) <> Raise RangeError
        /\ (PyFloat.is_finite (PyFloat.mul s rate) = true ->
            PyFloat.is_finite (PyFloat.mul e rate) = true ->
            exists d,
              Videoxt.prepare_extraction_range duration frames (Some start)
                (Some stop) (Some rate) = Ok d
              /\ d_start_second d = s /\ d_stop_second d = Some e)).
Proof.
  intros duration frames start stop rate s e Hs He.
  unfold Videoxt.prepare_extraction_range.
  rewrite prepare_chain, Hs, He.
  change (bind (Ok s) ?k) with (k s). cbv beta.
  change (bind (Ok e) ?k) with (k e). cbv beta.
  rewrite valid_extraction_range_cases.
  split.
  - intros Hbad.
    assert (E : bad_range s e duration = true).
    { unfold bad_range. destruct Hbad as [-> | [-> | ->]];
        rewrite ?orb_true_r; reflexivity. }
    rewrite E. reflexivity.
  - intros (H0 & H1 & H2).
    assert (E : bad_range s e duration = false).
    { apply good_range_not_bad. unfold good_range. rewrite H0, H1, H2.
      reflexivity. }
    rewrite E. cbv beta iota delta [bind]. fold (@bind).
    split.
    + apply (errors_in_not [DomainError; ValueError; OverflowError]);
        [|simpl; intuition discriminate].
      assert (Hts : forall t, errors_in [DomainError; ValueError; OverflowError]
                      (to_timestamp Utils.seconds_to_timestamp t)).
      { intros [n|w]; simpl; auto. apply seconds_to_timestamp_errors. }
      assert (Hfl : forall x, errors_in [DomainError; ValueError; OverflowError]
                      (PyFloat.floor x)).
      { intros x. eapply errors_in_incl; [|apply floor_errors].
        intros y [<-|[<-|[]]]; simpl; auto. }
      apply errors_in_bind; [apply Hts|intros ts].
      apply errors_in_bind; [apply Hts|intros te].
      apply errors_in_bind; [apply Hfl|intros fs].
      apply errors_in_bind; [apply Hfl|intros fe].
      exact I.
    + intros Fs Fe.
      pose proof (stop_after_start_nonneg s e H0 H1) as H0e.
      destruct (to_timestamp_defined start s Hs H0 (mul_finite_l _ _ Fs))
        as (ts & ->).
      destruct (to_timestamp_defined stop e He H0e (mul_finite_l _ _ Fe))
        as (te & ->).
      destruct (floor_finite _ Fs) as (fs & ->).
      destruct (floor_finite _ Fe) as (fe & ->).
      simpl. eexists. split; [reflexivity|]. simpl. auto.
Qed.

(** C3.  [prepare_extraction_range] raises PreparationError exactly when one
    of the start time, the stop time and the fps is [None].  The test comes
    first: with a value missing the result is PreparationError whatever the
    converters and the validator would do, and PreparationError is not
    RangeError. *)
Theorem C3_preparation_error_iff_absent :
  forall (duration : float) (frames : Z) (start stop : option time_t)
         (rate : option float),
    (forall timestamp_to_seconds seconds_to_timestamp valid_extraction_range,
        start = None \/ stop = None \/ rate = None ->
        prepare_extraction_range timestamp_to_seconds seconds_to_timestamp
          valid_extraction_range duration frames start stop rate
        = Raise PreparationError)
    /\ (Videoxt.prepare_extraction_range duration frames start stop rate
        = Raise PreparationError
        <-> start = None \/ stop = None \/ rate = None)
    /\ PreparationError <> RangeError.
Proof.
  intros duration frames start stop rate. split; [|split].
  - intros tts stt v H. apply prepare_absent. exact H.
  - split.
    + destruct start as [st|]; auto. destruct stop as [sp|]; auto.
      destruct rate as [r|]; auto.
      intros H. exfalso.
      refine (errors_in_not _ _ PreparationError
                (modelled_present_errors duration frames st sp r) _ H).
      simpl. intuition discriminate.
    + apply prepare_absent.
  - discriminate.
Qed.

(** C4.  [prepare_dimensions] takes the requested dimensions as the base
    when there are some and the video's otherwise.  A resize factor equal to
    1.0 leaves the base as it is.  Any other factor gives, for each component
    (below [2^53], so that its float is exact), the integer part toward zero
    of the binary64 product of the component and the factor, whenever that
    product is finite.  A video of 1920 by 1080 resized by 0.5 gives 960 by
    540. *)
Theorem C4_prepare_dimensions :
  forall (video : Z * Z) (resize : float) (request : option (Z * Z)),
    let base := match request with Some d => d | None => video end in
    (PyFloat.eqb resize (PyFloat.lit 1) = true ->
     prepare_dimensions video resize request = Ok base)
    /\ (PyFloat.eqb resize (PyFloat.lit 1) = false ->
        Z.abs (fst base) < 2 ^ 53 -> Z.abs (snd base) < 2 ^ 53 ->
        PyFloat.is_finite (PyFloat.mul (PyFloat.lit (fst base)) resize) = true ->
        PyFloat.is_finite (PyFloat.mul (PyFloat.lit (snd base)) resize) = true ->
        (value (PyFloat.lit (fst base)) == inject_Z (fst base))%Q
        /\ (value (PyFloat.lit (snd base)) == inject_Z (snd base))%Q
        /\ prepare_dimensions video resize request
           = Ok (Qtrunc (value (PyFloat.mul (PyFloat.lit (fst base)) resize)),
                 Qtrunc (value (PyFloat.mul (PyFloat.lit (snd base)) resize))))
    /\ prepare_dimensions (1920, 1080) f0_5 None = Ok (960, 540).
Proof.
  intros video resize request base. split; [|split].
  - intros E. unfold prepare_dimensions, PyFloat.neqb. fold base.
    unfold PyFloat.eqb in E. rewrite E. reflexivity.
  - intros E Bw Bh Fw Fh.
    destruct (of_int_exact (fst base) Bw) as (Hw & _ & Vw).
    destruct (of_int_exact (snd base) Bh) as (Hh & _ & Vh).
    split; [exact Vw|]. split; [exact Vh|].
    unfold prepare_dimensions, PyFloat.neqb.
    fold base. unfold PyFloat.eqb in E. rewrite E. cbn [negb].
    unfold int_mul_float. rewrite Hw, Hh. cbn [bind].
    rewrite (trunc_value _ Fw). cbn [bind].
    rewrite (trunc_value _ Fh). reflexivity.
  - vm_compute. reflexivity.
Qed.

(** C5.  [prepare_images_expected] raises PreparationError when one of its
    three arguments is [None] and when the capture rate is 0.  Otherwise it
    is [math.ceil] of the true division of [stop_frame - start_frame] by the
    capture rate; for frame distances and rates below [2^53] in absolute
    value that is the exact ceiling of the quotient.  From frame 0 to frame
    300 it gives 300 at rate 1 and 43 at rate 7. *)
Theorem C5_images_expected :
  (forall start stop rate : option Z,
      start = None \/ stop = None \/ rate = None ->
      prepare_images_expected start stop rate = Raise PreparationError)
  /\ (forall start stop : Z,
        prepare_images_expected (Some start) (Some stop) (Some 0)
        = Raise PreparationError)
  /\ (forall start stop rate : Z,
        rate <> 0 ->
        prepare_images_expected (Some start) (Some stop) (Some rate)
        = (q <- PyFloat.int_truediv (stop - start) rate ;; PyFloat.ceil q))
  /\ (forall start stop rate : Z,
        rate <> 0 -> Z.abs (stop - start) < 2 ^ 53 -> Z.abs rate < 2 ^ 53 ->
        prepare_images_expected (Some start) (Some stop) (Some rate)
        = Ok (Qceiling (inject_Z (stop - start) / inject_Z rate)))
  /\ prepare_images_expected (Some 0) (Some 300) (Some 1) = Ok 300
  /\ prepare_images_expected (Some 0) (Some 300) (Some 7) = Ok 43.
Proof.
  assert (Hbody : forall start stop rate : Z, rate <> 0 ->
            prepare_images_expected (Some start) (Some stop) (Some rate)
            = (q <- PyFloat.int_truediv (stop - start) rate ;; PyFloat.ceil q)).
  { intros start stop rate Hr. unfold prepare_images_expected, try_except.
    assert (He : errors_in [ValueError; OverflowError]
                   (q <- PyFloat.int_truediv (stop - start) rate ;;
                    PyFloat.ceil q)).
    { apply errors_in_bind; [|intros q; apply ceil_errors].
      eapply errors_in_incl; [|apply int_truediv_errors; exact Hr].
      intros e [<-|[]]; simpl; auto. }
    destruct (q <- PyFloat.int_truediv (stop - start) rate ;; PyFloat.ceil q)
      as [n|e]; [reflexivity|].
    simpl in He. destruct He as [<-|[<-|[]]]; reflexivity. }
  split; [|split; [|split; [|split; [|split]]]].
  - intros start stop rate [-> | [-> | ->]].
    + reflexivity.
    + destruct start; reflexivity.
    + destruct start; [destruct stop|]; reflexivity.
  - intros start stop. reflexivity.
  - exact Hbody.
  - intros start stop rate Hr Ha Hb.
    rewrite (Hbody start stop rate Hr), ceil_int_truediv by assumption.
    rewrite Qceiling_div by assumption. reflexivity.
  - vm_compute. reflexivity.
  - vm_compute. reflexivity.
Qed.

(** C6.  On a file system where the video file exists, with an enumeration
    that only returns paths that do not exist, [prepare_destpath] with
    [prepared_overwrite = True] never returns the path of the video: a
    candidate equal to the video path is not returned but handed to the
    enumeration, and any other candidate is returned as it is. *)
Theorem C6_overwrite_never_returns_the_video :
  forall (fs : filesystem) (enumerate_filepath : Path -> string -> result Path),
    (forall p label q, enumerate_filepath p label = Ok q -> exists_ fs q = false) ->
    forall (video : Path) (request_filename : option string)
           (request_destdir : option Path) (prepared_suffix : option string),
      exists_ fs video = true ->
      (forall q,
          prepare_destpath enumerate_filepath video request_filename
            request_destdir prepared_suffix (Some true) = Ok q ->
          q <> video)
      /\ (forall sfx,
            prepared_suffix = Some sfx ->
            destination_candidate video request_filename request_destdir sfx
            = video ->
            prepare_destpath enumerate_filepath video request_filename
              request_destdir prepared_suffix (Some true)
            = enumerate_filepath video "_vxt"%string)
      /\ (forall sfx,
            prepared_suffix = Some sfx ->
            destination_candidate video request_filename request_destdir sfx
            <> video ->
            prepare_destpath enumerate_filepath video request_filename
              request_destdir prepared_suffix (Some true)
            = Ok (destination_candidate video request_filename
                    request_destdir sfx)).
Proof.
  intros fs enum Hfresh video fn dd sfx Hvideo. split; [|split].
  - intros q H. destruct sfx as [sfx|]; [|discriminate].
    rewrite prepare_destpath_cases in H. cbv zeta in H. simpl in H.
    destruct (Path_eqb (destination_candidate video fn dd sfx) video) eqn:E;
      simpl in H.
    + apply Hfresh in H. intros ->. congruence.
    + injection H as <-. intros E'. rewrite E', Path_eqb_refl in E.
      discriminate.
  - intros s -> E. rewrite prepare_destpath_cases. cbv zeta.
    rewrite E, Path_eqb_refl. reflexivity.
  - intros s -> E. rewrite prepare_destpath_cases. cbv zeta. simpl.
    destruct (Path_eqb (destination_candidate video fn dd s) video) eqn:E';
      [apply Path_eqb_eq in E'; contradiction|reflexivity].
Qed.

(** C7 (as stated, refuted).  An empty suffix does not make
    [prepare_destpath] raise PreparationError: with overwriting allowed the
    call returns the video's directory joined with ["clip."], whatever the
    enumeration would do. *)
Lemma C7_empty_suffix_is_accepted :
  ~ (exists enumerate_filepath,
       prepare_destpath enumerate_filepath (of_string "/v/clip.mp4") None None
         (Some ""%string) (Some true) = Raise PreparationError)
  /\ Videoxt.prepare_destpath [of_string "/v/clip.mp4"]
       (of_string "/v/clip.mp4") None None (Some ""%string) (Some true)
     = Ok (of_string "/v/clip.").
Proof.
  split; [|vm_compute; reflexivity].
  intros (enum & H). rewrite prepare_destpath_cases in H.
  vm_compute in H. discriminate.
Qed.

(** C7 (amended).  [prepare_destpath] raises PreparationError when the
    suffix is [None].  Any suffix that is given, the empty string included,
    is taken with a leading ["."], put in front unless the suffix starts
    with one already; the file name is the requested name or the stem of
    the video followed by that suffix, and the call returns the candidate of
    that name or hands it to the enumeration, so it raises nothing of its
    own.  When the candidate is returned as it is and the file name is a
    plain path component, the returned path has that file name. *)
Theorem C7_suffix_absent_or_normalized :
  forall (enumerate_filepath : Path -> string -> result Path)
         (video : Path) (request_filename : option string)
         (request_destdir : option Path) (prepared_overwrite : option bool),
    prepare_destpath enumerate_filepath video request_filename
      request_destdir None prepared_overwrite = Raise PreparationError
    /\ (forall sfx,
          startswith_dot (normalized_suffix sfx) = true
          /\ (normalized_suffix sfx = sfx
              \/ normalized_suffix sfx = ("." ++ sfx)%string)
          /\ (prepare_destpath enumerate_filepath video request_filename
                request_destdir (Some sfx) prepared_overwrite
              = Ok (destination_candidate video request_filename
                      request_destdir sfx)
              \/ prepare_destpath enumerate_filepath video request_filename
                   request_destdir (Some sfx) prepared_overwrite
                 = enumerate_filepath
                     (destination_candidate video request_filename
                        request_destdir sfx) "_vxt"%string)
          /\ (prepared_overwrite = Some true ->
              destination_candidate video request_filename request_destdir sfx
              <> video ->
              no_slash (destination_filename video request_filename sfx) = true ->
              is_component (destination_filename video request_filename sfx)
              = true ->
              exists q,
                prepare_destpath enumerate_filepath video request_filename
                  request_destdir (Some sfx) prepared_overwrite = Ok q
                /\ name q
                   = destination_filename video request_filename sfx)).
Proof.
  intros enum video fn dd ow. split; [reflexivity|].
  intros sfx. destruct (normalized_suffix_dot sfx) as [Hd Hs].
  split; [exact Hd|]. split; [exact Hs|]. split.
  - rewrite prepare_destpath_cases. cbv zeta.
    destruct (overwrite_allowed ow
              && negb (Path_eqb (destination_candidate video fn dd sfx) video));
      auto.
  - intros -> Hne Hns Hc. rewrite prepare_destpath_cases. cbv zeta. simpl.
    destruct (Path_eqb (destination_candidate video fn dd sfx) video) eqn:E;
      [apply Path_eqb_eq in E; contradiction|].
    simpl. eexists. split; [reflexivity|].
    unfold destination_candidate. apply name_joinpath; assumption.
Qed.

(** C8.  After [__post_init__], an end of the range given as a string has
    that very string as its timestamp, and an end given as a number has the
    timestamp [seconds_to_timestamp] computes from that number; the
    dictionary [prepare_extraction_range] returns carries the same
    timestamps. *)
Theorem C8_timestamps_kept_or_computed :
  forall timestamp_to_seconds seconds_to_timestamp valid_extraction_range
         (self self' : ExtractionRange),
    __post_init__ timestamp_to_seconds seconds_to_timestamp
      valid_extraction_range self = Ok self' ->
    (forall s, start_time self = Str s -> start_timestamp self' = Assigned s)
    /\ (forall s, stop_time self = Str s -> stop_timestamp self' = Assigned s)
    /\ (forall n, start_time self = Num n ->
          exists t, seconds_to_timestamp n = Ok t
                    /\ start_timestamp self' = Assigned t)
    /\ (forall n, stop_time self = Num n ->
          exists t, seconds_to_timestamp n = Ok t
                    /\ stop_timestamp self' = Assigned t)
    /\ (forall d, to_dict self' = Ok d ->
          start_timestamp self' = Assigned (d_start_timestamp d)
          /\ stop_timestamp self' = Assigned (d_stop_timestamp d)).
Proof.
  intros tts stt v self self' H.
  rewrite post_init_chain in H.
  bind_ok H s Hs.
  bind_ok H e He.
  bind_ok H r Hr.
  bind_ok H ts Hts.
  bind_ok H te Hte.
  bind_ok H fs Hfs.
  bind_ok H fe Hfe.
  injection H as <-. simpl.
  repeat split.
  - intros s0 E. rewrite E in Hts. simpl in Hts. congruence.
  - intros s0 E. rewrite E in Hte. simpl in Hte. congruence.
  - intros n E. rewrite E in Hts. simpl in Hts. eauto.
  - intros n E. rewrite E in Hte. simpl in Hte. eauto.
  - unfold to_dict in H. simpl in H. injection H as <-. reflexivity.
  - unfold to_dict in H. simpl in H. injection H as <-. reflexivity.
Qed.

(** C9 (as stated, refuted).  With an explicit destination directory that
    exists and overwriting disallowed, [prepare_destpath_frames] returns
    that very directory: whatever the enumeration is, no other path comes
    back. *)
Lemma C9_explicit_directory_is_not_enumerated :
  exists_ [of_string "/v/clip.mp4"; of_string "/out"] (of_string "/out") = true
  /\ ~ (exists enumerate_dir q,
          prepare_destpath_frames enumerate_dir (of_string "/v/clip.mp4")
            (Some (of_string "/out")) (Some false) = Ok q
          /\ q <> of_string "/out")
  /\ Videoxt.prepare_destpath_frames
       [of_string "/v/clip.mp4"; of_string "/out"] (of_string "/v/clip.mp4")
       (Some (of_string "/out")) (Some false)
     = Ok (of_string "/out").
Proof.
  split; [reflexivity|]. split; [|reflexivity].
  intros (enum & q & H & Hne). unfold prepare_destpath_frames in H.
  injection H as <-. apply Hne. reflexivity.
Qed.

(** C9 (amended).  [prepare_destpath_frames] applies the enumeration only
    when no destination directory is requested: then, with overwriting
    disallowed, it returns the enumeration of the default directory with the
    label ["_frames"], which on the modelled file system is a path that does
    not exist.  A requested directory is returned as it is, whether it
    exists or not and whatever the overwrite flag. *)
Theorem C9_frames_directory_policy :
  forall (enumerate_dir : Path -> string -> result Path) (video : Path)
         (request_destdir : option Path) (prepared_overwrite : option bool),
    (forall d, request_destdir = Some d ->
       prepare_destpath_frames enumerate_dir video request_destdir
         prepared_overwrite = Ok d)
    /\ (request_destdir = None -> prepared_overwrite <> Some true ->
        prepare_destpath_frames enumerate_dir video request_destdir
          prepared_overwrite
        = enumerate_dir (default_destdir video) "_frames"%string)
    /\ (forall fs,
          request_destdir = None -> prepared_overwrite <> Some true ->
          exists q,
            Videoxt.prepare_destpath_frames fs video request_destdir
              prepared_overwrite = Ok q
            /\ exists_ fs q = false).
Proof.
  intros enum video dd ow. repeat split.
  - intros d ->. reflexivity.
  - intros -> How. unfold prepare_destpath_frames, default_destdir.
    destruct ow as [[|]|]; [contradiction How| |]; reflexivity.
  - intros fs -> How. unfold Videoxt.prepare_destpath_frames,
      prepare_destpath_frames.
    destruct ow as [[|]|]; [contradiction How; reflexivity| |];
      apply enumerate_dir_total.
Qed.

(** C10.  Every successful call has [stop_frame = floor(stop_second * fps)],
    the floor of the value of the binary64 product.
    The branch of [_prepare_stop_frame] that returns [frame_count] is never
    taken: [__post_init__] is the six earlier steps followed by
    [_prepare_stop_frame], and whenever the six steps succeed, from any
    object, [stop_second] holds a float; a [None] stop time does not reach
    the class, it is answered with PreparationError. *)
Theorem C10_stop_frame_is_floor :
  forall timestamp_to_seconds seconds_to_timestamp valid_extraction_range
         (duration : float) (frames : Z) (start stop : option time_t)
         (rate : option float),
    (forall d,
        prepare_extraction_range timestamp_to_seconds seconds_to_timestamp
          valid_extraction_range duration frames start stop rate = Ok d ->
        exists s r, rate = Some r /\ d_stop_second d = Some s
                    /\ PyFloat.floor (PyFloat.mul s r) = Ok (d_stop_frame d)
                    /\ d_stop_frame d = Qfloor (value (PyFloat.mul s r)))
    /\ (forall self,
          __post_init__ timestamp_to_seconds seconds_to_timestamp
            valid_extraction_range self
          = (self' <- before_stop_frame timestamp_to_seconds
                        seconds_to_timestamp valid_extraction_range self ;;
             exec _prepare_stop_frame self'))
    /\ (forall self self',
          before_stop_frame timestamp_to_seconds seconds_to_timestamp
            valid_extraction_range self = Ok self' ->
          exists s, stop_second self' = Assigned (Some s))
    /\ prepare_extraction_range timestamp_to_seconds seconds_to_timestamp
         valid_extraction_range duration frames start None rate
       = Raise PreparationError.
Proof.
  intros tts stt v duration frames start stop rate.
  split; [|split; [|split]].
  - intros d H.
    destruct start as [st|]; [|discriminate].
    destruct stop as [sp|]; [|discriminate].
    destruct rate as [r|]; [|discriminate].
    rewrite prepare_chain in H.
    bind_ok H s Hs.
    bind_ok H e He.
    bind_ok H x Hx.
    bind_ok H ts Hts.
    bind_ok H te Hte.
    bind_ok H fs Hfs.
    bind_ok H fe Hfe.
    injection H as <-. simpl. exists e, r.
    repeat split; auto. apply floor_Ok_value. exact Hfe.
  - intros self. unfold __post_init__, before_stop_frame.
    repeat match goal with
           | |- bind ?r _ = bind (bind ?r _) _ => destruct r; simpl; auto
           end.
  - intros self self' H. unfold before_stop_frame in H.
    bind_ok H s1 H1.
    bind_ok H s2 H2.
    bind_ok H s3 H3.
    bind_ok H s4 H4.
    bind_ok H s5 H5.
    unfold exec, _prepare_stop_second in H2.
    apply bind_Ok in H2. destruct H2 as ((x & s2') & H2 & E2).
    bind_ok H2 e He.
    injection H2 as <- <-. injection E2 as <-.
    unfold exec, _validate_range in H3.
    apply bind_Ok in H3. destruct H3 as ((y & s3') & H3 & E3).
    bind_ok H3 a Ha.
    bind_ok H3 b Hb.
    destruct b as [b|]; [|discriminate].
    bind_ok H3 c Hc.
    injection H3 as <- <-. injection E3 as <-.
    unfold exec, _prepare_start_timestamp in H4.
    apply bind_Ok in H4. destruct H4 as ((z & s4') & H4 & E4).
    bind_ok H4 t Ht.
    injection H4 as <- <-. injection E4 as <-.
    unfold exec, _prepare_stop_timestamp in H5.
    apply bind_Ok in H5. destruct H5 as ((z' & s5') & H5 & E5).
    bind_ok H5 t' Ht'.
    injection H5 as <- <-. injection E5 as <-.
    unfold exec, _prepare_start_frame in H.
    apply bind_Ok in H. destruct H as ((w & s6') & H & E6).
    bind_ok H a' Ha'.
    bind_ok H n Hn.
    injection H as <- <-. injection E6 as <-.
    simpl. exists e. reflexivity.
  - destruct start; reflexivity.
Qed.

(** ** The claims at concrete inputs *)

(** The modelled enumeration only returns paths that do not exist. *)
Lemma enumerate_filepath_fresh (fs : filesystem) (p : Path) (label : string)
    (q : Path) :
  Utils.enumerate_filepath fs p label = Ok q -> exists_ fs q = false.
Proof.
  intros H. destruct (enumerate_filepath_total fs p label) as (q' & Hq & Hf).
  congruence.
Qed.

(** C2 on the video of 20 seconds: the range from 15 to 10 is refused, the
    range from 5 to 10 is resolved. *)
Lemma C2_witness :
  Videoxt.prepare_extraction_range f20 600 (Some (Num (Int 15)))
    (Some (Num (Int 10))) (Some f30) = Raise RangeError
  /\ exists d,
       Videoxt.prepare_extraction_range f20 600 (Some (Num (Int 5)))
         (Some (Num (Int 10))) (Some f30) = Ok d
       /\ d_start_second d = PyFloat.lit 5 /\ d_stop_second d = Some f10.
Proof.
  split.
  - refine (proj1 (C2_range_error_cases f20 600 (Num (Int 15)) (Num (Int 10))
                     f30 (PyFloat.lit 15) f10 _ _) _).
    + vm_compute. reflexivity.
    + vm_compute. reflexivity.
    + right. right. vm_compute. reflexivity.
  - refine (proj2 (proj2 (C2_range_error_cases f20 600 (Num (Int 5))
                            (Num (Int 10)) f30 (PyFloat.lit 5) f10 _ _) _) _ _).
    + vm_compute. reflexivity.
    + vm_compute. reflexivity.
    + repeat split; vm_compute; reflexivity.
    + vm_compute. reflexivity.
    + vm_compute. reflexivity.
Defined.

(** C3 with the start time missing. *)
Lemma C3_witness :
  Videoxt.prepare_extraction_range f20 600 None (Some (Num (Int 10)))
    (Some f30) = Raise PreparationError.
Proof.
  apply (proj2 (proj1 (proj2 (C3_preparation_error_iff_absent f20 600 None
                                (Some (Num (Int 10))) (Some f30))))).
  left. reflexivity.
Defined.

(** C4 on 1920 by 1080 and the factor 0.5. *)
Lemma C4_witness :
  prepare_dimensions (1920, 1080) f0_5 None
  = Ok (Qtrunc (value (PyFloat.mul (PyFloat.lit 1920) f0_5)),
        Qtrunc (value (PyFloat.mul (PyFloat.lit 1080) f0_5))).
Proof.
  refine (proj2 (proj2 (proj1 (proj2
            (C4_prepare_dimensions (1920, 1080) f0_5 None)) _ _ _ _ _)));
    vm_compute; reflexivity.
Defined.

(** C5 from frame 0 to frame 300 at rate 7. *)
Lemma C5_witness :
  prepare_images_expected (Some 0) (Some 300) (Some 7)
  = Ok (Qceiling (inject_Z (300 - 0) / inject_Z 7)).
Proof.
  refine (proj1 (proj2 (proj2 (proj2 C5_images_expected))) 0 300 7 _ _ _).
  - discriminate.
  - vm_compute. reflexivity.
  - vm_compute. reflexivity.
Defined.

(** C6 where the candidate is the video itself: the first variant comes
    back. *)
Lemma C6_witness :
  exists_ [of_string "/v/clip.mp4"] (of_string "/v/clip.mp4") = true
  /\ Videoxt.prepare_destpath [of_string "/v/clip.mp4"]
       (of_string "/v/clip.mp4") None None (Some "mp4"%string) (Some true)
     = Ok (of_string "/v/clip_vxt1.mp4")
  /\ of_string "/v/clip_vxt1.mp4" <> of_string "/v/clip.mp4".
Proof.
  split; [reflexivity|]. split; [vm_compute; reflexivity|].
  refine (proj1 (C6_overwrite_never_returns_the_video
                   [of_string "/v/clip.mp4"]
                   (Utils.enumerate_filepath [of_string "/v/clip.mp4"])
                   (enumerate_filepath_fresh [of_string "/v/clip.mp4"])
                   (of_string "/v/clip.mp4") None None (Some "mp4"%string) _)
            (of_string "/v/clip_vxt1.mp4") _).
  - reflexivity.
  - vm_compute. reflexivity.
Defined.

(** C7 with the suffix ["mp3"]. *)
Lemma C7_witness :
  exists q,
    Videoxt.prepare_destpath [of_string "/v/clip.mp4"]
      (of_string "/v/clip.mp4") None None (Some "mp3"%string) (Some true)
    = Ok q
    /\ name q = "clip.mp3"%string.
Proof.
  refine (proj2 (proj2 (proj2 (proj2 (C7_suffix_absent_or_normalized
            (Utils.enumerate_filepath [of_string "/v/clip.mp4"])
            (of_string "/v/clip.mp4") None None (Some true)) "mp3"%string)))
            _ _ _ _).
  - reflexivity.
  - vm_compute. discriminate.
  - reflexivity.
  - reflexivity.
Defined.

(** C8 with a timestamp for the start and a number for the stop. *)
Lemma C8_witness :
  exists self',
    __post_init__ Utils.timestamp_to_seconds Utils.seconds_to_timestamp
      Validators.valid_extraction_range
      (new_ExtractionRange f20 600 (Str "00:00:05") (Num (Int 10)) f30)
    = Ok self'
    /\ start_timestamp self' = Assigned "00:00:05"%string
    /\ exists t, Utils.seconds_to_timestamp (Int 10) = Ok t
                 /\ stop_timestamp self' = Assigned t.
Proof.
  eexists. split; [vm_compute; reflexivity|].
  split.
  - refine (proj1 (C8_timestamps_kept_or_computed Utils.timestamp_to_seconds
                     Utils.seconds_to_timestamp
                     Validators.valid_extraction_range
                     (new_ExtractionRange f20 600 (Str "00:00:05")
                        (Num (Int 10)) f30) _ _) "00:00:05"%string _).
    + vm_compute. reflexivity.
    + reflexivity.
  - refine (proj1 (proj2 (proj2 (proj2
              (C8_timestamps_kept_or_computed Utils.timestamp_to_seconds
                 Utils.seconds_to_timestamp Validators.valid_extraction_range
                 (new_ExtractionRange f20 600 (Str "00:00:05") (Num (Int 10))
                    f30) _ _)))) (Int 10) _).
    + vm_compute. reflexivity.
    + reflexivity.
Defined.

(** C9 without a requested directory and without overwriting. *)
Lemma C9_witness :
  exists q,
    Videoxt.prepare_destpath_frames [of_string "/v/clip.mp4"]
      (of_string "/v/clip.mp4") None (Some false) = Ok q
    /\ exists_ [of_string "/v/clip.mp4"] q = false.
Proof.
  refine (proj2 (proj2 (C9_frames_directory_policy
            (Utils.enumerate_dir [of_string "/v/clip.mp4"])
            (of_string "/v/clip.mp4") None (Some false)))
            [of_string "/v/clip.mp4"] _ _).
  - reflexivity.
  - discriminate.
Defined.

(** C10 on the range from 10 to 20 at 30 frames per second. *)
Lemma C10_witness :
  exists s r,
    Some f30 = Some r
    /\ d_stop_second (mkRangeDict f10 (Some f20) "0:00:10" "0:00:20" 300 600)
       = Some s
    /\ PyFloat.floor (PyFloat.mul s r) = Ok 600
    /\ 600 = Qfloor (value (PyFloat.mul s r)).
Proof.
  refine (proj1 (C10_stop_frame_is_floor Utils.timestamp_to_seconds
                   Utils.seconds_to_timestamp Validators.valid_extraction_range
                   f20 600 (Some (Num (Int 10))) (Some (Num (Int 20)))
                   (Some f30))
            (mkRangeDict f10 (Some f20) "0:00:10" "0:00:20" 300 600) _).
  vm_compute. reflexivity.
Defined.

(** ** Results: products that are whole numbers

    When the real product of an integer below [2^53] and a positive normal
    float is a whole number below [2^53], the binary64 product is that
    number: nothing is rounded away. *)

Lemma shr_1_double (m : Z) :
  0 <= m ->
  shr_1 (Build_shr_record (2 * m) false false) = Build_shr_record m false false.
Proof.
  intros Hm. destruct m as [|p|p]; try lia; reflexivity.
Qed.

Lemma iter_shr_1_exact (p : positive) :
  forall m, 0 <= m ->
    iter_pos shr_1 p (Build_shr_record (m * 2 ^ Zpos p) false false)
    = Build_shr_record m false false.
Proof.
  induction p as [p IH|p IH|]; intros m Hm.
  - replace (m * 2 ^ Zpos p~1) with (2 * ((m * 2 ^ Zpos p) * 2 ^ Zpos p)).
    + cbn [iter_pos]. rewrite shr_1_double.
      * rewrite IH; [apply IH; exact Hm|].
        apply Z.mul_nonneg_nonneg; [exact Hm|apply Z.pow_nonneg; lia].
      * apply Z.mul_nonneg_nonneg; [|apply Z.pow_nonneg; lia].
        apply Z.mul_nonneg_nonneg; [exact Hm|apply Z.pow_nonneg; lia].
    + replace (Zpos p~1) with (1 + Zpos p + Zpos p) by lia.
      rewrite !Z.pow_add_r by lia. ring.
  - replace (m * 2 ^ Zpos p~0) with ((m * 2 ^ Zpos p) * 2 ^ Zpos p).
    + cbn [iter_pos]. rewrite IH; [apply IH; exact Hm|].
      apply Z.mul_nonneg_nonneg; [exact Hm|apply Z.pow_nonneg; lia].
    + replace (Zpos p~0) with (Zpos p + Zpos p) by lia.
      rewrite !Z.pow_add_r by lia. ring.
  - replace (m * 2 ^ 1) with (2 * m) by lia. apply shr_1_double. exact Hm.
Qed.

(** Rounding a significand that is a 53-digit one followed by [n] zero bits
    loses nothing. *)
Lemma binary_round_aux_exact (s : bool) (M : positive) (n E : Z) :
  2 ^ 52 <= Zpos M < 2 ^ 53 -> 0 <= n -> -1074 <= E + n <= 900 ->
  binary_round_aux PyFloat.prec PyFloat.emax s (Zpos M * 2 ^ n) E loc_Exact
  = S754_finite s M (E + n).
Proof.
  intros HM Hn HE.
  assert (Hfin : forall mrs,
    mrs = Build_shr_record (Zpos M) false false ->
    (let '(mrs'', e'') :=
       shr_fexp PyFloat.prec PyFloat.emax
         (round_nearest_even (shr_m mrs) (loc_of_shr_record mrs)) (E + n)
         loc_Exact in
     match shr_m mrs'' with
     | Z0 => S754_zero s
     | Zpos m => if e'' <=? PyFloat.emax - PyFloat.prec
                 then S754_finite s m e'' else S754_infinity s
     | Zneg _ => S754_nan
     end) = S754_finite s M (E + n)).
  { intros mrs ->. cbn [shr_m loc_of_shr_record round_nearest_even].
    rewrite (round_aux_finish s (Zpos M) (E + n)) by lia.
    unfold pack. destruct (Z.ltb_spec (Zpos M) (2 ^ 53)); [reflexivity|lia]. }
  unfold binary_round_aux.
  destruct n as [|n|n]; try lia.
  - replace (Zpos M * 2 ^ 0) with (Zpos M) by lia.
    rewrite shr_fexp_shift0; [|apply digits_of_bounds; lia|lia].
    replace E with (E + 0) at 1 by lia. apply Hfin. reflexivity.
  - assert (HP : exists P, Zpos P = Zpos M * 2 ^ Zpos n).
    { assert (0 < Zpos M * 2 ^ Zpos n)
        by (apply Z.mul_pos_pos; [lia|apply Z.pow_pos_nonneg; lia]).
      destruct (Zpos M * 2 ^ Zpos n) as [|P|P]; try lia. eauto. }
    destruct HP as (P & HP). rewrite <- HP.
    assert (HdP : Zpos (digits2_pos P) = 53 + Zpos n).
    { apply digits_of_bounds; [|lia]. rewrite HP.
      replace (53 + Zpos n - 1) with (52 + Zpos n) by lia.
      rewrite !Z.pow_add_r by lia.
      assert (0 < 2 ^ Zpos n) by (apply Z.pow_pos_nonneg; lia).
      split; [apply Z.mul_le_mono_nonneg_r; lia|apply Z.mul_lt_mono_pos_r; lia]. }
    unfold shr_fexp. cbn [Zdigits2]. rewrite HdP.
    rewrite fexp_normal by lia.
    replace (53 + Zpos n + E - 53 - E) with (Zpos n) by lia.
    cbn [shr shr_record_of_loc]. rewrite HP.
    rewrite iter_shr_1_exact by lia.
    apply Hfin. reflexivity.
Qed.

(** The product of two normal floats whose exact value is an integer [N]
    below [2^53] is [N], held exactly. *)
Lemma SFmul_exact (sx sy : bool) (mx my : positive) (ex ey N : Z) :
  2 ^ 52 <= Zpos mx < 2 ^ 53 -> 2 ^ 52 <= Zpos my < 2 ^ 53 ->
  0 < N < 2 ^ 53 -> ex + ey <= 0 ->
  Zpos mx * Zpos my = N * 2 ^ (- (ex + ey)) ->
  exists M d,
    0 <= d /\ Zpos M = N * 2 ^ d
    /\ SFmul PyFloat.prec PyFloat.emax (S754_finite sx mx ex)
         (S754_finite sy my ey)
       = S754_finite (xorb sx sy) M (- d).
Proof.
  intros Hx Hy HN HE HP.
  destruct N as [|n|n]; try lia.
  pose proof (digits2_pos_bounds n) as [Hlo Hhi].
  set (dN := Zpos (digits2_pos n)) in *.
  assert (HdN : 0 < dN <= 53).
  { split; [unfold dN; lia|]. destruct (Z_le_gt_dec dN 53); auto.
    assert (2 ^ 53 <= 2 ^ (dN - 1)) by (apply Z.pow_le_mono_r; lia). lia. }
  set (E := ex + ey) in *.
  assert (HPlo : 2 ^ 104 <= Zpos mx * Zpos my).
  { change (2 ^ 104) with (2 ^ 52 * 2 ^ 52). apply Z.mul_le_mono_nonneg; lia. }
  assert (HpE : 0 < 2 ^ (- E)) by (apply Z.pow_pos_nonneg; lia).
  assert (HdE : 104 < dN - E).
  { apply (Z.pow_lt_mono_r_iff 2); [lia|lia|].
    apply Z.le_lt_trans with (Zpos mx * Zpos my); [exact HPlo|].
    rewrite HP. replace (dN - E) with (dN + - E) by lia.
    rewrite Z.pow_add_r by lia. apply Z.mul_lt_mono_pos_r; lia. }
  set (d := 53 - dN).
  assert (HM : exists M, Zpos M = Zpos n * 2 ^ d).
  { assert (0 < Zpos n * 2 ^ d)
      by (apply Z.mul_pos_pos; [lia|apply Z.pow_pos_nonneg; unfold d; lia]).
    destruct (Zpos n * 2 ^ d) as [|M|M]; try lia. eauto. }
  destruct HM as (M & HM).
  exists M, d. split; [unfold d; lia|]. split; [exact HM|].
  assert (HMb : 2 ^ 52 <= Zpos M < 2 ^ 53).
  { rewrite HM. assert (0 < 2 ^ d) by (apply Z.pow_pos_nonneg; unfold d; lia).
    split.
    - apply Z.le_trans with (2 ^ (dN - 1) * 2 ^ d).
      + rewrite <- Z.pow_add_r by (unfold d; lia).
        apply Z.pow_le_mono_r; unfold d; lia.
      + apply Z.mul_le_mono_nonneg_r; lia.
    - apply Z.lt_le_trans with (2 ^ dN * 2 ^ d).
      + apply Z.mul_lt_mono_pos_r; lia.
      + rewrite <- Z.pow_add_r by (unfold d; lia).
        apply Z.pow_le_mono_r; unfold d; lia. }
  cbn [SFmul]. rewrite Pos2Z.inj_mul, HP. fold E.
  replace (Zpos n * 2 ^ (- E)) with (Zpos M * 2 ^ (- E - d)).
  - replace (- d) with (E + (- E - d)) by lia.
    apply binary_round_aux_exact; [exact HMb|unfold d; lia|unfold d; lia].
  - rewrite HM. rewrite <- Z.mul_assoc, <- Z.pow_add_r by (unfold d; lia).
    f_equal. f_equal. lia.
Qed.

(** The integer parts of a float that holds an integer. *)
Lemma integer_parts (s : bool) (M : positive) (d N : Z) :
  0 <= d -> Zpos M = N * 2 ^ d ->
  PyFloat.floor (S754_finite s M (- d)) = Ok (cond_Zopp s N)
  /\ PyFloat.trunc (S754_finite s M (- d)) = Ok (cond_Zopp s N)
  /\ PyFloat.ceil (S754_finite s M (- d)) = Ok (cond_Zopp s N).
Proof.
  intros Hd HM. cbn [PyFloat.floor PyFloat.trunc PyFloat.ceil].
  assert (Hp : 0 < 2 ^ d) by (apply Z.pow_pos_nonneg; lia).
  assert (Hsh : forall x, Z.shiftl (x * 2 ^ d) (- d) = x).
  { intros x. rewrite Z.shiftl_div_pow2 by lia.
    replace (- - d) with d by lia. apply Z.div_mul. lia. }
  rewrite HM. repeat split; f_equal.
  - replace (cond_Zopp s (N * 2 ^ d)) with (cond_Zopp s N * 2 ^ d)
      by (destruct s; cbn [cond_Zopp]; ring).
    apply Hsh.
  - rewrite Hsh. reflexivity.
  - replace (cond_Zopp (negb s) (N * 2 ^ d)) with (- cond_Zopp s N * 2 ^ d)
      by (destruct s; cbn [cond_Zopp negb]; ring).
    rewrite Hsh. lia.
Qed.

(** The float of a positive integer below [2^53]: a 53-digit significand
    that is the integer followed by zero bits. *)
Lemma lit_normal (p : positive) :
  Zpos p < 2 ^ 53 ->
  exists mz k,
    0 <= k <= 52 /\ Zpos mz = Zpos p * 2 ^ k
    /\ 2 ^ 52 <= Zpos mz < 2 ^ 53
    /\ PyFloat.lit (Zpos p) = S754_finite false mz (- k).
Proof.
  intros Hp.
  pose proof (digits2_pos_bounds p) as [Hlo Hhi].
  set (d := Zpos (digits2_pos p)) in *.
  assert (Hd : 0 < d <= 53).
  { split; [unfold d; lia|]. destruct (Z_le_gt_dec d 53); auto.
    assert (2 ^ 53 <= 2 ^ (d - 1)) by (apply Z.pow_le_mono_r; lia). lia. }
  assert (Hb : forall mz k, k = 53 - d -> Zpos mz = Zpos p * 2 ^ k ->
            2 ^ 52 <= Zpos mz < 2 ^ 53).
  { intros mz k Ek Hmz. rewrite Hmz.
    assert (0 < 2 ^ k) by (apply Z.pow_pos_nonneg; lia). split.
    - apply Z.le_trans with (2 ^ (d - 1) * 2 ^ k).
      + rewrite <- Z.pow_add_r by lia. apply Z.pow_le_mono_r; lia.
      + apply Z.mul_le_mono_nonneg_r; lia.
    - apply Z.lt_le_trans with (2 ^ d * 2 ^ k).
      + apply Z.mul_lt_mono_pos_r; lia.
      + rewrite <- Z.pow_add_r by lia. apply Z.pow_le_mono_r; lia. }
  unfold PyFloat.lit, binary_normalize, binary_round, shl_align. fold d.
  rewrite fexp_normal by lia.
  replace (d + 0 - 53 - 0) with (d - 53) by lia.
  destruct (d - 53) as [|q|q] eqn:E; try lia.
  - exists p, 0. pose proof (Hb p 0 ltac:(lia) ltac:(lia)) as B.
    split; [lia|]. split; [lia|]. split; [exact B|].
    replace (Zpos p) with (Zpos p * 2 ^ 0) at 1 by lia.
    replace (d + 0 - 53) with (- 0 + 0) by lia.
    rewrite binary_round_aux_exact by lia.
    all: try reflexivity.
  - exists (Pos.iter xO p q), (Zpos q).
    pose proof (Hb (Pos.iter xO p q) (Zpos q) ltac:(lia) (iter_xO_spec p q)) as B.
    split; [lia|]. split; [apply iter_xO_spec|]. split; [exact B|].
    replace (Zpos (Pos.iter xO p q)) with (Zpos (Pos.iter xO p q) * 2 ^ 0) by lia.
    replace (d + 0 - 53) with (- Zpos q + 0) by lia.
    rewrite binary_round_aux_exact by lia.
    all: try (f_equal; lia).
Qed.

(** A positive integer below [2^53] times a positive normal float, when the
    exact product is an integer [N] below [2^53]: the float product holds
    [N], and its integer parts are [N]. *)
Lemma mul_lit_exact (w N : Z) (y : float) :
  0 < w < 2 ^ 53 -> PyFloat.ltb PyFloat.zero y = true ->
  is_normal y = true -> N < 2 ^ 53 ->
  (inject_Z w * value y == inject_Z N)%Q ->
  PyFloat.floor (PyFloat.mul (PyFloat.lit w) y) = Ok N
  /\ PyFloat.trunc (PyFloat.mul (PyFloat.lit w) y) = Ok N.
Proof.
  intros Hw Hpos Hnorm HN HQ.
  destruct w as [|p|p]; try lia.
  destruct (lit_normal p ltac:(lia)) as (mz & k & Hk & Hmz & Bmz & ->).
  destruct y as [sy|sy| |sy my ey]; try discriminate.
  destruct sy; [discriminate|].
  cbn [is_normal] in Hnorm. apply Z.eqb_eq in Hnorm.
  pose proof (digits2_pos_bounds my) as Bmy. rewrite Hnorm in Bmy.
  change (2 ^ (53 - 1)) with (2 ^ 52) in Bmy.
  assert (Hk2 : 0 < 2 ^ k) by (apply Z.pow_pos_nonneg; lia).
  assert (Hlo : 2 ^ 104 <= Zpos mz * Zpos my).
  { change (2 ^ 104) with (2 ^ 52 * 2 ^ 52). apply Z.mul_le_mono_nonneg; lia. }
  assert (Hcore : 0 < N /\ - k + ey <= 0
                  /\ Zpos mz * Zpos my = N * 2 ^ (- (- k + ey))).
  { unfold value, Qeq in HQ. cbn [cond_Zopp] in HQ.
    destruct ey as [|e|e]; cbn [inject_Z Qmult Qnum Qden] in HQ.
    - assert (HN' : Zpos p * Zpos my = N) by lia.
      split; [lia|]. split; [lia|].
      replace (- (- k + 0)) with k by lia. rewrite Hmz, <- HN'. ring.
    - exfalso.
      assert (HN' : Zpos p * (Zpos my * 2 ^ Zpos e) = N) by lia.
      assert (0 < 2 ^ Zpos e) by (apply Z.pow_pos_nonneg; lia).
      assert (2 ^ 52 * 2 <= Zpos my * 2 ^ Zpos e).
      { apply Z.mul_le_mono_nonneg; try lia.
        change 2 with (2 ^ 1) at 1. apply Z.pow_le_mono_r; lia. }
      assert (1 * (2 ^ 52 * 2) <= Zpos p * (Zpos my * 2 ^ Zpos e))
        by (apply Z.mul_le_mono_nonneg; lia).
      change (2 ^ 53) with (2 ^ 52 * 2) in HN. lia.
    - rewrite Pos2Z.inj_mul, Pos2Z.inj_pow in HQ.
      assert (HN' : Zpos p * Zpos my = N * 2 ^ Zpos e) by lia.
      assert (0 < 2 ^ Zpos e) by (apply Z.pow_pos_nonneg; lia).
      split; [nia|]. split; [lia|].
      replace (- (- k + Zneg e)) with (Zpos e + k) by lia.
      rewrite Z.pow_add_r by lia. rewrite Hmz.
      replace (Zpos p * 2 ^ k * Zpos my) with (Zpos p * Zpos my * 2 ^ k) by ring.
      rewrite HN'. ring. }
  destruct Hcore as (HN0 & HE & HP).
  destruct (SFmul_exact false false mz my (- k) ey N Bmz Bmy ltac:(lia) HE HP)
    as (M & d & Hd & HM & Hmul).
  unfold PyFloat.mul. rewrite Hmul. cbn [xorb].
  destruct (integer_parts false M d N Hd HM) as (Hf & Ht & _).
  cbn [cond_Zopp] in Hf, Ht. split; assumption.
Qed.
(** The same when the integer may be zero. *)
Lemma mul_int_exact (w N : Z) (y : float) :
  0 <= w < 2 ^ 53 -> PyFloat.ltb PyFloat.zero y = true ->
  is_normal y = true -> N < 2 ^ 53 ->
  (inject_Z w * value y == inject_Z N)%Q ->
  PyFloat.floor (PyFloat.mul (PyFloat.lit w) y) = Ok N
  /\ PyFloat.trunc (PyFloat.mul (PyFloat.lit w) y) = Ok N.
Proof.
  intros Hw Hpos Hnorm HN HQ.
  destruct (Z.eq_dec w 0) as [->|Hw0]; [|apply mul_lit_exact; auto; lia].
  assert (N = 0).
  { unfold Qeq in HQ. cbn [inject_Z Qmult Qnum Qden] in HQ. lia. }
  subst N. destruct y as [s|s| |s m e]; try discriminate.
  split; reflexivity.
Qed.

(** A positive normal float equal to [1.0] is [1.0]. *)
Lemma eqb_one (y : float) :
  PyFloat.eqb y (PyFloat.lit 1) = true -> PyFloat.ltb PyFloat.zero y = true ->
  (value y == 1)%Q.
Proof.
  unfold PyFloat.eqb, SFeqb. change (PyFloat.lit 1)
    with (S754_finite false 4503599627370496 (-52)).
  intros H1 H2.
  destruct y as [s|s| |s m e]; try destruct s; try discriminate.
  cbn [SFcompare] in H1.
  destruct (Z.compare_spec e (-52)) as [E|E|E]; try discriminate.
  rewrite compare_cont_Eq in H1.
  destruct (Pos.compare_spec m 4503599627370496) as [E'|E'|E'];
    try discriminate.
  subst e m. reflexivity.
Qed.
(** ** Results: names, stems and suffixes *)

Lemma substring_all (s : string) : substring 0 (String.length s) s = s.
Proof. induction s; simpl; congruence. Qed.

Lemma substring_split (s : string) (i : nat) :
  (i <= String.length s)%nat ->
  (substring 0 i s ++ substring i (String.length s - i) s)%string = s.
Proof.
  revert i. induction s as [|c s IH]; intros [|i] Hi; simpl in *;
    try reflexivity; try lia.
  - f_equal. apply substring_all.
  - f_equal. apply IH. lia.
Qed.

Lemma rfind_dot_bound (s : string) (i : nat) :
  rfind_dot s = Some i -> (i < String.length s)%nat.
Proof.
  revert i. induction s as [|c s IH]; intros i; simpl; [discriminate|].
  destruct (rfind_dot s) as [j|].
  - intros H. injection H as <-. specialize (IH j eq_refl). lia.
  - destruct (Ascii.eqb c dot); [|discriminate].
    intros H. injection H as <-. lia.
Qed.

Lemma rfind_dot_None (s : string) :
  rfind_dot s = None -> startswith_dot s = false.
Proof.
  destruct s as [|c s]; simpl; [reflexivity|].
  destruct (rfind_dot s); [discriminate|].
  destruct (Ascii.eqb c dot); [discriminate|reflexivity].
Qed.

(** From the last dot on, a name is a dot followed by text that does not
    start with a dot. *)
Lemma rfind_dot_suffix (s : string) (i : nat) :
  rfind_dot s = Some i ->
  exists t, substring i (String.length s - i) s = String dot t
            /\ startswith_dot t = false.
Proof.
  revert i. induction s as [|c s IH]; intros i; simpl rfind_dot;
    [discriminate|].
  destruct (rfind_dot s) as [j|] eqn:E.
  - intros H. injection H as <-. destruct (IH j eq_refl) as (t & Ht & Hd).
    exists t. split; [|exact Hd]. simpl. exact Ht.
  - destruct (Ascii.eqb_spec c dot) as [->|]; [|discriminate].
    intros H. injection H as <-. exists s. split.
    + simpl. f_equal. apply substring_all.
    + apply rfind_dot_None. exact E.
Qed.

(** [stem + suffix] is the name. *)
Lemma stem_suffix (n : string) : (name_stem n ++ name_suffix n)%string = n.
Proof.
  unfold name_stem, name_suffix, suffix_index.
  destruct (rfind_dot n) as [i|] eqn:E.
  - destruct (Nat.ltb 0 i && Nat.ltb i (String.length n - 1))%bool.
    + apply substring_split. apply rfind_dot_bound in E. lia.
    + clear E. induction n; simpl; congruence.
  - clear E. induction n; simpl; congruence.
Qed.

(** A suffix is empty or a dot followed by text without a leading dot. *)
Lemma suffix_shape (n : string) :
  name_suffix n = ""%string
  \/ exists t, name_suffix n = String dot t /\ startswith_dot t = false.
Proof.
  unfold name_suffix, suffix_index.
  destruct (rfind_dot n) as [i|] eqn:E; [|left; reflexivity].
  destruct (Nat.ltb 0 i && Nat.ltb i (String.length n - 1))%bool;
    [|left; reflexivity].
  right. apply rfind_dot_suffix. exact E.
Qed.

Lemma plain_name_spec (n : string) :
  plain_name n = true -> no_slash n = true /\ is_component n = true.
Proof. unfold plain_name. apply andb_true_iff. Qed.

(** The parts of a path that ends in a plain file name. *)
Lemma path_parts (dir : Path) (n : string) :
  plain_name n = true ->
  name (dir ++ [n]) = n /\ parent (dir ++ [n]) = dir
  /\ joinpath dir n = dir ++ [n].
Proof.
  intros Hn. destruct (plain_name_spec n Hn) as [Hns Hc].
  assert (Hj : joinpath dir n = dir ++ [n]).
  { unfold joinpath.
    assert (Habs : is_absolute n = false).
    { destruct n as [|a n]; simpl in *; [reflexivity|].
      apply andb_true_iff in Hns. destruct Hns as [Ha _].
      apply negb_true_iff in Ha. exact Ha. }
    rewrite Habs, (of_string_component n Hns Hc). reflexivity. }
  split; [|split; [|exact Hj]].
  - rewrite <- Hj. apply name_joinpath; assumption.
  - destruct dir as [|a dir]; simpl.
    + rewrite (no_slash_not_root n Hns). reflexivity.
    + destruct dir as [|b dir]; [reflexivity|].
      change (a :: b :: dir ++ [n]) with ((a :: b :: dir) ++ [n]).
      rewrite removelast_last. reflexivity.
Qed.
(** The suffix the video properties carry, with its dot put back, is the
    suffix of the path. *)
Lemma dropped_suffix (n : string) :
  name_suffix n <> ""%string ->
  normalized_suffix (drop_first (name_suffix n)) = name_suffix n
  /\ normalized_suffix (name_suffix n) = name_suffix n.
Proof.
  intros Hne. destruct (suffix_shape n) as [E|(t & E & Ht)]; [contradiction|].
  rewrite E. unfold normalized_suffix. cbn [drop_first startswith_dot].
  rewrite Ht, Ascii.eqb_refl. split; reflexivity.
Qed.
(** The directory enumeration modelled from the spec only returns paths
    that do not exist. *)
Lemma enumerate_dir_fresh (fs : filesystem) (p : Path) (label : string)
    (q : Path) :
  Utils.enumerate_dir fs p label = Ok q -> exists_ fs q = false.
Proof.
  intros H. destruct (enumerate_dir_total fs p label) as (q' & Hq & Hf).
  congruence.
Qed.

(** The exceptions of the helpers modelled from the spec, in one list. *)
Lemma modelled_helper_errors :
  let l := [FormatError; DomainError; RangeError; ValueError; OverflowError] in
  (forall t, errors_in l (Utils.timestamp_to_seconds t))
  /\ (forall n, errors_in l (Utils.seconds_to_timestamp n))
  /\ (forall a b c, errors_in l (Validators.valid_extraction_range a b c)).
Proof.
  cbv zeta. repeat split; intros.
  - eapply errors_in_incl; [|apply timestamp_to_seconds_errors].
    intros e [<-|[<-|[]]]; simpl; auto 8.
  - eapply errors_in_incl; [|apply seconds_to_timestamp_errors].
    intros e [<-|[<-|[<-|[]]]]; simpl; auto 8.
  - eapply errors_in_incl; [|apply valid_extraction_range_errors].
    intros e [<-|[]]; simpl; auto 8.
Qed.

(** The quotient of two ints below [2^53] is rounded to a float whose
    ceiling is the ceiling of the exact quotient. *)
Lemma images_expected_exact (start stop rate : Z) :
  rate <> 0 -> Z.abs (stop - start) < 2 ^ 53 -> Z.abs rate < 2 ^ 53 ->
  prepare_images_expected (Some start) (Some stop) (Some rate)
  = Ok (ceil_div (stop - start) rate).
Proof.
  intros Hr Ha Hb. unfold prepare_images_expected.
  rewrite ceil_int_truediv by assumption. reflexivity.
Qed.
(** ** Results: the sign of a product *)

(** Shifting a significand that is not negative leaves it so. *)
Lemma shr_fexp_nonneg (m e : Z) (l : location) :
  0 <= m -> 0 <= shr_m (fst (shr_fexp PyFloat.prec PyFloat.emax m e l)).
Proof.
  intros Hm. unfold shr_fexp, shr.
  destruct (fexp PyFloat.prec PyFloat.emax (Zdigits2 m + e) - e) as [|n|n];
    cbn [fst]; rewrite ?iter_shr_1_m; rewrite ?shr_record_of_loc_m; try lia.
  apply Z.div_pos; [lia|]. apply Z.pow_pos_nonneg; lia.
Qed.

(** Rounding never changes the sign and never gives NaN. *)
Lemma binary_round_aux_keeps_sign (s : bool) (m : positive) (e : Z)
    (l : location) :
  match binary_round_aux PyFloat.prec PyFloat.emax s (Zpos m) e l with
  | S754_zero s' | S754_infinity s' | S754_finite s' _ _ => s' = s
  | S754_nan => False
  end.
Proof.
  unfold binary_round_aux.
  pose proof (shr_fexp_nonneg (Zpos m) e l ltac:(lia)) as H1.
  destruct (shr_fexp PyFloat.prec PyFloat.emax (Zpos m) e l) as [mrs' e'].
  cbn [fst] in H1.
  pose proof (round_nearest_even_ge (shr_m mrs') (loc_of_shr_record mrs')) as H3.
  set (m1 := round_nearest_even (shr_m mrs') (loc_of_shr_record mrs')) in *.
  pose proof (shr_fexp_nonneg m1 e' loc_Exact ltac:(lia)) as H4.


  destruct (shr_fexp PyFloat.prec PyFloat.emax m1 e' loc_Exact) as [mrs'' e''].
  cbn [fst] in H4.
  destruct (shr_m mrs'') as [|m2|m2]; try lia; [reflexivity|].
  destruct (e'' <=? PyFloat.emax - PyFloat.prec); reflexivity.
Qed.

(** The floor of a product of two floats that are not below zero is not
    below zero. *)
Lemma floor_mul_nonneg (x y : float) (n : Z) :
  PyFloat.leb PyFloat.zero x = true -> PyFloat.leb PyFloat.zero y = true ->
  PyFloat.floor (PyFloat.mul x y) = Ok n -> 0 <= n.
Proof.
  intros Hx Hy H.
  destruct x as [sx|sx| |sx mx ex]; try discriminate;
    destruct y as [sy|sy| |sy my ey]; try discriminate;
    try (destruct sx; discriminate); try (destruct sy; discriminate);
    try (injection H as <-; lia).
  destruct sx; [discriminate|]. destruct sy; [discriminate|].
  unfold PyFloat.mul, SFmul in H. cbn [xorb] in H.
  pose proof (binary_round_aux_keeps_sign false (mx * my) (ex + ey) loc_Exact) as K.
  destruct (binary_round_aux PyFloat.prec PyFloat.emax false
              (Zpos (mx * my)) (ex + ey) loc_Exact) as [s|s| |s m e];
    try discriminate.
  - injection H as <-. lia.
  - subst s. injection H as <-. cbn [cond_Zopp]. apply Z.shiftl_nonneg. lia.
Qed.

(** ** Further properties of [videoxt/preppers.py] *)

(** X1 ([ExtractionRange.__post_init__], [to_dict]).  Whatever the helper
    functions are, building an extraction range raises nothing but the
    exceptions of the helpers and the [ValueError] and [OverflowError] of
    the built-in conversions [float] and [math.floor]; an object that was
    built has all six prepared fields assigned, so [to_dict] never fails on
    it with [AttributeError]. *)
Theorem post_init_raises_only_helper_errors :
  forall timestamp_to_seconds seconds_to_timestamp valid_extraction_range
         (l : list exn),
    (forall t, errors_in l (timestamp_to_seconds t)) ->
    (forall n, errors_in l (seconds_to_timestamp n)) ->
    (forall a b c, errors_in l (valid_extraction_range a b c)) ->
    forall self : ExtractionRange,
      errors_in (ValueError :: OverflowError :: l)
        (__post_init__ timestamp_to_seconds seconds_to_timestamp
           valid_extraction_range self)
      /\ (forall self',
            __post_init__ timestamp_to_seconds seconds_to_timestamp
              valid_extraction_range self = Ok self' ->
            exists d, to_dict self' = Ok d).
Proof.
  intros tts stt v l Htts Hstt Hv self. rewrite post_init_chain. split.
  - set (l' := ValueError :: OverflowError :: l).
    assert (Hl : incl l l') by (intros e He; unfold l'; simpl; auto).
    assert (Hsec : forall t, errors_in l' (to_seconds tts t)).
    { intros [n|s]; simpl.
      - destruct n as [z|x]; simpl; auto.
        eapply errors_in_incl; [|apply of_int_errors].
        intros e [<-|[]]; unfold l'; simpl; auto.
      - eapply errors_in_incl; [exact Hl|apply Htts]. }
    assert (Hts : forall t, errors_in l' (to_timestamp stt t)).
    { intros [n|s]; simpl; auto.
      eapply errors_in_incl; [exact Hl|apply Hstt]. }
    assert (Hfl : forall x, errors_in l' (PyFloat.floor x)).
    { intros x. eapply errors_in_incl; [|apply floor_errors].
      intros e [<-|[<-|[]]]; unfold l'; simpl; auto. }
    apply errors_in_bind; [apply Hsec|intros s].
    apply errors_in_bind; [apply Hsec|intros e].
    apply errors_in_bind; [eapply errors_in_incl; [exact Hl|apply Hv]|intros _].
    apply errors_in_bind; [apply Hts|intros ts].
    apply errors_in_bind; [apply Hts|intros te].
    apply errors_in_bind; [apply Hfl|intros fs].
    apply errors_in_bind; [apply Hfl|intros fe].
    exact I.
  - intros self' H.
    bind_ok H s Hs. bind_ok H e He. bind_ok H x Hx. bind_ok H ts Hts.
    bind_ok H te Hte. bind_ok H fs Hfs. bind_ok H fe Hfe.
    injection H as <-. eexists. reflexivity.
Qed.
(** X2 ([ExtractionRange.__post_init__]).  Preparing leaves the five
    constructor fields as they were given, and running [__post_init__] again
    on a prepared object succeeds and changes nothing. *)
Theorem post_init_idempotent :
  forall timestamp_to_seconds seconds_to_timestamp valid_extraction_range
         (self self' : ExtractionRange),
    __post_init__ timestamp_to_seconds seconds_to_timestamp
      valid_extraction_range self = Ok self' ->
    __post_init__ timestamp_to_seconds seconds_to_timestamp
      valid_extraction_range self' = Ok self'
    /\ duration_seconds self' = duration_seconds self
    /\ frame_count self' = frame_count self
    /\ start_time self' = start_time self
    /\ stop_time self' = stop_time self
    /\ fps self' = fps self.
Proof.
  intros tts stt v self self' H.
  rewrite post_init_chain in H.
  bind_ok H s Hs. bind_ok H e He. bind_ok H x Hx. bind_ok H ts Hts.
  bind_ok H te Hte. bind_ok H fs Hfs. bind_ok H fe Hfe.
  injection H as <-. split; [|repeat split].
  rewrite post_init_chain. cbn [duration_seconds frame_count start_time stop_time fps].
  rewrite Hs, He. cbn [bind]. rewrite Hx. cbn [bind].
  rewrite Hts, Hte. cbn [bind]. rewrite Hfs, Hfe. reflexivity.
Qed.
(** X3 ([prepare_extraction_range], [ExtractionRange.__post_init__]).  The
    steps run in the order start second, stop second, validation: the
    exception of the first step that fails is the exception of the call,
    whatever the later steps would have done. *)
Theorem range_first_failure_wins :
  forall timestamp_to_seconds seconds_to_timestamp valid_extraction_range
         (duration : float) (frames : Z) (start stop : time_t) (rate : float)
         (e : exn),
    let call :=
      prepare_extraction_range timestamp_to_seconds seconds_to_timestamp
        valid_extraction_range duration frames (Some start) (Some stop)
        (Some rate) in
    (to_seconds timestamp_to_seconds start = Raise e -> call = Raise e)
    /\ (forall s,
          to_seconds timestamp_to_seconds start = Ok s ->
          to_seconds timestamp_to_seconds stop = Raise e -> call = Raise e)
    /\ (forall s t,
          to_seconds timestamp_to_seconds start = Ok s ->
          to_seconds timestamp_to_seconds stop = Ok t ->
          valid_extraction_range s t duration = Raise e -> call = Raise e).
Proof.
  intros tts stt v duration frames start stop rate e call.
  unfold call. rewrite prepare_chain. repeat split.
  - intros ->. reflexivity.
  - intros s -> ->. reflexivity.
  - intros s t -> -> H. cbn [bind]. rewrite H. reflexivity.
Qed.
(** X4 ([prepare_start_time], [prepare_stop_time], [prepare_fps],
    [prepare_extraction_range]).  With no start time, stop time or fps
    requested, a range that is resolved runs from second [0.0] and frame
    [0] to the duration of the video and the frame
    [floor(duration * video_fps)]. *)
Theorem defaults_cover_the_whole_video :
  forall timestamp_to_seconds seconds_to_timestamp valid_extraction_range
         (duration video_fps : float) (frames : Z) (d : range_dict),
    prepare_extraction_range timestamp_to_seconds seconds_to_timestamp
      valid_extraction_range duration frames
      (Some (prepare_start_time None))
      (Some (prepare_stop_time duration None))
      (Some (prepare_fps video_fps None)) = Ok d ->
    d_start_second d = PyFloat.zero
    /\ d_stop_second d = Some duration
    /\ d_start_frame d = 0
    /\ PyFloat.floor (PyFloat.mul duration video_fps) = Ok (d_stop_frame d).
Proof.
  intros tts stt v duration vfps frames d H.
  rewrite prepare_chain in H. cbn [prepare_start_time prepare_stop_time prepare_fps] in H.
  bind_ok H s Hs. bind_ok H e He. bind_ok H x Hx. bind_ok H ts Hts.
  bind_ok H te Hte. bind_ok H fs Hfs. bind_ok H fe Hfe.
  injection H as <-. cbn [d_start_second d_stop_second d_start_frame d_stop_frame].
  vm_compute in Hs. injection Hs as <-.
  cbn in He. injection He as <-.
  repeat split; auto.
  destruct vfps as [b|b| |b m q]; cbn in Hfs; congruence.
Qed.
(** X5 ([ExtractionRange._prepare_start_frame], [_prepare_stop_frame]).
    For whole seconds [a] and [b] and a positive normal frame rate, when
    [a * fps] and [b * fps] are whole numbers below [2^53] they are the
    start and stop frames exactly, with no rounding of the product; the
    frames are ordered as the seconds are. *)
Theorem frames_exact_on_whole_seconds :
  forall timestamp_to_seconds seconds_to_timestamp valid_extraction_range
         (duration : float) (frames a b : Z) (rate : float) (N M : Z)
         (d : range_dict),
    0 <= a < 2 ^ 53 -> 0 <= b < 2 ^ 53 ->
    PyFloat.ltb PyFloat.zero rate = true -> is_normal rate = true ->
    N < 2 ^ 53 -> M < 2 ^ 53 ->
    (inject_Z a * value rate == inject_Z N)%Q ->
    (inject_Z b * value rate == inject_Z M)%Q ->
    prepare_extraction_range timestamp_to_seconds seconds_to_timestamp
      valid_extraction_range duration frames (Some (Num (Int a)))
      (Some (Num (Int b))) (Some rate) = Ok d ->
    d_start_frame d = N /\ d_stop_frame d = M /\ (a <= b -> N <= M).
Proof.
  intros tts stt v duration frames a b rate N M d Ha Hb Hpos Hnorm HN HM QN QM H.
  rewrite prepare_chain in H.
  cbn [to_seconds float_of_number] in H.
  destruct (of_int_exact a ltac:(lia)) as (Ea & _ & _).
  destruct (of_int_exact b ltac:(lia)) as (Eb & _ & _).
  rewrite Ea, Eb in H. cbn [bind] in H.
  bind_ok H x Hx. bind_ok H ts Hts. bind_ok H te Hte.
  bind_ok H fs Hfs. bind_ok H fe Hfe. injection H as <-.
  cbn [d_start_frame d_stop_frame].
  destruct (mul_int_exact a N rate Ha Hpos Hnorm HN QN) as [Fa _].
  destruct (mul_int_exact b M rate Hb Hpos Hnorm HM QM) as [Fb _].
  split; [congruence|]. split; [congruence|].
  intros Hab.
  destruct rate as [s|s| |s m e]; try discriminate.
  destruct s; [discriminate|].
  unfold value, Qeq in QN, QM. cbn [cond_Zopp] in QN, QM.
  destruct e as [|e|e]; cbn [inject_Z Qmult Qnum Qden] in QN, QM.
  - nia.
  - assert (Hv : 0 < Zpos m * 2 ^ Zpos e)
      by (apply Z.mul_pos_pos; [lia|apply Z.pow_pos_nonneg; lia]).
    set (vv := Zpos m * 2 ^ Zpos e) in *.
    assert (a * vv <= b * vv) by (apply Z.mul_le_mono_nonneg_r; lia). lia.
  - rewrite Pos2Z.inj_mul in QN, QM.
    assert (a * Zpos m <= b * Zpos m) by (apply Z.mul_le_mono_nonneg_r; lia).
    nia.
Qed.
(** X6 ([prepare_dimensions]).  When both components times a positive
    normal resize factor are whole numbers below [2^53], these are the
    dimensions returned, exactly. *)
Theorem dimensions_exact_on_whole_products :
  forall (video : Z * Z) (resize : float) (request : option (Z * Z))
         (N M : Z),
    let base := match request with Some d => d | None => video end in
    0 < fst base < 2 ^ 53 -> 0 < snd base < 2 ^ 53 ->
    PyFloat.ltb PyFloat.zero resize = true -> is_normal resize = true ->
    N < 2 ^ 53 -> M < 2 ^ 53 ->
    (inject_Z (fst base) * value resize == inject_Z N)%Q ->
    (inject_Z (snd base) * value resize == inject_Z M)%Q ->
    prepare_dimensions video resize request = Ok (N, M).
Proof.
  intros video resize request N M base Hw Hh Hpos Hnorm HN HM QN QM.
  unfold prepare_dimensions. fold base. unfold PyFloat.neqb.
  destruct (SFeqb resize (PyFloat.lit 1)) eqn:E; cbn [negb].
  - pose proof (eqb_one resize E Hpos) as V.
    rewrite V, Qmult_1_r in QN, QM.
    unfold Qeq in QN, QM. cbn [inject_Z Qnum Qden] in QN, QM.
    destruct base as [w h]. cbn [fst snd] in *. f_equal. f_equal; lia.
  - unfold int_mul_float.
    destruct (of_int_exact (fst base) ltac:(lia)) as (-> & _ & _).
    destruct (of_int_exact (snd base) ltac:(lia)) as (-> & _ & _).
    cbn [bind].
    destruct (mul_lit_exact (fst base) N resize Hw Hpos Hnorm HN QN) as [_ ->].
    destruct (mul_lit_exact (snd base) M resize Hh Hpos Hnorm HM QM) as [_ ->].
    reflexivity.
Qed.
(** X7 ([prepare_dimensions]).  Degenerate resize factors: a factor of zero
    (of either sign) gives [(0, 0)]; NaN gives [ValueError] and an infinite
    factor on a non-zero width gives [OverflowError], both from [int]. *)
Theorem dimensions_degenerate_factors :
  forall (video : Z * Z) (request : option (Z * Z)) (resize : float),
    let base := match request with Some d => d | None => video end in
    Z.abs (fst base) < 2 ^ 53 -> Z.abs (snd base) < 2 ^ 53 ->
    (PyFloat.eqb resize PyFloat.zero = true ->
     prepare_dimensions video resize request = Ok (0, 0))
    /\ (resize = S754_nan ->
        prepare_dimensions video resize request = Raise ValueError)
    /\ (forall s, resize = S754_infinity s -> fst base <> 0 ->
        prepare_dimensions video resize request = Raise OverflowError).
Proof.
  intros video request resize base Hw Hh.
  destruct (of_int_exact (fst base) Hw) as (Ew & Fw & _).
  destruct (of_int_exact (snd base) Hh) as (Eh & Fh & _).
  unfold prepare_dimensions, int_mul_float. fold base. rewrite Ew, Eh.
  cbn [bind]. repeat split.
  - intros E.
    destruct resize as [s|s| |s m e]; try destruct s; try discriminate;
      cbn [PyFloat.neqb SFeqb SFcompare negb];
      destruct (PyFloat.lit (fst base)) as [a|a| |a ma ea]; try discriminate;
      destruct (PyFloat.lit (snd base)) as [b|b| |b mb eb]; try discriminate;
      reflexivity.
  - intros ->. cbn [PyFloat.neqb SFeqb SFcompare negb].
    destruct (PyFloat.lit (fst base)) as [a|a| |a ma ea]; try discriminate;
      reflexivity.
  - intros s -> Hnz.
    pose proof (of_int_sign (fst base) _ Ew) as Hs.
    destruct (fst base) as [|p|p]; [contradiction| |];
      destruct Hs as (m & e & ->); destruct s; reflexivity.
Qed.
(** X8 ([prepare_images_expected]).  For a positive capture rate the number
    returned is the number of frames [start, start + rate, start + 2 * rate,
    ...] that lie before [stop]: it is never negative when [start <= stop],
    and it is zero exactly for an empty range. *)
Theorem images_expected_counts_the_captures :
  forall start stop rate : Z,
    0 < rate < 2 ^ 53 -> Z.abs (stop - start) < 2 ^ 53 ->
    exists n,
      prepare_images_expected (Some start) (Some stop) (Some rate) = Ok n
      /\ (forall i, 0 <= i -> (start + i * rate < stop <-> i < n))
      /\ (start <= stop -> 0 <= n)
      /\ (n = 0 <-> stop <= start /\ start - stop < rate).
Proof.
  intros start stop rate Hr Hd.
  rewrite images_expected_exact by lia.
  exists (ceil_div (stop - start) rate). split; [reflexivity|].
  unfold ceil_div.
  pose proof (Z.div_mod (- (stop - start)) rate ltac:(lia)) as E.
  pose proof (Z.mod_pos_bound (- (stop - start)) rate ltac:(lia)) as B.
  set (q := - (stop - start) / rate) in *.
  set (r := (- (stop - start)) mod rate) in *.
  assert (Hn : (- q - 1) * rate < stop - start <= - q * rate) by nia.
  split; [|split].
  - intros i Hi. split; intros H; nia.
  - intros Hle. nia.
  - split; intros H; nia.
Qed.
(** X9 ([prepare_destpath]).  Two spellings of one request give one result:
    the suffix with or without its leading dot, and an empty requested file
    name or none (both fall back to the stem of the video). *)
Theorem destpath_spelling_is_irrelevant :
  forall (enumerate_filepath : Path -> string -> result Path) (video : Path)
         (request_filename : option string) (request_destdir : option Path)
         (sfx : string) (prepared_overwrite : option bool),
    startswith_dot sfx = false ->
    prepare_destpath enumerate_filepath video request_filename
      request_destdir (Some sfx) prepared_overwrite
    = prepare_destpath enumerate_filepath video request_filename
        request_destdir (Some ("." ++ sfx)%string) prepared_overwrite
    /\ prepare_destpath enumerate_filepath video (Some ""%string)
         request_destdir (Some sfx) prepared_overwrite
       = prepare_destpath enumerate_filepath video None
           request_destdir (Some sfx) prepared_overwrite.
Proof.
  intros enum video fn dd sfx ow H. split.
  - rewrite !prepare_destpath_cases. cbv zeta.
    unfold destination_candidate, destination_filename, normalized_suffix.
    rewrite H. reflexivity.
  - reflexivity.
Qed.

(** X10 ([prepare_destpath]).  Unless overwriting is asked for with [True],
    the result is the enumeration of the candidate under the label
    ["_vxt"]; with an enumeration that only returns paths that do not
    exist, the destination is no existing file. *)
Theorem destpath_without_overwrite_is_fresh :
  forall (fs : filesystem) (enumerate_filepath : Path -> string -> result Path),
    (forall p label q, enumerate_filepath p label = Ok q -> exists_ fs q = false) ->
    forall (video : Path) (request_filename : option string)
           (request_destdir : option Path) (sfx : string)
           (prepared_overwrite : option bool),
      prepared_overwrite <> Some true ->
      prepare_destpath enumerate_filepath video request_filename
        request_destdir (Some sfx) prepared_overwrite
      = enumerate_filepath
          (destination_candidate video request_filename request_destdir sfx)
          "_vxt"%string
      /\ (forall q,
            prepare_destpath enumerate_filepath video request_filename
              request_destdir (Some sfx) prepared_overwrite = Ok q ->
            exists_ fs q = false /\ forall p, exists_ fs p = true -> q <> p).
Proof.
  intros fs enum Hfresh video fn dd sfx ow How.
  assert (E : prepare_destpath enum video fn dd (Some sfx) ow
              = enum (destination_candidate video fn dd sfx) "_vxt"%string).
  { rewrite prepare_destpath_cases. cbv zeta.
    destruct ow as [[|]|]; [contradiction How| |]; reflexivity. }
  split; [exact E|].
  intros q H. rewrite E in H. apply Hfresh in H. split; [exact H|].
  intros p Hp ->. congruence.
Qed.
(** X11 ([prepare_destpath]).  With overwriting allowed and a file name
    that is a plain path component, the destination lies directly in the
    requested directory, or next to the video when none is requested, and
    carries the file name built from the request. *)
Theorem destpath_lands_in_the_directory :
  forall (enumerate_filepath : Path -> string -> result Path) (video : Path)
         (request_filename : option string) (request_destdir : option Path)
         (sfx : string),
    plain_name (destination_filename video request_filename sfx) = true ->
    destination_candidate video request_filename request_destdir sfx <> video ->
    exists q,
      prepare_destpath enumerate_filepath video request_filename
        request_destdir (Some sfx) (Some true) = Ok q
      /\ parent q = match request_destdir with
                    | Some d => d
                    | None => parent video
                    end
      /\ name q = destination_filename video request_filename sfx.
Proof.
  intros enum video fn dd sfx Hplain Hne.
  rewrite prepare_destpath_cases. cbv zeta. cbn [overwrite_allowed andb].
  destruct (Path_eqb (destination_candidate video fn dd sfx) video) eqn:E;
    [apply Path_eqb_eq in E; contradiction|].
  cbn [negb]. eexists. split; [reflexivity|].
  unfold destination_candidate.
  destruct (path_parts (match dd with Some d => d | None => parent video end)
              _ Hplain) as (Hn & Hp & Hj).
  rewrite Hj. split; assumption.
Qed.
(** X12 ([get_video_properties], [prepare_destpath]).  The suffix recorded
    in the video properties is the suffix of the path without its dot.
    Preparing a destination with that suffix and neither a file name nor a
    directory makes the video itself the candidate, so even with
    overwriting allowed the call is the enumeration of the video path under
    ["_vxt"]. *)
Theorem same_format_next_to_the_video_is_enumerated :
  forall (fs : filesystem) (valid_video_filepath : Path -> result Path)
         (VideoCapture : Path -> option capture) (round2 : float -> float)
         (seconds_to_timestamp : number -> result string)
         (enumerate_filepath : Path -> string -> result Path)
         (dir : Path) (n : string) (log log' : list event)
         (props : VideoProperties),
    plain_name n = true -> name_suffix n <> ""%string ->
    get_video_properties fs valid_video_filepath VideoCapture round2
      seconds_to_timestamp (dir ++ [n]) log = (log', Returned props) ->
    ("." ++ vp_suffix props)%string = suffix (dir ++ [n])
    /\ destination_candidate (dir ++ [n]) None None (vp_suffix props)
       = dir ++ [n]
    /\ prepare_destpath enumerate_filepath (dir ++ [n]) None None
         (Some (vp_suffix props)) (Some true)
       = enumerate_filepath (dir ++ [n]) "_vxt"%string.
Proof.
  intros fs vvf VC round2 stt enum dir n log log' props Hplain Hsfx H.
  destruct (path_parts dir n Hplain) as (Hn & Hp & Hj).
  assert (Es : vp_suffix props = drop_first (name_suffix n)).
  { unfold get_video_properties in H.
    destruct (open_video_capture fs vvf VC (dir ++ [n]) _ log) as [lg [[[f c] dm]|e]];
      [|discriminate].
    injection H as _ H.
    destruct (PyFloat.of_int c) as [x|]; [|discriminate]. cbn [bind] in H.
    destruct (float_truediv x f) as [q|]; [|discriminate]. cbn [bind] in H.
    destruct (stt (Float (round2 q))) as [ts|]; [|discriminate].
    cbn [bind lift] in H. injection H as <-. cbn [vp_suffix].
    unfold suffix. rewrite Hn. reflexivity. }
  destruct (dropped_suffix n Hsfx) as [Hd _].
  assert (Ec : destination_candidate (dir ++ [n]) None None (vp_suffix props)
               = dir ++ [n]).
  { unfold destination_candidate, destination_filename, stem.
    rewrite Es, Hd, Hn, Hp, stem_suffix. exact Hj. }
  split; [|split; [exact Ec|]].
  - rewrite Es. unfold suffix. rewrite Hn.
    destruct (suffix_shape n) as [E|(t & E & Ht)]; [contradiction|].
    rewrite E. reflexivity.
  - rewrite prepare_destpath_cases. cbv zeta.
    rewrite Ec, Path_eqb_refl. reflexivity.
Qed.
(** X13 ([prepare_destpath_frames]).  With no directory requested, the
    default directory is spelt like the video path itself; without
    overwriting the call is its enumeration under ["_frames"], and for a
    video that exists the directory returned is never the video path. *)
Theorem destpath_frames_default_is_never_the_video :
  forall (fs : filesystem) (enumerate_dir : Path -> string -> result Path),
    (forall p label q, enumerate_dir p label = Ok q -> exists_ fs q = false) ->
    forall (dir : Path) (n : string) (prepared_overwrite : option bool),
      plain_name n = true -> exists_ fs (dir ++ [n]) = true ->
      default_destdir (dir ++ [n]) = dir ++ [n]
      /\ (prepared_overwrite <> Some true ->
          prepare_destpath_frames enumerate_dir (dir ++ [n]) None
            prepared_overwrite
          = enumerate_dir (dir ++ [n]) "_frames"%string)
      /\ (forall q,
            prepare_destpath_frames enumerate_dir (dir ++ [n]) None
              prepared_overwrite = Ok q ->
            q <> dir ++ [n]).
Proof.
  intros fs enum Hfresh dir n ow Hplain Hex.
  destruct (path_parts dir n Hplain) as (Hn & Hp & Hj).
  assert (Ed : default_destdir (dir ++ [n]) = dir ++ [n]).
  { unfold default_destdir. rewrite Hn, Hp. exact Hj. }
  split; [exact Ed|]. split.
  - intros How. unfold prepare_destpath_frames. fold (default_destdir (dir ++ [n])).
    rewrite Ed. destruct ow as [[|]|]; [contradiction How| |]; reflexivity.
  - intros q H. unfold prepare_destpath_frames in H.
    fold (default_destdir (dir ++ [n])) in H. rewrite Ed in H.
    destruct ow as [[|]|].
    + injection H as <-.
      destruct (path_parts (dir ++ [n]) "_frames"%string eq_refl) as (_ & _ & ->).
      intros E. apply (f_equal (@List.length string)) in E.
      rewrite !length_app in E. simpl in E. lia.
    + apply Hfresh in H. intros ->. congruence.
    + apply Hfresh in H. intros ->. congruence.
Qed.
(** X14 ([prepare_destpath_frames]).  With no directory requested and
    overwriting allowed, the directory returned is named ["_frames"] and
    lies under a path spelt like the video file itself: its parent is the
    video path, and nothing is enumerated. *)
Theorem destpath_frames_overwrite_nests_under_the_video :
  forall (enumerate_dir : Path -> string -> result Path) (dir : Path)
         (n : string),
    plain_name n = true ->
    exists q,
      prepare_destpath_frames enumerate_dir (dir ++ [n]) None (Some true)
      = Ok q
      /\ q = dir ++ [n; "_frames"%string]
      /\ parent q = dir ++ [n]
      /\ name q = "_frames"%string.
Proof.
  intros enum dir n Hplain.
  destruct (path_parts dir n Hplain) as (Hn & Hp & Hj).
  destruct (path_parts (dir ++ [n]) "_frames"%string eq_refl)
    as (Hn' & Hp' & Hj').
  exists ((dir ++ [n]) ++ ["_frames"%string]).
  unfold prepare_destpath_frames. rewrite Hn, Hp, Hj, Hj'.
  repeat split; auto. rewrite <- app_assoc. reflexivity.
Qed.

(** X17 ([ExtractionRange._prepare_start_frame], [_prepare_stop_frame]).
    Whatever the helper functions are, in a resolved range with a frame
    rate that is not below zero, a start second that is not below zero
    gives a start frame that is not negative, and likewise for the stop. *)
Theorem frames_are_not_negative :
  forall timestamp_to_seconds seconds_to_timestamp valid_extraction_range
         (duration : float) (frames : Z) (start stop : time_t) (rate : float)
         (d : range_dict),
    prepare_extraction_range timestamp_to_seconds seconds_to_timestamp
      valid_extraction_range duration frames (Some start) (Some stop)
      (Some rate) = Ok d ->
    PyFloat.leb PyFloat.zero rate = true ->
    (PyFloat.leb PyFloat.zero (d_start_second d) = true ->
     0 <= d_start_frame d)
    /\ (forall e, d_stop_second d = Some e ->
        PyFloat.leb PyFloat.zero e = true -> 0 <= d_stop_frame d).
Proof.
  intros tts stt v duration frames start stop rate d H Hr.
  rewrite prepare_chain in H.
  bind_ok H s Hs. bind_ok H e He. bind_ok H x Hx. bind_ok H ts Hts.
  bind_ok H te Hte. bind_ok H fs Hfs. bind_ok H fe Hfe.
  injection H as <-.
  cbn [d_start_second d_stop_second d_start_frame d_stop_frame]. split.
  - intros H0. exact (floor_mul_nonneg s rate fs H0 Hr Hfs).
  - intros e' E H0. injection E as <-.
    exact (floor_mul_nonneg e rate fe H0 Hr Hfe).
Qed.

(** ** Further properties of [videoxt/video.py] *)

(** X15 ([open_video_capture], [get_video_properties]).  A missing file is
    answered with [FileNotFoundError] before anything else is looked at.
    In every outcome the log of capture calls is either untouched (and
    the call raised) or extended by one open and the matching release: no
    capture is left open, also when reading the properties fails. *)
Theorem capture_is_released_in_every_outcome :
  forall (fs : filesystem) (valid_video_filepath : Path -> result Path)
         (VideoCapture : Path -> option capture) (round2 : float -> float)
         (seconds_to_timestamp : number -> result string)
         (video : Path) (log log' : list event)
         (r : outcome VideoProperties),
    get_video_properties fs valid_video_filepath VideoCapture round2
      seconds_to_timestamp video log = (log', r) ->
    (exists_ fs video = false -> log' = log /\ r = Raised FileNotFoundError)
    /\ ((log' = log /\ exists e, r = Raised e)
        \/ (exists p cap,
              exists_ fs video = true
              /\ valid_video_filepath video = Ok p
              /\ VideoCapture p = Some cap
              /\ log' = log ++ [Opened p; Released p]))
    /\ (forall props, r = Returned props ->
        exists p, log' = log ++ [Opened p; Released p]).
Proof.
  intros fs vvf VC round2 stt video log log' r H.
  unfold get_video_properties, open_video_capture in H.
  destruct (exists_ fs video) eqn:Ex; cbn [negb] in H.
  2:{ injection H as <- <-. split; [auto|]. split; [left; eauto|].
      intros props E; discriminate. }
  split; [discriminate|].
  destruct (vvf video) as [p|e] eqn:Ev.
  2:{ injection H as <- <-. split; [left; eauto|]. intros props E; discriminate. }
  destruct (VC p) as [cap|] eqn:Ec.
  2:{ injection H as <- <-. split; [left; eauto|]. intros props E; discriminate. }
  assert (L : (log ++ [Opened p]) ++ [Released p] = log ++ [Opened p; Released p])
    by (rewrite <- app_assoc; reflexivity).
  rewrite L in H.
  assert (E : log' = log ++ [Opened p; Released p]).
  { destruct (lift _) as [[[f c] dm]|e] in H; injection H as <- _; reflexivity. }
  split; [right; exists p, cap; auto|]. intros props _. eauto.
Qed.
(** X16 ([get_video_properties]).  A video whose frame rate rounds to
    [0.0] makes [frame_count / fps] raise [ZeroDivisionError]; the capture
    has been released by then. *)
Theorem zero_frame_rate_is_a_division_error :
  forall (fs : filesystem) (valid_video_filepath : Path -> result Path)
         (VideoCapture : Path -> option capture) (round2 : float -> float)
         (seconds_to_timestamp : number -> result string)
         (video p : Path) (cap : capture) (log : list event) (n w h : Z),
    exists_ fs video = true ->
    valid_video_filepath video = Ok p ->
    VideoCapture p = Some cap ->
    PyFloat.trunc (CAP_PROP_FRAME_COUNT cap) = Ok n -> Z.abs n < 2 ^ 53 ->
    PyFloat.trunc (CAP_PROP_FRAME_WIDTH cap) = Ok w ->
    PyFloat.trunc (CAP_PROP_FRAME_HEIGHT cap) = Ok h ->
    PyFloat.eqb (round2 (CAP_PROP_FPS cap)) PyFloat.zero = true ->
    get_video_properties fs valid_video_filepath VideoCapture round2
      seconds_to_timestamp video log
    = (log ++ [Opened p; Released p], Raised (Python ZeroDivisionError)).
Proof.
  intros fs vvf VC round2 stt video p cap log n w h Ex Ev Ec Hn Hb Hw Hh Hz.
  unfold get_video_properties, open_video_capture.
  rewrite Ex, Ev, Ec, Hn, Hw, Hh. cbn [negb bind lift].
  destruct (of_int_exact n Hb) as (-> & _). cbn [bind].
  unfold float_truediv. rewrite Hz. cbn [lift].
  rewrite <- app_assoc. reflexivity.
Qed.

(** ** The further properties at concrete inputs *)

(** X1 on the video of 20 seconds, with the helpers modelled from the
    spec. *)
Lemma X1_witness :
  errors_in
    [ValueError; OverflowError; FormatError; DomainError; RangeError;
     ValueError; OverflowError]
    (__post_init__ Utils.timestamp_to_seconds Utils.seconds_to_timestamp
       Validators.valid_extraction_range
       (new_ExtractionRange f20 600 (Str "00:00:05") (Num (Int 10)) f30)).
Proof.
  exact (proj1 (post_init_raises_only_helper_errors
                  Utils.timestamp_to_seconds Utils.seconds_to_timestamp
                  Validators.valid_extraction_range
                  [FormatError; DomainError; RangeError; ValueError;
                   OverflowError]
                  (proj1 modelled_helper_errors)
                  (proj1 (proj2 modelled_helper_errors))
                  (proj2 (proj2 modelled_helper_errors))
                  (new_ExtractionRange f20 600 (Str "00:00:05")
                     (Num (Int 10)) f30))).
Defined.

(** X2 on the same object. *)
Lemma X2_witness :
  exists self',
    __post_init__ Utils.timestamp_to_seconds Utils.seconds_to_timestamp
      Validators.valid_extraction_range
      (new_ExtractionRange f20 600 (Str "00:00:05") (Num (Int 10)) f30)
    = Ok self'
    /\ __post_init__ Utils.timestamp_to_seconds Utils.seconds_to_timestamp
         Validators.valid_extraction_range self' = Ok self'.
Proof.
  eexists. split; [vm_compute; reflexivity|].
  refine (proj1 (post_init_idempotent Utils.timestamp_to_seconds
                   Utils.seconds_to_timestamp
                   Validators.valid_extraction_range
                   (new_ExtractionRange f20 600 (Str "00:00:05")
                      (Num (Int 10)) f30) _ _)).
  vm_compute. reflexivity.
Defined.

(** X3 with a start that is no timestamp and a stop beyond the video. *)
Lemma X3_witness :
  Videoxt.prepare_extraction_range f20 600 (Some (Str "soon"))
    (Some (Num (Int 25))) (Some f30) = Raise FormatError.
Proof.
  refine (proj1 (range_first_failure_wins Utils.timestamp_to_seconds
                   Utils.seconds_to_timestamp
                   Validators.valid_extraction_range f20 600 (Str "soon")
                   (Num (Int 25)) f30 FormatError) _).
  vm_compute. reflexivity.
Defined.

(** X4 on the video of 20 seconds at 30 frames per second. *)
Lemma X4_witness :
  exists d,
    Videoxt.prepare_extraction_range f20 600 (Some (prepare_start_time None))
      (Some (prepare_stop_time f20 None)) (Some (prepare_fps f30 None))
    = Ok d
    /\ d_start_second d = PyFloat.zero
    /\ d_stop_second d = Some f20
    /\ d_start_frame d = 0
    /\ PyFloat.floor (PyFloat.mul f20 f30) = Ok (d_stop_frame d).
Proof.
  eexists. split; [vm_compute; reflexivity|].
  refine (defaults_cover_the_whole_video Utils.timestamp_to_seconds
            Utils.seconds_to_timestamp Validators.valid_extraction_range
            f20 f30 600 _ _).
  vm_compute. reflexivity.
Defined.

(** X5 from second 10 to second 20 at 30 frames per second. *)
Lemma X5_witness :
  exists d,
    Videoxt.prepare_extraction_range f20 600 (Some (Num (Int 10)))
      (Some (Num (Int 20))) (Some f30) = Ok d
    /\ d_start_frame d = 300 /\ d_stop_frame d = 600
    /\ (10 <= 20 -> 300 <= 600).
Proof.
  eexists. split; [vm_compute; reflexivity|].
  refine (frames_exact_on_whole_seconds Utils.timestamp_to_seconds
            Utils.seconds_to_timestamp Validators.valid_extraction_range
            f20 600 10 20 f30 300 600 _ _ _ _ _ _ _ _ _ _).
  - lia.
  - lia.
  - reflexivity.
  - reflexivity.
  - lia.
  - lia.
  - vm_compute. reflexivity.
  - vm_compute. reflexivity.
  - vm_compute. reflexivity.
Defined.

(** X6 on 1920 by 1080 and the factor 0.5. *)
Lemma X6_witness :
  prepare_dimensions (1920, 1080) f0_5 None = Ok (960, 540).
Proof.
  refine (dimensions_exact_on_whole_products (1920, 1080) f0_5 None 960 540
            _ _ _ _ _ _ _ _).
  - simpl. lia.
  - simpl. lia.
  - reflexivity.
  - reflexivity.
  - lia.
  - lia.
  - vm_compute. reflexivity.
  - vm_compute. reflexivity.
Defined.

(** X7 on 1920 by 1080 and the factor 0.0. *)
Lemma X7_witness :
  prepare_dimensions (1920, 1080) PyFloat.zero None = Ok (0, 0).
Proof.
  refine (proj1 (dimensions_degenerate_factors (1920, 1080) None
                   PyFloat.zero _ _) _).
  - simpl. lia.
  - simpl. lia.
  - reflexivity.
Defined.

(** X8 from frame 0 to frame 300 at rate 7: 43 images, frames 0, 7, ...,
    294. *)
Lemma X8_witness :
  exists n,
    prepare_images_expected (Some 0) (Some 300) (Some 7) = Ok n
    /\ (forall i, 0 <= i -> (0 + i * 7 < 300 <-> i < n))
    /\ (0 <= 300 -> 0 <= n)
    /\ (n = 0 <-> 300 <= 0 /\ 0 - 300 < 7).
Proof.
  refine (images_expected_counts_the_captures 0 300 7 _ _).
  - lia.
  - simpl. lia.
Defined.

(** X9 with the suffix ["mp3"]. *)
Lemma X9_witness :
  Videoxt.prepare_destpath [of_string "/v/clip.mp4"] (of_string "/v/clip.mp4")
    None None (Some "mp3"%string) (Some true)
  = Videoxt.prepare_destpath [of_string "/v/clip.mp4"]
      (of_string "/v/clip.mp4") None None (Some ".mp3"%string) (Some true).
Proof.
  refine (proj1 (destpath_spelling_is_irrelevant
                   (Utils.enumerate_filepath [of_string "/v/clip.mp4"])
                   (of_string "/v/clip.mp4") None None "mp3"%string
                   (Some true) _)).
  reflexivity.
Defined.

(** X10 where the candidate [/v/clip.mp3] exists already. *)
Lemma X10_witness :
  Videoxt.prepare_destpath
    [of_string "/v/clip.mp4"; of_string "/v/clip.mp3"]
    (of_string "/v/clip.mp4") None None (Some "mp3"%string) None
  = Ok (of_string "/v/clip_vxt1.mp3")
  /\ exists_ [of_string "/v/clip.mp4"; of_string "/v/clip.mp3"]
       (of_string "/v/clip_vxt1.mp3") = false.
Proof.
  split; [vm_compute; reflexivity|].
  refine (proj1 (proj2 (destpath_without_overwrite_is_fresh
                          [of_string "/v/clip.mp4"; of_string "/v/clip.mp3"]
                          (Utils.enumerate_filepath
                             [of_string "/v/clip.mp4";
                              of_string "/v/clip.mp3"])
                          (enumerate_filepath_fresh
                             [of_string "/v/clip.mp4";
                              of_string "/v/clip.mp3"])
                          (of_string "/v/clip.mp4") None None "mp3"%string
                          None _)
                   (of_string "/v/clip_vxt1.mp3") _)).
  - discriminate.
  - vm_compute. reflexivity.
Defined.

(** X11 with the directory [/out] requested. *)
Lemma X11_witness :
  exists q,
    Videoxt.prepare_destpath [of_string "/v/clip.mp4"]
      (of_string "/v/clip.mp4") None (Some (of_string "/out"))
      (Some "mp3"%string) (Some true) = Ok q
    /\ parent q = of_string "/out"
    /\ name q = "clip.mp3"%string.
Proof.
  refine (destpath_lands_in_the_directory
            (Utils.enumerate_filepath [of_string "/v/clip.mp4"])
            (of_string "/v/clip.mp4") None (Some (of_string "/out"))
            "mp3"%string _ _).
  - reflexivity.
  - vm_compute. discriminate.
Defined.

(** X12 on [/v/clip.mp4], 600 frames of 1920 by 1080 at 30 frames per
    second; the readings have at most two decimals, so [round(x, 2)] leaves
    them as they are. *)
Lemma X12_witness :
  exists props,
    get_video_properties [of_string "/v/clip.mp4"] (fun p => Ok p)
      (fun _ => Some (mkCapture f30 (PyFloat.lit 600) (PyFloat.lit 1920)
                        (PyFloat.lit 1080)))
      (fun x => x) Utils.seconds_to_timestamp (of_string "/v/clip.mp4") []
    = ([Opened (of_string "/v/clip.mp4");
        Released (of_string "/v/clip.mp4")], Returned props)
    /\ vp_suffix props = "mp4"%string
    /\ Videoxt.prepare_destpath [of_string "/v/clip.mp4"]
         (of_string "/v/clip.mp4") None None (Some (vp_suffix props))
         (Some true)
       = Utils.enumerate_filepath [of_string "/v/clip.mp4"]
           (of_string "/v/clip.mp4") "_vxt"%string.
Proof.
  eexists. split; [vm_compute; reflexivity|]. split; [reflexivity|].
  refine (proj2 (proj2 (same_format_next_to_the_video_is_enumerated
            [of_string "/v/clip.mp4"] (fun p => Ok p)
            (fun _ => Some (mkCapture f30 (PyFloat.lit 600)
                              (PyFloat.lit 1920) (PyFloat.lit 1080)))
            (fun x => x) Utils.seconds_to_timestamp
            (Utils.enumerate_filepath [of_string "/v/clip.mp4"])
            (of_string "/v") "clip.mp4"%string []
            [Opened (of_string "/v/clip.mp4");
             Released (of_string "/v/clip.mp4")] _ _ _ _))).
  - reflexivity.
  - vm_compute. discriminate.
  - vm_compute. reflexivity.
Defined.

(** X13 without overwriting: the frames of [/v/clip.mp4] go to a
    directory other than the video. *)
Lemma X13_witness :
  exists q,
    Videoxt.prepare_destpath_frames [of_string "/v/clip.mp4"]
      (of_string "/v/clip.mp4") None None = Ok q
    /\ q <> of_string "/v/clip.mp4".
Proof.
  eexists. split; [vm_compute; reflexivity|].
  refine (proj2 (proj2 (destpath_frames_default_is_never_the_video
            [of_string "/v/clip.mp4"]
            (Utils.enumerate_dir [of_string "/v/clip.mp4"])
            (enumerate_dir_fresh [of_string "/v/clip.mp4"])
            (of_string "/v") "clip.mp4"%string None _ _)) _ _).
  - reflexivity.
  - reflexivity.
  - vm_compute. reflexivity.
Defined.

(** X14 on [/v/clip.mp4]. *)
Lemma X14_witness :
  exists q,
    Videoxt.prepare_destpath_frames [of_string "/v/clip.mp4"]
      (of_string "/v" ++ ["clip.mp4"%string]) None (Some true) = Ok q
    /\ q = of_string "/v" ++ ["clip.mp4"%string; "_frames"%string]
    /\ parent q = of_string "/v" ++ ["clip.mp4"%string]
    /\ name q = "_frames"%string.
Proof.
  refine (destpath_frames_overwrite_nests_under_the_video
            (Utils.enumerate_dir [of_string "/v/clip.mp4"])
            (of_string "/v") "clip.mp4"%string _).
  reflexivity.
Defined.

(** X15 on [/v/clip.mp4]: one open, one release. *)
Lemma X15_witness :
  exists props,
    get_video_properties [of_string "/v/clip.mp4"] (fun p => Ok p)
      (fun _ => Some (mkCapture f30 (PyFloat.lit 600) (PyFloat.lit 1920)
                        (PyFloat.lit 1080)))
      (fun x => x) Utils.seconds_to_timestamp (of_string "/v/clip.mp4") []
    = ([Opened (of_string "/v/clip.mp4");
        Released (of_string "/v/clip.mp4")], Returned props)
    /\ exists p,
         [Opened (of_string "/v/clip.mp4");
          Released (of_string "/v/clip.mp4")]
         = [] ++ [Opened p; Released p].
Proof.
  eexists. split; [vm_compute; reflexivity|].
  refine (proj2 (proj2 (capture_is_released_in_every_outcome
            [of_string "/v/clip.mp4"] (fun p => Ok p)
            (fun _ => Some (mkCapture f30 (PyFloat.lit 600)
                              (PyFloat.lit 1920) (PyFloat.lit 1080)))
            (fun x => x) Utils.seconds_to_timestamp
            (of_string "/v/clip.mp4") []
            [Opened (of_string "/v/clip.mp4");
             Released (of_string "/v/clip.mp4")] (Returned _) _)) _ eq_refl).
  vm_compute. reflexivity.
Defined.

(** X16 on a capture that reports no frame rate. *)
Lemma X16_witness :
  get_video_properties [of_string "/v/clip.mp4"] (fun p => Ok p)
    (fun _ => Some (mkCapture PyFloat.zero (PyFloat.lit 600)
                      (PyFloat.lit 1920) (PyFloat.lit 1080)))
    (fun x => x) Utils.seconds_to_timestamp (of_string "/v/clip.mp4") []
  = ([] ++ [Opened (of_string "/v/clip.mp4");
            Released (of_string "/v/clip.mp4")],
     Raised (Python ZeroDivisionError)).
Proof.
  refine (zero_frame_rate_is_a_division_error [of_string "/v/clip.mp4"]
            (fun p => Ok p)
            (fun _ => Some (mkCapture PyFloat.zero (PyFloat.lit 600)
                              (PyFloat.lit 1920) (PyFloat.lit 1080)))
            (fun x => x) Utils.seconds_to_timestamp
            (of_string "/v/clip.mp4") (of_string "/v/clip.mp4")
            (mkCapture PyFloat.zero (PyFloat.lit 600) (PyFloat.lit 1920)
               (PyFloat.lit 1080))
            [] 600 1920 1080 _ _ _ _ _ _ _ _).
  - reflexivity.
  - reflexivity.
  - reflexivity.
  - vm_compute. reflexivity.
  - simpl. lia.
  - vm_compute. reflexivity.
  - vm_compute. reflexivity.
  - reflexivity.
Defined.

(** X17 on the range from 10 to 20 at 30 frames per second. *)
Lemma X17_witness :
  exists d,
    Videoxt.prepare_extraction_range f20 600 (Some (Num (Int 10)))
      (Some (Num (Int 20))) (Some f30) = Ok d
    /\ 0 <= d_start_frame d.
Proof.
  eexists. split; [vm_compute; reflexivity|].
  refine (proj1 (frames_are_not_negative Utils.timestamp_to_seconds
                   Utils.seconds_to_timestamp
                   Validators.valid_extraction_range f20 600
                   (Num (Int 10)) (Num (Int 20)) f30 _ _ _) _).
  - vm_compute. reflexivity.
  - reflexivity.
  - reflexivity.
Defined.
